(** * ProductTesting: a shallow embedding of [src/components/ProductTesting.tsx]

    The React component keeps a little UI state, reads three tables of a
    hosted record store through queries, and exports a test report along two
    delivery paths.  The handlers are embedded as programs of a small
    state-and-exception monad over an explicit [World]; the pure helpers
    ([getStatusIcon], [getStatusStats], the file-name templates) are plain
    functions.  JavaScript strings are sequences of UTF-16 code units. *)

From Stdlib Require Import String Ascii DecimalString DecimalZ.
From Stdlib Require Import PrimFloat Uint63.
From Stdlib Require Import List NArith ZArith Bool Arith Lia.
From Stdlib Require Import Permutation.
Import ListNotations.

(* ------------------------------------------------------------------ *)
(** ** JavaScript strings *)

Module JS.

Definition code_unit := N.
Definition jsstring := list code_unit.

(** A string literal of the source, as code units. *)
Fixpoint lit (s : string) : jsstring :=
  match s with
  | EmptyString => []
  | String a s' => N_of_ascii a :: lit s'
  end.

Definition jsstring_eq_dec : forall a b : jsstring, {a = b} + {a <> b} :=
  list_eq_dec N.eq_dec.

(** [a === b] on strings. *)
Definition strict_eq (a b : jsstring) : bool :=
  if jsstring_eq_dec a b then true else false.

(** [!s] is [true] exactly for the empty string. *)
Definition truthy (s : jsstring) : bool :=
  match s with [] => false | _ :: _ => true end.

(** [o || ''] for [o : string | null]. *)
Definition or_empty (o : option jsstring) : jsstring :=
  match o with
  | Some s => if truthy s then s else []
  | None => []
  end.

(** The regular-expression class [\s]: ECMAScript WhiteSpace and
    LineTerminator code points (all in the basic plane). *)
Definition is_whitespace (c : code_unit) : bool :=
  ((9 <=? c) && (c <=? 13) || (c =? 32) || (c =? 160) || (c =? 0x1680)
   || (0x2000 <=? c) && (c <=? 0x200a)
   || (c =? 0x2028) || (c =? 0x2029) || (c =? 0x202f) || (c =? 0x205f)
   || (c =? 0x3000) || (c =? 0xfeff))%N.

Fixpoint dropWhile (cls : code_unit -> bool) (s : jsstring) : jsstring :=
  match s with
  | [] => []
  | c :: rest => if cls c then dropWhile cls rest else s
  end.

(** [s.replace(/C+/g, by)] for a character class [C]: the scan starts at
    the left; where the next unit is in the class the greedy [C+] consumes
    the whole run and [by] is emitted, otherwise the unit is copied.  The
    fuel bounds the number of scan steps; [length s] always suffices. *)
Fixpoint replace_scan (cls : code_unit -> bool) (by_ : jsstring)
         (fuel : nat) (s : jsstring) : jsstring :=
  match fuel with
  | O => s
  | S fuel' =>
      match s with
      | [] => []
      | c :: rest =>
          if cls c
          then by_ ++ replace_scan cls by_ fuel' (dropWhile cls rest)
          else c :: replace_scan cls by_ fuel' rest
      end
  end.

Definition replace_runs (cls : code_unit -> bool) (by_ s : jsstring) : jsstring :=
  replace_scan cls by_ (length s) s.

(** [`${n}`] for an integral Number below 1e21 in magnitude: the decimal
    digits, with a leading minus sign for a negative value. *)
Definition Number_toString (n : Z) : jsstring :=
  lit (NilZero.string_of_int (Z.to_int n)).

Definition is_digit (c : code_unit) : bool := ((48 <=? c) && (c <=? 57))%N.

(** The number that a string of decimal digits denotes, read from the
    left: each digit multiplies what was read by ten and adds itself. *)
Definition decimal_value (s : jsstring) : Z :=
  fold_left (fun acc c => (10 * acc + (Z.of_N c - 48))%Z) s 0%Z.

(** The specification's reading of the same replacement: cut the string
    into its maximal runs of units of one kind (in the class, or not), and
    put [by_] in place of every run that is in the class. *)
Fixpoint runs (cls : code_unit -> bool) (s : jsstring) : list (bool * jsstring) :=
  match s with
  | [] => []
  | c :: rest =>
      match runs cls rest with
      | (b, r) :: rs =>
          if Bool.eqb (cls c) b then (b, c :: r) :: rs
          else (cls c, [c]) :: (b, r) :: rs
      | [] => [(cls c, [c])]
      end
  end.

Definition collapse_runs (cls : code_unit -> bool) (by_ s : jsstring) : jsstring :=
  concat (map (fun br : bool * jsstring => if fst br then by_ else snd br)
              (runs cls s)).

(** Neighbouring runs are of different kinds. *)
Fixpoint alternating (l : list (bool * jsstring)) : Prop :=
  match l with
  | br :: ((br' :: _) as tl) => fst br <> fst br' /\ alternating tl
  | _ => True
  end.

End JS.
Import JS.

(* ------------------------------------------------------------------ *)
(** ** Suggested file names of the two delivery paths *)

(** [handleDownloadWordReport], the [a.download] template: the product name
    with [.replace(/\s+/g, '_')], then [_test_report_], [Date.now()] and
    [.docx]. *)
Definition downloadFilename (name : jsstring) (now : Z) : jsstring :=
  replace_runs is_whitespace (lit "_") name
    ++ lit "_test_report_" ++ Number_toString now ++ lit ".docx".

(** [handleEmailReport], the [a.download] template. *)
Definition emailFilename (name : jsstring) : jsstring :=
  replace_runs is_whitespace (lit "_") name ++ lit "_test_report.docx".

Inductive purpose := Download | Email.

(** File-name generation of either path as one function of
    (name, purpose, timestamp). *)
Definition suggestedFilename (name : jsstring) (p : purpose) (now : Z) : jsstring :=
  match p with
  | Download => downloadFilename name now
  | Email => emailFilename name
  end.

(** Two exports of one product at different times get different names. *)
Definition collision_safe (p : purpose) : Prop :=
  forall name t1 t2, t1 <> t2 ->
    suggestedFilename name p t1 <> suggestedFilename name p t2.

(* ------------------------------------------------------------------ *)
(** ** Status markers *)

Inductive icon := CheckCircle | XCircle | Circle.

(** A rendered icon element: the component and its [className]. *)
Record element := mkElement { component : icon; className : string }.

Definition getStatusIcon (status : jsstring) : element :=
  if strict_eq status (lit "working")
  then mkElement CheckCircle "w-5 h-5 text-green-500"
  else if strict_eq status (lit "not-working")
  then mkElement XCircle "w-5 h-5 text-red-500"
  else mkElement Circle "w-5 h-5 text-gray-400".

(* ------------------------------------------------------------------ *)
(** ** Records of the store *)

Module Product.
Record t := mk {
  id : jsstring;
  inventoryId : jsstring;
  name : jsstring;
  description : jsstring;
  price : float;
  updatedAt : Z
}.
End Product.

Module ComponentTest.
Record t := mk {
  id : jsstring;
  productId : jsstring;
  name : jsstring;
  status : jsstring;
  notes : jsstring;
  testedAt : option Z
}.

(** The partial record of an [update] call. *)
Record patch := mkPatch {
  set_productId : option jsstring;
  set_status : option jsstring;
  set_notes : option jsstring;
  set_testedAt : option Z
}.

Definition apply (p : patch) (c : t) : t :=
  mk (id c)
     (match set_productId p with Some v => v | None => productId c end)
     (name c)
     (match set_status p with Some v => v | None => status c end)
     (match set_notes p with Some v => v | None => notes c end)
     (match set_testedAt p with Some v => Some v | None => testedAt c end).
End ComponentTest.

Module ProductPhoto.
Record t := mk {
  id : jsstring;
  productId : jsstring;
  url : jsstring
}.
End ProductPhoto.

(* ------------------------------------------------------------------ *)
(** ** The report builder *)

Inductive error := Error (message : jsstring).

(** How an awaited call settles. *)
Inductive outcome (A : Type) :=
| Resolved (a : A)
| Rejected (e : error).
Arguments Resolved {A} a.
Arguments Rejected {A} e.

Module ReportBuilder.

(** The document model of the builder.  Modelled from the spec (sections 3
    and 4.1): the report document is a title block, a components section, a
    photos section, an optional screenshot and a generated-at stamp. *)

(** Modelled from the spec: the marker a status renders as. *)
Inductive marker := MarkWorking | MarkNotWorking | MarkUntested.

(** Modelled from the spec: name, inventory id, description and price. *)
Record TitleBlock := mkTitle {
  title_name : jsstring;
  title_inventoryId : jsstring;
  title_description : jsstring;
  title_price : float
}.

(** Modelled from the spec: one entry of the components section. *)
Record ComponentEntry := mkEntry {
  entry_name : jsstring;
  entry_marker : marker;
  entry_notes : jsstring;
  entry_testedAt : option Z
}.

(** Modelled from the spec: an embedded image, or the marker that stands in
    for an image that could not be embedded. *)
Inductive ImageEntry :=
| Embedded (source : jsstring)
| ImageUnavailable (source : jsstring).

Definition image_source (e : ImageEntry) : jsstring :=
  match e with Embedded s => s | ImageUnavailable s => s end.

(** Modelled from the spec: the report document. *)
Record Document := mkDocument {
  titleBlock : TitleBlock;
  componentsSection : list ComponentEntry;
  photosSection : list ImageEntry;
  screenshotSection : option ImageEntry;
  generatedAt : Z
}.


Definition InvalidInput : error := Error (lit "InvalidInput").

Section Build.
(** Whether an image source (a data URI or a URL) can be decoded and
    embedded. *)
Variable decodes : jsstring -> bool.

(** Modelled from the spec: a marker of its own for each of the three enum
    values; any other status renders as [untested]. *)
Definition statusMarker (status : jsstring) : marker :=
  if strict_eq status (lit "working") then MarkWorking
  else if strict_eq status (lit "not-working") then MarkNotWorking
  else MarkUntested.

(** Modelled from the spec: name, status marker, notes and last-tested time
    of one component. *)
Definition componentEntry (c : ComponentTest.t) : ComponentEntry :=
  mkEntry (ComponentTest.name c) (statusMarker (ComponentTest.status c))
          (ComponentTest.notes c) (ComponentTest.testedAt c).

(** Modelled from the spec: an image that fails to embed degrades to the
    marker and does not abort the build. *)
Definition imageEntry (source : jsstring) : ImageEntry :=
  if decodes source then Embedded source else ImageUnavailable source.

(** Modelled from the spec: [generateWordDocument] of [lib/wordExport],
    which is not among the sources.  Section 4.1: the builder fails fast
    with [InvalidInput] when the product's name or inventory id is
    missing; otherwise the document has the title block, one entry per
    component and one per photo in the order supplied, an image that
    cannot be embedded is replaced by a marker, the screenshot section
    is present exactly when a screenshot is supplied, and only the
    generated-at stamp depends on the time of the call. *)
Definition generateWordDocument (now : Z) (product : Product.t)
           (components : list ComponentTest.t)
           (photos : list ProductPhoto.t)
           (screenshot : option jsstring) : outcome Document :=
  if truthy (Product.name product) && truthy (Product.inventoryId product)
  then Resolved
         (mkDocument
            (mkTitle (Product.name product) (Product.inventoryId product)
                     (Product.description product) (Product.price product))
            (map componentEntry components)
            (map (fun ph => imageEntry (ProductPhoto.url ph)) photos)
            (option_map imageEntry screenshot)
            now)
  else Rejected InvalidInput.
End Build.

(** Modelled from the spec: the required fields of the product. *)
Definition valid_product (p : Product.t) : Prop :=
  Product.name p <> [] /\ Product.inventoryId p <> [].

End ReportBuilder.

(* ------------------------------------------------------------------ *)
(** ** The world of the component *)

Definition Element := N.             (* a DOM node *)
Definition Canvas := N.              (* a rendered canvas *)
Inductive Blob := mkBlob (bytes : list N).

(** What a handler does to its surroundings, oldest first.  The two
    [Called...] entries are ghost entries: they record a call just before it
    is made, so that the calls of a run can be counted. *)
Inductive Effect :=
| ConsoleError (label : jsstring) (e : error)
| Alert (message : jsstring)
| SaveFile (content : Blob) (download : jsstring)
| Navigate (href : jsstring)
| CalledCaptureScreenshot
| CalledGenerateWordDocument (product : Product.t)
    (components : list ComponentTest.t) (photos : list ProductPhoto.t)
    (screenshot : option jsstring).

(** The [useState] cells the modelled handlers read or write. *)
Record UIState := mkUI {
  selectedProductId : option jsstring;
  showExportModal : bool;
  showInventorySearch : bool;
  inventorySearchId : jsstring;
  emailAddress : jsstring;
  isGeneratingDoc : bool
}.

Record Store := mkStore {
  productTable : list Product.t;
  componentTable : list ComponentTest.t;
  photoTable : list ProductPhoto.t
}.

Record World := mkWorld {
  ui : UIState;
  store : Store;
  testPanelRef : option Element;     (* testPanelRef.current *)
  requests : nat;                    (* store requests issued so far *)
  effects : list Effect
}.

(** How the collaborators answer during one run of a handler. *)
Record Env := mkEnv {
  html2canvas : Element -> outcome Canvas;
  toDataURL : Canvas -> outcome jsstring;
  generateWordDocument :
    Product.t -> list ComponentTest.t -> list ProductPhoto.t ->
    option jsstring -> outcome ReportBuilder.Document;
  Packer_toBlob : ReportBuilder.Document -> outcome Blob;
  encodeURIComponent : jsstring -> outcome jsstring;
  toLocaleDateString : Z -> jsstring;
  Date_now : Z;
  request_fails : nat -> bool        (* does the n-th store request reject? *)
}.

(** *** State and exceptions *)

Definition M (A : Type) : Type := World -> outcome A * World.

Definition ret {A} (a : A) : M A := fun w => (Resolved a, w).

Definition bind {A B} (m : M A) (k : A -> M B) : M B :=
  fun w => match m w with
           | (Resolved a, w') => k a w'
           | (Rejected e, w') => (Rejected e, w')
           end.

Declare Scope M_scope.
Delimit Scope M_scope with M.
Notation "x <- m ;; k" := (bind m (fun x => k))
  (at level 61, m at next level, right associativity) : M_scope.
Notation "m ;; k" := (bind m (fun _ => k))
  (at level 61, right associativity) : M_scope.
Local Open Scope M_scope.

(** An awaited call of a collaborator. *)
Definition await {A} (o : outcome A) : M A := fun w => (o, w).

Definition try_catch {A} (body : M A) (handler : error -> M A) : M A :=
  fun w => match body w with
           | (Resolved a, w') => (Resolved a, w')
           | (Rejected e, w') => handler e w'
           end.

Definition finally {A} (m : M A) (fin : M unit) : M A :=
  fun w => match m w with
           | (o, w') => match fin w' with
                        | (Resolved _, w'') => (o, w'')
                        | (Rejected e, w'') => (Rejected e, w'')
                        end
           end.

Fixpoint for_of {A} (l : list A) (body : A -> M unit) : M unit :=
  match l with
  | [] => ret tt
  | x :: l' => body x ;; for_of l' body
  end.

Definition tell (e : Effect) : M unit :=
  fun w => (Resolved tt,
            mkWorld (ui w) (store w) (testPanelRef w) (requests w) (effects w ++ [e])).

Definition console_error (label : string) (e : error) : M unit :=
  tell (ConsoleError (lit label) e).

Definition alert (message : string) : M unit := tell (Alert (lit message)).

Definition modify_ui (f : UIState -> UIState) : M unit :=
  fun w => (Resolved tt,
            mkWorld (f (ui w)) (store w) (testPanelRef w) (requests w) (effects w)).

Definition setSelectedProductId (v : option jsstring) : M unit :=
  modify_ui (fun u => mkUI v (showExportModal u) (showInventorySearch u)
                           (inventorySearchId u) (emailAddress u) (isGeneratingDoc u)).

Definition setShowExportModal (v : bool) : M unit :=
  modify_ui (fun u => mkUI (selectedProductId u) v (showInventorySearch u)
                           (inventorySearchId u) (emailAddress u) (isGeneratingDoc u)).

Definition setShowInventorySearch (v : bool) : M unit :=
  modify_ui (fun u => mkUI (selectedProductId u) (showExportModal u) v
                           (inventorySearchId u) (emailAddress u) (isGeneratingDoc u)).

Definition setInventorySearchId (v : jsstring) : M unit :=
  modify_ui (fun u => mkUI (selectedProductId u) (showExportModal u)
                           (showInventorySearch u) v (emailAddress u) (isGeneratingDoc u)).

Definition setEmailAddress (v : jsstring) : M unit :=
  modify_ui (fun u => mkUI (selectedProductId u) (showExportModal u)
                           (showInventorySearch u) (inventorySearchId u) v
                           (isGeneratingDoc u)).

Definition setIsGeneratingDoc (v : bool) : M unit :=
  modify_ui (fun u => mkUI (selectedProductId u) (showExportModal u)
                           (showInventorySearch u) (inventorySearchId u)
                           (emailAddress u) v).

(** *** The record store *)

(** Modelled from the spec: the store is the hosted data layer of an external
    package, reached through [useQuery], [useLazyQuery] and [useMutation].
    Section 6: query by an equality filter returns the matching records in
    order, update changes the record of the given id, remove deletes it.
    Any request may reject; [request_fails] says which do. *)
Definition request {A} (env : Env) (op : Store -> A * Store) : M A :=
  fun w =>
    let n := requests w in
    if request_fails env n
    then (Rejected (Error (lit "request failed")),
          mkWorld (ui w) (store w) (testPanelRef w) (S n) (effects w))
    else let (a, s') := op (store w) in
         (Resolved a, mkWorld (ui w) s' (testPanelRef w) (S n) (effects w)).

Definition ownedComponent (productId : jsstring) (c : ComponentTest.t) : bool :=
  strict_eq (ComponentTest.productId c) productId.

Definition ownedPhoto (productId : jsstring) (ph : ProductPhoto.t) : bool :=
  strict_eq (ProductPhoto.productId ph) productId.

Definition queryProducts (env : Env) (inventoryId : jsstring) : M (list Product.t) :=
  request env (fun s =>
    (filter (fun p => strict_eq (Product.inventoryId p) inventoryId) (productTable s), s)).

Definition queryComponents (env : Env) (productId : jsstring)
  : M (list ComponentTest.t) :=
  request env (fun s => (filter (ownedComponent productId) (componentTable s), s)).

Definition queryPhotos (env : Env) (productId : jsstring) : M (list ProductPhoto.t) :=
  request env (fun s => (filter (ownedPhoto productId) (photoTable s), s)).

(** Modelled from the spec: [update(type, id, partialFields)]. *)
Definition Store_update (id : jsstring) (p : ComponentTest.patch) (s : Store) : Store :=
  mkStore (productTable s)
          (map (fun c => if strict_eq (ComponentTest.id c) id
                         then ComponentTest.apply p c else c)
               (componentTable s))
          (photoTable s).

(** Modelled from the spec: [remove(type, id)]. *)
Definition Store_removePhoto (id : jsstring) (s : Store) : Store :=
  mkStore (productTable s) (componentTable s)
          (filter (fun ph => negb (strict_eq (ProductPhoto.id ph) id)) (photoTable s)).

(** Modelled from the spec: [remove(type, id)]. *)
Definition Store_removeProduct (id : jsstring) (s : Store) : Store :=
  mkStore (filter (fun p => negb (strict_eq (Product.id p) id)) (productTable s))
          (componentTable s) (photoTable s).

Definition updateComponent (env : Env) (id : jsstring) (p : ComponentTest.patch)
  : M unit :=
  request env (fun s => (tt, Store_update id p s)).

Definition deletePhoto (env : Env) (id : jsstring) : M unit :=
  request env (fun s => (tt, Store_removePhoto id s)).

Definition deleteProduct (env : Env) (id : jsstring) : M unit :=
  request env (fun s => (tt, Store_removeProduct id s)).

(** Every record of a table has an id of its own. *)
Definition unique_ids (s : Store) : Prop :=
  NoDup (map Product.id (productTable s))
  /\ NoDup (map ComponentTest.id (componentTable s))
  /\ NoDup (map ProductPhoto.id (photoTable s)).

(** *** One render: the values bound in the component body, which the
    handlers of that render close over *)

Record Render := mkRender {
  r_selectedProductId : option jsstring;
  r_inventorySearchId : jsstring;
  r_emailAddress : jsstring;
  selectedProduct : option Product.t;
  components : list ComponentTest.t;
  photos : list ProductPhoto.t
}.

(** The three [useQuery] results are the store's answers for the current
    selection: the product of id [selectedProductId || ''], and the
    components and photos whose [productId] is that key. *)
Definition render (w : World) : Render :=
  let key := or_empty (selectedProductId (ui w)) in
  mkRender (selectedProductId (ui w)) (inventorySearchId (ui w)) (emailAddress (ui w))
           (find (fun p => strict_eq (Product.id p) key) (productTable (store w)))
           (filter (ownedComponent key) (componentTable (store w)))
           (filter (ownedPhoto key) (photoTable (store w))).

(* ------------------------------------------------------------------ *)
(** ** The handlers *)

Definition gets {A} (f : World -> A) : M A := fun w => (Resolved (f w), w).

(** [selectedProductId === id] *)
Definition selected_is (sel : option jsstring) (id : jsstring) : bool :=
  match sel with
  | Some s => strict_eq s id
  | None => false
  end.

(** [{ productId: '' }] *)
Definition clearProductId : ComponentTest.patch :=
  ComponentTest.mkPatch (Some []) None None None.

(** The [try] block of [handleDeleteProduct]. *)
Definition deleteProductBody (env : Env) (r : Render) (id : jsstring) : M unit :=
  productComponents <- queryComponents env id ;;
  for_of productComponents
         (fun comp => updateComponent env (ComponentTest.id comp) clearProductId) ;;
  productPhotos <- queryPhotos env id ;;
  for_of productPhotos (fun photo => deletePhoto env (ProductPhoto.id photo)) ;;
  deleteProduct env id ;;
  if selected_is (r_selectedProductId r) id
  then setSelectedProductId None
  else ret tt.

Definition handleDeleteProduct (env : Env) (r : Render) (id : jsstring) : M unit :=
  try_catch (deleteProductBody env r id)
            (fun error => console_error "Failed to delete product:" error).

Definition handleSearchByInventoryId (env : Env) (r : Render) : M unit :=
  if negb (truthy (r_inventorySearchId r)) then ret tt
  else
    try_catch
      (results <- queryProducts env (r_inventorySearchId r) ;;
       match results with
       | first :: _ =>
           setSelectedProductId (Some (Product.id first)) ;;
           setShowInventorySearch false ;;
           setInventorySearchId []
       | [] => alert "Product not found with this Inventory ID"
       end)
      (fun error => console_error "Failed to search product:" error).

Definition captureScreenshot (env : Env) : M (option jsstring) :=
  current <- gets testPanelRef ;;
  match current with
  | None => ret None
  | Some target =>
      try_catch
        (canvas <- await (html2canvas env target) ;;
         dataURL <- await (toDataURL env canvas) ;;
         ret (Some dataURL))
        (fun error =>
           console_error "Screenshot capture failed:" error ;;
           ret None)
  end.

(** The two calls of the export handlers, each with its ghost entry. *)
Definition call_captureScreenshot (env : Env) : M (option jsstring) :=
  tell CalledCaptureScreenshot ;; captureScreenshot env.

Definition call_generateWordDocument (env : Env) (p : Product.t)
           (cs : list ComponentTest.t) (ps : list ProductPhoto.t)
           (screenshot : option jsstring) : M ReportBuilder.Document :=
  tell (CalledGenerateWordDocument p cs ps screenshot) ;;
  await (generateWordDocument env p cs ps screenshot).

(** The anchor element with [href] an object URL of the blob and the given
    [download] attribute, clicked once. *)
Definition saveAs (content : Blob) (download : jsstring) : M unit :=
  tell (SaveFile content download).

Definition handleDownloadWordReport (env : Env) (r : Render) : M unit :=
  match selectedProduct r with
  | None => ret tt
  | Some product =>
      setIsGeneratingDoc true ;;
      finally
        (try_catch
           (screenshot <- call_captureScreenshot env ;;
            doc <- call_generateWordDocument env product (components r) (photos r)
                                             screenshot ;;
            blob <- await (Packer_toBlob env doc) ;;
            saveAs blob (downloadFilename (Product.name product) (Date_now env)))
           (fun error =>
              console_error "Document generation failed:" error ;;
              alert "Failed to generate document. Please try again."))
        (setIsGeneratingDoc false)
  end.

Definition emailSubject (product : Product.t) : jsstring :=
  lit "Product Testing Report: " ++ Product.name product
    ++ lit " (ID: " ++ Product.inventoryId product ++ lit ")".

Definition emailBody (env : Env) (product : Product.t) : jsstring :=
  lit "Please find attached the testing report for " ++ Product.name product
    ++ lit "." ++ [10; 10]%N
    ++ lit "Inventory ID: " ++ Product.inventoryId product ++ [10]%N
    ++ lit "Test Date: " ++ toLocaleDateString env (Date_now env) ++ [10; 10]%N
    ++ lit "Note: The Word document has been downloaded to your computer. Please attach it to this email.".

Definition handleEmailReport (env : Env) (r : Render) : M unit :=
  match selectedProduct r with
  | None => ret tt
  | Some product =>
      if negb (truthy (r_emailAddress r)) then ret tt
      else
        setIsGeneratingDoc true ;;
        finally
          (try_catch
             (screenshot <- call_captureScreenshot env ;;
              doc <- call_generateWordDocument env product (components r) (photos r)
                                               screenshot ;;
              blob <- await (Packer_toBlob env doc) ;;
              saveAs blob (emailFilename (Product.name product)) ;;
              subject <- await (encodeURIComponent env (emailSubject product)) ;;
              body <- await (encodeURIComponent env (emailBody env product)) ;;
              tell (Navigate (lit "mailto:" ++ r_emailAddress r ++ lit "?subject="
                                ++ subject ++ lit "&body=" ++ body)) ;;
              setShowExportModal false ;;
              setEmailAddress [])
             (fun error =>
                console_error "Email preparation failed:" error ;;
                alert "Failed to prepare email. Please try again."))
          (setIsGeneratingDoc false)
  end.

(** The two export actions, and the guard each starts with. *)
Definition exportHandler (env : Env) (p : purpose) : Render -> M unit :=
  match p with
  | Download => handleDownloadWordReport env
  | Email => handleEmailReport env
  end.

Definition exportGuard (p : purpose) (r : Render) : option Product.t :=
  match selectedProduct r with
  | None => None
  | Some product =>
      match p with
      | Download => Some product
      | Email => if truthy (r_emailAddress r) then Some product else None
      end
  end.

(** A handler as an event of the running component: it closes over the
    render of the world it is fired in. *)
Definition fire (h : Render -> M unit) (w : World) : World := snd (h (render w) w).

(** The ghost entries of a log. *)
Definition is_call (e : Effect) : bool :=
  match e with
  | CalledCaptureScreenshot | CalledGenerateWordDocument _ _ _ _ => true
  | _ => false
  end.

Definition calls (log : list Effect) : list Effect := filter is_call log.

(** What a run appended to the log. *)
Definition appended (before after : World) : list Effect :=
  skipn (length (effects before)) (effects after).

(* ------------------------------------------------------------------ *)
(** ** Statistics of the product list *)

Record Stats := mkStats {
  working : nat;
  notWorking : nat;
  untested : nat;
  total : nat
}.

Definition has_status (s : string) (c : ComponentTest.t) : bool :=
  strict_eq (ComponentTest.status c) (lit s).

Definition getStatusStats (r : Render) (productId : jsstring) : Stats :=
  let productComponents := filter (ownedComponent productId) (components r) in
  mkStats (length (filter (has_status "working") productComponents))
          (length (filter (has_status "not-working") productComponents))
          (length (filter (has_status "untested") productComponents))
          (length productComponents).

Definition Number_of_nat (n : nat) : float :=
  PrimFloat.of_uint63 (Uint63.of_Z (Z.of_nat n)).

(** [stats.total > 0 ? Math.round((stats.working / stats.total) * 100) : 0];
    [Math.round] on floating-point numbers is a parameter. *)
Definition passRate (Math_round : float -> Z) (stats : Stats) : Z :=
  if (0 <? total stats)%nat
  then Math_round (PrimFloat.mul
                     (PrimFloat.div (Number_of_nat (working stats))
                                    (Number_of_nat (total stats)))
                     (Number_of_nat 100))
  else 0%Z.

(* ------------------------------------------------------------------ *)
(** ** What a log shows the user *)

(** The files offered for saving, with their names. *)
Definition saves (log : list Effect) : list (Blob * jsstring) :=
  flat_map (fun e => match e with SaveFile b n => [(b, n)] | _ => [] end) log.

(** The alerts shown. *)
Definition alerts (log : list Effect) : list jsstring :=
  flat_map (fun e => match e with Alert m => [m] | _ => [] end) log.

(** The addresses the window was sent to. *)
Definition navigations (log : list Effect) : list jsstring :=
  flat_map (fun e => match e with Navigate h => [h] | _ => [] end) log.

(* ------------------------------------------------------------------ *)
(** ** Testing a component *)

(** [{ status, testedAt: new Date() }] *)
Definition statusPatch (status : jsstring) (now : Z) : ComponentTest.patch :=
  ComponentTest.mkPatch None (Some status) None (Some now).

(** [{ notes }] *)
Definition notesPatch (notes : jsstring) : ComponentTest.patch :=
  ComponentTest.mkPatch None None (Some notes) None.

Definition handleUpdateComponentStatus (env : Env) (componentId status : jsstring)
  : M unit :=
  try_catch (updateComponent env componentId (statusPatch status (Date_now env)))
            (fun error => console_error "Failed to update component status:" error).

Definition handleUpdateComponentNotes (env : Env) (componentId notes : jsstring)
  : M unit :=
  try_catch (updateComponent env componentId (notesPatch notes))
            (fun error => console_error "Failed to update component notes:" error).

(** The statistics of a product counted on the whole component table. *)
Definition tableStats (s : Store) (productId : jsstring) : Stats :=
  let owned := filter (ownedComponent productId) (componentTable s) in
  mkStats (length (filter (has_status "working") owned))
          (length (filter (has_status "not-working") owned))
          (length (filter (has_status "untested") owned))
          (length owned).

(** The component list before and after: the UI state, the products and
    the photos are the same, and the component tests are the same records
    under the same products with the same names, in the same order. *)
Definition same_list (w w' : World) : Prop :=
  ui w' = ui w
  /\ productTable (store w') = productTable (store w)
  /\ photoTable (store w') = photoTable (store w)
  /\ map ComponentTest.id (componentTable (store w'))
     = map ComponentTest.id (componentTable (store w))
  /\ map ComponentTest.productId (componentTable (store w'))
     = map ComponentTest.productId (componentTable (store w))
  /\ map ComponentTest.name (componentTable (store w'))
     = map ComponentTest.name (componentTable (store w))
  /\ map ComponentTest.id (components (render w'))
     = map ComponentTest.id (components (render w))
  /\ forall productId,
       total (getStatusStats (render w') productId)
       = total (getStatusStats (render w) productId).

(** [1] if the flag is set, [0] otherwise. *)
Definition one_if (b : bool) : nat := if b then 1 else 0.

(** A status the three buttons can set. *)
Definition enum_status (c : ComponentTest.t) : bool :=
  has_status "working" c || has_status "not-working" c || has_status "untested" c.

(* ------------------------------------------------------------------ *)
(** ** The add-product form *)

Module NewProduct.
(** The draft of the form; a component [{ name }] is kept as its name. *)
Record t := mk {
  inventoryId : jsstring;
  name : jsstring;
  description : jsstring;
  price : float;
  photos : list jsstring;
  components : list jsstring
}.

(** [{ inventoryId: '', name: '', description: '', price: 0, photos: [],
    components: [] }] *)
Definition empty : t := mk [] [] [] PrimFloat.zero [] [].

Definition with_photos (v : list jsstring) (d : t) : t :=
  mk (inventoryId d) (name d) (description d) (price d) v (components d).

Definition with_components (v : list jsstring) (d : t) : t :=
  mk (inventoryId d) (name d) (description d) (price d) (photos d) v.
End NewProduct.

(** The [useState] cells of the form. *)
Record Form := mkForm {
  showAddProduct : bool;
  newProduct : NewProduct.t;
  newComponent : jsstring
}.

Definition setNewProduct (v : NewProduct.t) (f : Form) : Form :=
  mkForm (showAddProduct f) v (newComponent f).

(** [setNewProduct(prev => ...)] *)
Definition updateNewProduct (g : NewProduct.t -> NewProduct.t) (f : Form) : Form :=
  mkForm (showAddProduct f) (g (newProduct f)) (newComponent f).

Definition setNewComponent (v : jsstring) (f : Form) : Form :=
  mkForm (showAddProduct f) (newProduct f) v.

Definition setShowAddProduct (v : bool) (f : Form) : Form :=
  mkForm v (newProduct f) (newComponent f).

(** [l.filter((x, i) => f(x, i))], the indices counted from [i]. *)
Fixpoint filter_from {A} (f : A -> nat -> bool) (i : nat) (l : list A) : list A :=
  match l with
  | [] => []
  | x :: l' => if f x i then x :: filter_from f (S i) l' else filter_from f (S i) l'
  end.

Definition Array_filter {A} (f : A -> nat -> bool) (l : list A) : list A :=
  filter_from f 0 l.

(** The handlers of the form.  One that reads [newProduct] or
    [newComponent] reads the values of the render [r] it closes over. *)
Definition handleAddComponent (r : Form) (f : Form) : Form :=
  if negb (truthy (newComponent r)) then f
  else
    setNewComponent []
      (setNewProduct
         (NewProduct.with_components
            (NewProduct.components (newProduct r) ++ [newComponent r])
            (newProduct r))
         f).

Definition handleRemovePhoto (index : nat) (f : Form) : Form :=
  updateNewProduct
    (fun prev =>
       NewProduct.with_photos
         (Array_filter (fun _ i => negb (i =? index)) (NewProduct.photos prev)) prev)
    f.

(** The remove button of a draft component (an inline handler). *)
Definition removeComponent (r : Form) (index : nat) (f : Form) : Form :=
  setNewProduct
    (NewProduct.with_components
       (Array_filter (fun _ i => negb (i =? index))
                     (NewProduct.components (newProduct r)))
       (newProduct r))
    f.

(** The Cancel button of the form (an inline handler). *)
Definition cancelAddProduct (f : Form) : Form :=
  setNewComponent [] (setNewProduct NewProduct.empty (setShowAddProduct false f)).

(** *** Uploading photos *)

Definition File := N.

(** What becomes of one [FileReader]: it fires [onload] with
    [event.target?.result], or it fails and fires nothing the handler
    listens to. *)
Inductive reading :=
| Loads (result : option jsstring)
| Fails.

(** [reader.onload] *)
Definition onload (result : option jsstring) (f : Form) : Form :=
  match result with
  | Some dataURL =>
      if truthy dataURL
      then updateNewProduct
             (fun prev =>
                NewProduct.with_photos (NewProduct.photos prev ++ [dataURL]) prev)
             f
      else f
  | None => f
  end.

(** [handlePhotoUpload]: one reader per file, started in the order of the
    files; [readAsDataURL] says what becomes of each. *)
Definition handlePhotoUpload (readAsDataURL : File -> reading)
           (files : option (list File)) : list reading :=
  match files with
  | None => []
  | Some fs => map readAsDataURL fs
  end.

(** The readers finish in some order; each one that loads runs [onload]. *)
Definition finish (r : reading) (f : Form) : Form :=
  match r with
  | Loads result => onload result f
  | Fails => f
  end.

Definition finish_all (done : list reading) (f : Form) : Form :=
  fold_left (fun f r => finish r f) done f.

(** The data URLs that a list of finished readers adds. *)
Definition loaded (r : reading) : list jsstring :=
  match r with
  | Loads (Some dataURL) => if truthy dataURL then [dataURL] else []
  | _ => []
  end.

(** *** Submitting the form *)

(** Modelled from the spec: [create(type, fields)] of the record store
    (section 6) returns the new record, with a store-assigned id.  [ids]
    gives the id the store assigns in its n-th request; the record is added
    at the end of its table. *)
Definition createProduct (env : Env) (ids : nat -> jsstring)
           (inventoryId name description : jsstring) (price : float)
  : M Product.t :=
  n <- gets requests ;;
  request env (fun s =>
    let p := Product.mk (ids n) inventoryId name description price (Date_now env) in
    (p, mkStore (productTable s ++ [p]) (componentTable s) (photoTable s))).

(** Modelled from the spec: [create(type, fields)] for a component test. *)
Definition createComponent (env : Env) (ids : nat -> jsstring)
           (productId name status notes : jsstring) : M ComponentTest.t :=
  n <- gets requests ;;
  request env (fun s =>
    let c := ComponentTest.mk (ids n) productId name status notes None in
    (c, mkStore (productTable s) (componentTable s ++ [c]) (photoTable s))).

(** Modelled from the spec: [create(type, fields)] for a photo. *)
Definition createPhoto (env : Env) (ids : nat -> jsstring)
           (productId url : jsstring) : M ProductPhoto.t :=
  n <- gets requests ;;
  request env (fun s =>
    let ph := ProductPhoto.mk (ids n) productId url in
    (ph, mkStore (productTable s) (componentTable s) (photoTable s ++ [ph]))).

(** The component as a whole: the world of the handlers above and the
    form. *)
Record App := mkApp {
  world : World;
  form : Form
}.

Definition MA (A : Type) : Type := App -> outcome A * App.

Definition retA {A} (a : A) : MA A := fun s => (Resolved a, s).

Definition bindA {A B} (m : MA A) (k : A -> MA B) : MA B :=
  fun s => match m s with
           | (Resolved a, s') => k a s'
           | (Rejected e, s') => (Rejected e, s')
           end.

Definition try_catchA {A} (body : MA A) (handler : error -> MA A) : MA A :=
  fun s => match body s with
           | (Resolved a, s') => (Resolved a, s')
           | (Rejected e, s') => handler e s'
           end.

(** A program on the world, run in the component. *)
Definition liftW {A} (m : M A) : MA A :=
  fun s => match m (world s) with
           | (o, w') => (o, mkApp w' (form s))
           end.

Definition modify_form (g : Form -> Form) : MA unit :=
  fun s => (Resolved tt, mkApp (world s) (g (form s))).

Declare Scope MA_scope.
Delimit Scope MA_scope with MA.
Notation "x <- m ;; k" := (bindA m (fun x => k))
  (at level 61, m at next level, right associativity) : MA_scope.
Notation "m ;; k" := (bindA m (fun _ => k))
  (at level 61, right associativity) : MA_scope.

(** The [try] block of [handleAddProduct]. *)
Definition addProductBody (env : Env) (ids : nat -> jsstring) (r : Form) : MA unit :=
  (product <- liftW (createProduct env ids
                       (NewProduct.inventoryId (newProduct r))
                       (NewProduct.name (newProduct r))
                       (NewProduct.description (newProduct r))
                       (NewProduct.price (newProduct r))) ;;
   liftW (for_of (NewProduct.components (newProduct r))
            (fun comp =>
               (createComponent env ids (Product.id product) comp
                                (lit "untested") [] ;; ret tt)%M)) ;;
   liftW (for_of (NewProduct.photos (newProduct r))
            (fun photoUrl =>
               (createPhoto env ids (Product.id product) photoUrl ;; ret tt)%M)) ;;
   modify_form (setNewProduct NewProduct.empty) ;;
   modify_form (setShowAddProduct false) ;;
   liftW (setSelectedProductId (Some (Product.id product))))%MA.

Definition handleAddProduct (env : Env) (ids : nat -> jsstring) (r : Form) : MA unit :=
  if negb (truthy (NewProduct.name (newProduct r)))
     || negb (truthy (NewProduct.inventoryId (newProduct r)))
  then retA tt
  else try_catchA (addProductBody env ids r)
                  (fun error => liftW (console_error "Failed to add product:" error)).

(** What the [try] block of [handleAddProduct] does to the world: the block
    without its two form setters. *)
Definition addProductWorld (env : Env) (ids : nat -> jsstring) (r : Form) : M unit :=
  product <- createProduct env ids
               (NewProduct.inventoryId (newProduct r))
               (NewProduct.name (newProduct r))
               (NewProduct.description (newProduct r))
               (NewProduct.price (newProduct r)) ;;
  for_of (NewProduct.components (newProduct r))
         (fun comp =>
            createComponent env ids (Product.id product) comp (lit "untested") [] ;;
            ret tt) ;;
  for_of (NewProduct.photos (newProduct r))
         (fun photoUrl => createPhoto env ids (Product.id product) photoUrl ;; ret tt) ;;
  setSelectedProductId (Some (Product.id product)).

(** The records that submitting a draft creates: the product, one component
    test per declared name and one photo per uploaded image, with the ids
    of the requests that create them, counted from [n]. *)
Definition createdProduct (env : Env) (ids : nat -> jsstring) (n : nat)
           (d : NewProduct.t) : Product.t :=
  Product.mk (ids n) (NewProduct.inventoryId d) (NewProduct.name d)
             (NewProduct.description d) (NewProduct.price d) (Date_now env).

Definition createdComponents (ids : nat -> jsstring) (n : nat) (productId : jsstring)
           (names : list jsstring) : list ComponentTest.t :=
  map (fun kx => ComponentTest.mk (ids (fst kx)) productId (snd kx)
                                  (lit "untested") [] None)
      (combine (seq n (length names)) names).

Definition createdPhotos (ids : nat -> jsstring) (n : nat) (productId : jsstring)
           (urls : list jsstring) : list ProductPhoto.t :=
  map (fun kx => ProductPhoto.mk (ids (fst kx)) productId (snd kx))
      (combine (seq n (length urls)) urls).

(** The ids of the requests still to come are in no table. *)
Definition ids_unused (ids : nat -> jsstring) (w : World) : Prop :=
  forall k, requests w <= k ->
    ~ In (ids k) (map Product.id (productTable (store w)))
    /\ ~ In (ids k) (map ComponentTest.id (componentTable (store w)))
    /\ ~ In (ids k) (map ProductPhoto.id (photoTable (store w))).

(** A handler of the component fired in a state: it closes over the form
    of that state. *)
Definition fireA (h : Form -> MA unit) (s : App) : App := snd (h (form s) s).

(** Ids that the store has not handed out: none is empty, none is the id of
    a record or the product reference of a component test or photo. *)
Definition fresh_ids (ids : nat -> jsstring) (s : Store) : Prop :=
  forall n,
    ids n <> []
    /\ ~ In (ids n) (map Product.id (productTable s))
    /\ ~ In (ids n) (map ComponentTest.id (componentTable s))
    /\ ~ In (ids n) (map ProductPhoto.id (photoTable s))
    /\ ~ In (ids n) (map ComponentTest.productId (componentTable s))
    /\ ~ In (ids n) (map ProductPhoto.productId (photoTable s)).

(* ------------------------------------------------------------------ *)
(** ** What a program keeps *)

(** [m] keeps [R]: whatever the outcome, the world after is related to the
    world before. *)
Definition keeps {A} (R : World -> World -> Prop) (m : M A) : Prop :=
  forall w, R w (snd (m w)).

(** Only the store and the request count may differ. *)
Definition quiet (w w' : World) : Prop :=
  ui w' = ui w /\ testPanelRef w' = testPanelRef w /\ effects w' = effects w.

(* ------------------------------------------------------------------ *)
(** ** A small world to run the handlers in *)

Module Sample.

Definition widget : Product.t :=
  Product.mk (lit "p1") (lit "INV-1") (lit "Widget  Pro") (lit "a widget")
             (PrimFloat.of_uint63 20) 1700000000000.

Definition gadget : Product.t :=
  Product.mk (lit "p2") (lit "INV-2") (lit "Gadget") [] (PrimFloat.of_uint63 5)
             1690000000000.

Definition motor : ComponentTest.t :=
  ComponentTest.mk (lit "c1") (lit "p1") (lit "Motor") (lit "working") []
                   (Some 1700000001000%Z).

Definition switch : ComponentTest.t :=
  ComponentTest.mk (lit "c2") (lit "p1") (lit "Switch") (lit "untested") [] None.

Definition battery : ComponentTest.t :=
  ComponentTest.mk (lit "c3") (lit "p2") (lit "Battery") (lit "working")
                   (lit "ok") (Some 1690000001000%Z).

Definition front : ProductPhoto.t :=
  ProductPhoto.mk (lit "f1") (lit "p1") (lit "data:image/png;base64,AAAA").

Definition side : ProductPhoto.t :=
  ProductPhoto.mk (lit "f2") (lit "p2") (lit "https://example.org/side.png").

Definition tables : Store :=
  mkStore [widget; gadget] [motor; switch; battery] [front; side].

(** The widget is selected, its panel is on screen, the search modal is
    open with [INV-2] typed in, an address is entered. *)
Definition world : World :=
  mkWorld (mkUI (Some (lit "p1")) true true (lit "INV-2") (lit "qa@example.org") false)
          tables (Some 1%N) 0 [].

(** Nothing is selected, and the store holds a component test that was
    detached when its product was deleted. *)
Definition orphan : ComponentTest.t :=
  ComponentTest.mk (lit "c9") [] (lit "Fan") (lit "working") [] None.

Definition world_idle : World :=
  mkWorld (mkUI None false false [] [] false)
          (mkStore [widget; gadget] [motor; switch; battery; orphan] [front; side])
          None 0 [].

(** Collaborators that all answer. *)
Definition env : Env :=
  mkEnv (fun target => Resolved target)
        (fun _ => Resolved (lit "data:image/png;base64,BBBB"))
        (ReportBuilder.generateWordDocument (fun _ => true) 1700000000000)
        (fun _ => Resolved (mkBlob []))
        (fun s => Resolved s)
        (fun _ => lit "11/2/2026")
        1700000000000
        (fun _ => false).

(** The same, but [html2canvas] rejects. *)
Definition env_no_canvas : Env :=
  mkEnv (fun _ => Rejected (Error (lit "canvas")))
        (toDataURL env) (generateWordDocument env) (Packer_toBlob env)
        (encodeURIComponent env) (toLocaleDateString env) (Date_now env)
        (request_fails env).

End Sample.

(* ------------------------------------------------------------------ *)
(** ** A form to run the handlers on *)

Module SampleForm.

(** The store hands out [new-0], [new-1], ... *)
Definition ids (n : nat) : jsstring := lit "new-" ++ Number_toString (Z.of_nat n).

Definition lamp : NewProduct.t :=
  NewProduct.mk (lit "INV-3") (lit "Lamp") (lit "a lamp") (PrimFloat.of_uint63 9)
                [lit "data:image/png;base64,CCCC"; lit "data:image/png;base64,DDDD"]
                [lit "Bulb"; lit "Cord"].

(** The form is open with the lamp in it and [Shade] typed as the next
    component. *)
Definition form : Form := mkForm true lamp (lit "Shade").

Definition app : App := mkApp Sample.world form.

(** A form with nothing filled in. *)
Definition blank : App := mkApp Sample.world (mkForm true NewProduct.empty []).

(** Collaborators that answer, but for the store request number [k]. *)
Definition env_rejecting (k : nat) : Env :=
  mkEnv (html2canvas Sample.env) (toDataURL Sample.env)
        (generateWordDocument Sample.env) (Packer_toBlob Sample.env)
        (encodeURIComponent Sample.env) (toLocaleDateString Sample.env)
        (Date_now Sample.env) (fun n => n =? k).

(** The same as [Sample.env], but the packer fails. *)
Definition env_no_packer : Env :=
  mkEnv (html2canvas Sample.env) (toDataURL Sample.env)
        (generateWordDocument Sample.env)
        (fun _ => Rejected (Error (lit "pack")))
        (encodeURIComponent Sample.env) (toLocaleDateString Sample.env)
        (Date_now Sample.env) (request_fails Sample.env).


(** Three files: the second cannot be read. *)
Definition readAsDataURL (file : File) : reading :=
  if (file =? 2)%N then Fails
  else Loads (Some (lit "data:image/png;base64," ++ Number_toString (Z.of_N file))).

(** The world after the widget was deleted. *)
Definition after_delete : World :=
  snd (deleteProductBody Sample.env (render Sample.world) (lit "p1") Sample.world).

(** The sample world with nothing selected. *)
Definition unselected : World :=
  mkWorld (mkUI None false false [] [] false) Sample.tables (Some 1%N) 0 [].

End SampleForm.

Example ex_widget_pro :
  downloadFilename (lit "Widget  Pro") 1700000000000
  = lit "Widget_Pro_test_report_1700000000000.docx".
Proof. vm_compute. reflexivity. Qed.

Example ex_ws_mixed :
  replace_runs is_whitespace (lit "_") (lit "  a b   c ") = lit "_a_b_c_".
Proof. vm_compute. reflexivity. Qed.

Example ex_num0 : Number_toString 0 = lit "0" /\ Number_toString (-12) = lit "-12".
Proof. vm_compute. split; reflexivity. Qed.

(* ------------------------------------------------------------------ *)
(** ** Facts about the replacement of runs *)

Section Runs.
Variable cls : code_unit -> bool.
Variable by_ : jsstring.

Lemma dropWhile_length (s : jsstring) : length (dropWhile cls s) <= length s.
Proof.
  induction s as [|c s IH]; simpl; [lia|].
  destruct (cls c); simpl; lia.
Qed.

(** The runs are a partition of the string... *)
Lemma runs_concat (s : jsstring) : concat (map snd (runs cls s)) = s.
Proof.
  induction s as [|c s IH]; simpl; [reflexivity|].
  destruct (runs cls s) as [|[b r] rs]; simpl in *.
  - now subst.
  - destruct (Bool.eqb (cls c) b); simpl; now rewrite IH.
Qed.

(** ... each is non-empty and of one kind ... *)
Lemma runs_homogeneous (s : jsstring) :
  Forall (fun br => snd br <> [] /\ Forall (fun c => cls c = fst br) (snd br))
         (runs cls s).
Proof.
  induction s as [|c s IH]; simpl; [constructor|].
  destruct (runs cls s) as [|[b r] rs]; simpl in *.
  - repeat constructor. discriminate.
  - inversion IH as [|? ? [Hne Hr] Hrs]; subst; simpl in *.
    destruct (Bool.eqb (cls c) b) eqn:E.
    + apply Bool.eqb_prop in E.
      constructor; simpl; [split; [discriminate | now constructor] | assumption].
    + constructor; simpl; [split; [discriminate | now repeat constructor] | assumption].
Qed.

(** ... and each is maximal: its neighbours are of the other kind. *)
Lemma runs_alternating (s : jsstring) : alternating (runs cls s).
Proof.
  induction s as [|c s IH]; simpl; [exact I|].
  destruct (runs cls s) as [|[b r] rs]; simpl in *; [exact I|].
  destruct (Bool.eqb (cls c) b) eqn:E; simpl.
  - destruct rs; assumption.
  - split; [|assumption]. intros H. rewrite H in E.
    now rewrite Bool.eqb_reflx in E.
Qed.

Lemma runs_head (c : code_unit) (s : jsstring) :
  exists r rs, runs cls (c :: s) = (cls c, c :: r) :: rs.
Proof.
  simpl. destruct (runs cls s) as [|[b r] rs].
  - now exists [], [].
  - destruct (Bool.eqb (cls c) b) eqn:E.
    + apply Bool.eqb_prop in E. subst b. now exists r, rs.
    + now exists [], ((b, r) :: rs).
Qed.

Lemma runs_cons (c : code_unit) (s : jsstring) :
  runs cls (c :: s)
  = match runs cls s with
    | (b, r) :: rs =>
        if Bool.eqb (cls c) b then (b, c :: r) :: rs
        else (cls c, [c]) :: (b, r) :: rs
    | [] => [(cls c, [c])]
    end.
Proof. reflexivity. Qed.

Lemma collapse_cons_out (c : code_unit) (s : jsstring) :
  cls c = false -> collapse_runs cls by_ (c :: s) = c :: collapse_runs cls by_ s.
Proof.
  intros Hc. unfold collapse_runs. simpl runs.
  destruct (runs cls s) as [|[b r] rs].
  - simpl. rewrite Hc. reflexivity.
  - rewrite Hc. destruct b; simpl; rewrite ?Hc; reflexivity.
Qed.

Lemma collapse_cons_in (s : jsstring) : forall c,
  cls c = true ->
  collapse_runs cls by_ (c :: s) = by_ ++ collapse_runs cls by_ (dropWhile cls s).
Proof.
  induction s as [|d s IH]; intros c Hc.
  - unfold collapse_runs. simpl. rewrite Hc. reflexivity.
  - simpl dropWhile. destruct (cls d) eqn:Hd.
    + rewrite <- (IH d Hd).
      destruct (runs_head d s) as (r & rs & E).
      unfold collapse_runs. rewrite (runs_cons c (d :: s)), E, Hc, Hd. simpl. rewrite ?Hc, ?Hd. reflexivity.
    + destruct (runs_head d s) as (r & rs & E).
      unfold collapse_runs. rewrite (runs_cons c (d :: s)), E, Hc, Hd. simpl. rewrite ?Hc, ?Hd. reflexivity.
Qed.

Lemma replace_scan_collapse (fuel : nat) : forall s,
  length s <= fuel -> replace_scan cls by_ fuel s = collapse_runs cls by_ s.
Proof.
  induction fuel as [|fuel IH]; intros s Hlen.
  - destruct s; [reflexivity | simpl in Hlen; lia].
  - destruct s as [|c s]; [reflexivity|]. simpl in Hlen. simpl replace_scan.
    destruct (cls c) eqn:Hc.
    + rewrite IH by (pose proof (dropWhile_length s); lia).
      symmetry. now apply collapse_cons_in.
    + rewrite IH by lia. symmetry. now apply collapse_cons_out.
Qed.

(** The scan of the source computes the specification's replacement. *)
Lemma replace_runs_collapse (s : jsstring) :
  replace_runs cls by_ s = collapse_runs cls by_ s.
Proof. apply replace_scan_collapse. lia. Qed.

(** More fuel than the length changes nothing. *)
Lemma replace_scan_enough (fuel : nat) (s : jsstring) :
  length s <= fuel -> replace_scan cls by_ fuel s = replace_runs cls by_ s.
Proof.
  intros H. rewrite replace_scan_collapse by assumption.
  symmetry. apply replace_runs_collapse.
Qed.
End Runs.

(* ------------------------------------------------------------------ *)
(** ** Facts about literals and numerals *)

Lemma lit_inj (a : string) : forall b, lit a = lit b -> a = b.
Proof.
  induction a as [|x a IH]; intros [|y b] H; simpl in H; try discriminate.
  - reflexivity.
  - injection H as Hxy Hab.
    rewrite <- (ascii_N_embedding x), <- (ascii_N_embedding y), Hxy.
    f_equal. now apply IH.
Qed.

Lemma strict_eq_true (a b : jsstring) : strict_eq a b = true <-> a = b.
Proof.
  unfold strict_eq. destruct (jsstring_eq_dec a b); split; congruence.
Qed.

Lemma strict_eq_false (a b : jsstring) : strict_eq a b = false <-> a <> b.
Proof.
  unfold strict_eq. destruct (jsstring_eq_dec a b); split; congruence.
Qed.

Lemma strict_eq_refl (a : jsstring) : strict_eq a a = true.
Proof. now apply strict_eq_true. Qed.

Lemma to_int_proper (n : Z) :
  Z.to_int n <> Decimal.Pos Decimal.Nil /\ Z.to_int n <> Decimal.Neg Decimal.Nil.
Proof.
  destruct n as [|p|p]; simpl; split; try discriminate;
    intros [= H]; now apply (DecimalPos.Unsigned.to_uint_nonnil p).
Qed.

Lemma Number_toString_inj (a b : Z) :
  Number_toString a = Number_toString b -> a = b.
Proof.
  unfold Number_toString. intros H. apply lit_inj in H.
  apply DecimalZ.to_int_inj.
  destruct (to_int_proper a) as [Ha1 Ha2], (to_int_proper b) as [Hb1 Hb2].
  pose proof (NilZero.isi (Z.to_int a) Ha1 Ha2) as Ia.
  pose proof (NilZero.isi (Z.to_int b) Hb1 Hb2) as Ib.
  rewrite H in Ia. congruence.
Qed.

Lemma uint_digits (d : Decimal.uint) :
  Forall (fun c => is_digit c = true) (lit (NilEmpty.string_of_uint d)).
Proof.
  induction d; simpl; constructor; (reflexivity || assumption).
Qed.

Lemma Number_toString_digits (n : Z) :
  (0 <= n)%Z ->
  Number_toString n <> [] /\ Forall (fun c => is_digit c = true) (Number_toString n).
Proof.
  intros Hn. unfold Number_toString.
  destruct n as [|p|p]; [| |lia]; simpl.
  - split; [discriminate | repeat constructor].
  - destruct (Pos.to_uint p) eqn:E; simpl;
      try (split; [discriminate | constructor; [reflexivity | apply uint_digits]]).
    split; [discriminate | repeat constructor].
Qed.

(* ------------------------------------------------------------------ *)
(** ** File names *)

Ltac eval_digit :=
  match goal with
  | |- context [N_of_ascii ?a] =>
      let v := eval vm_compute in (N_of_ascii a) in
      change (N_of_ascii a) with v
  end.

Lemma digits_value_acc (d : Decimal.uint) : forall acc : positive,
  fold_left (fun a c => (10 * a + (Z.of_N c - 48))%Z)
            (lit (NilEmpty.string_of_uint d)) (Z.pos acc)
  = Z.pos (Pos.of_uint_acc d acc).
Proof.
  induction d; intros acc; [reflexivity|..];
    cbn [NilEmpty.string_of_uint lit fold_left Pos.of_uint_acc];
    rewrite <- IHd; f_equal; eval_digit; lia.
Qed.

Lemma digits_value (d : Decimal.uint) :
  decimal_value (lit (NilEmpty.string_of_uint d)) = Z.of_N (Pos.of_uint d).
Proof.
  unfold decimal_value.
  induction d; [reflexivity|..];
    cbn [NilEmpty.string_of_uint lit fold_left Pos.of_uint Z.of_N];
    eval_digit;
    first [ exact IHd
          | rewrite <- digits_value_acc; f_equal ].
Qed.

(** The token is the decimal numeral of the clock reading. *)
Lemma Number_toString_value (n : Z) :
  (0 <= n)%Z -> decimal_value (Number_toString n) = n.
Proof.
  intros Hn. unfold Number_toString.
  destruct n as [|p|p]; [reflexivity| |lia].
  simpl Z.to_int. simpl NilZero.string_of_int. unfold NilZero.string_of_uint.
  pose proof (DecimalPos.Unsigned.of_to p) as Hp.
  destruct (Pos.to_uint p) eqn:E;
    try (rewrite digits_value, Hp; reflexivity).
  exfalso. now apply (DecimalPos.Unsigned.to_uint_nonnil p).
Qed.

(** The download path never gives two exports of one product the same
    name unless they read the same clock value. *)
Lemma download_collision_safe : collision_safe Download.
Proof.
  intros name t1 t2 Hne H. apply Hne. simpl in H. unfold downloadFilename in H.
  apply app_inv_head in H. apply app_inv_head in H.
  apply app_inv_tail in H. now apply Number_toString_inj.
Qed.

(** C3, as the claim states it, fails: two email exports of one product at
    different times get the same file name. *)
Lemma email_filename_collides :
  suggestedFilename (lit "Widget Pro") Email 1700000000000
  = suggestedFilename (lit "Widget Pro") Email 1700000060000
  /\ ~ collision_safe Email.
Proof.
  split; [reflexivity|].
  intros H. apply (H (lit "Widget Pro") 1700000000000%Z 1700000060000%Z).
  - discriminate.
  - reflexivity.
Qed.

(** C3, amended.  The email path's file name is the name with each maximal
    run of whitespace replaced by one underscore followed by
    [_test_report.docx]; it does not depend on the time, so it is the same
    for every export of that product; file-name generation is a function of
    (name, purpose, timestamp), and on the download path exports of one
    product at different times get different names. *)
Theorem email_filename_spec (name : jsstring) (now : Z) :
  suggestedFilename name Email now
  = collapse_runs is_whitespace (lit "_") name ++ lit "_test_report.docx"
  /\ (forall now' : Z,
        suggestedFilename name Email now' = suggestedFilename name Email now)
  /\ (forall now' : Z,
        now' <> now ->
        suggestedFilename name Download now' <> suggestedFilename name Download now).
Proof.
  split; [|split].
  - simpl. unfold emailFilename. now rewrite replace_runs_collapse.
  - reflexivity.
  - intros now' Hne. now apply download_collision_safe.
Qed.

Lemma email_filename_spec_witness :
  suggestedFilename (lit "Widget  Pro") Email 5 = lit "Widget_Pro_test_report.docx"
  /\ suggestedFilename (lit "Widget  Pro") Download 6
     <> suggestedFilename (lit "Widget  Pro") Download 5.
Proof.
  destruct (email_filename_spec (lit "Widget  Pro") 5) as (H1 & _ & H3).
  split.
  - rewrite H1. reflexivity.
  - apply H3. discriminate.
Defined.

(* ------------------------------------------------------------------ *)
(** ** Status markers *)

(** C4.  [getStatusIcon] is defined on every status string; the three enum
    values get three different markers, and every other status gets the
    marker of [untested]. *)
Theorem status_icon_markers :
  getStatusIcon (lit "working") <> getStatusIcon (lit "not-working")
  /\ getStatusIcon (lit "working") <> getStatusIcon (lit "untested")
  /\ getStatusIcon (lit "not-working") <> getStatusIcon (lit "untested")
  /\ forall status : jsstring,
       status <> lit "working" -> status <> lit "not-working" ->
       getStatusIcon status = getStatusIcon (lit "untested").
Proof.
  repeat split; try (vm_compute; discriminate).
  intros status H1 H2. unfold getStatusIcon.
  apply strict_eq_false in H1. apply strict_eq_false in H2.
  rewrite H1, H2. reflexivity.
Qed.

Lemma status_icon_markers_witness :
  getStatusIcon (lit "broken") = getStatusIcon (lit "untested")
  /\ getStatusIcon (lit "broken") = mkElement Circle "w-5 h-5 text-gray-400".
Proof.
  destruct status_icon_markers as (_ & _ & _ & H).
  split.
  - apply H; discriminate.
  - rewrite (H (lit "broken")) by discriminate. reflexivity.
Defined.

(* ------------------------------------------------------------------ *)
(** ** The report builder *)

Lemma truthy_nonempty (s : jsstring) : truthy s = true <-> s <> [].
Proof. destruct s; simpl; split; congruence. Qed.

Section BuilderFacts.
Import ReportBuilder.
Variable decodes : jsstring -> bool.

Lemma build_valid (now : Z) (product : Product.t)
      (components : list ComponentTest.t) (photos : list ProductPhoto.t)
      (screenshot : option jsstring) :
  valid_product product ->
  ReportBuilder.generateWordDocument decodes now product components photos screenshot
  = Resolved
      (mkDocument
         (mkTitle (Product.name product) (Product.inventoryId product)
                  (Product.description product) (Product.price product))
         (map (componentEntry) components)
         (map (fun ph => imageEntry decodes (ProductPhoto.url ph)) photos)
         (option_map (imageEntry decodes) screenshot)
         now).
Proof.
  intros [Hn Hi]. unfold ReportBuilder.generateWordDocument.
  apply truthy_nonempty in Hn. apply truthy_nonempty in Hi.
  rewrite Hn, Hi. reflexivity.
Qed.

Lemma image_source_entry (source : jsstring) :
  image_source (imageEntry decodes source) = source.
Proof. unfold imageEntry. destruct (decodes source); reflexivity. Qed.

(** C1.  For a valid product the builder returns a document; it has as many
    component entries as components and as many photo entries as photos,
    and the i-th entry is the entry of the i-th input: nothing is dropped
    and the order is the input's. *)
Theorem build_keeps_every_entry (now : Z) (product : Product.t)
        (components : list ComponentTest.t) (photos : list ProductPhoto.t)
        (screenshot : option jsstring) :
  valid_product product ->
  exists doc : Document,
    ReportBuilder.generateWordDocument decodes now product components photos screenshot = Resolved doc
    /\ length (componentsSection doc) = length components
    /\ length (photosSection doc) = length photos
    /\ (forall i, nth_error (componentsSection doc) i
                  = option_map componentEntry (nth_error components i))
    /\ (forall i, option_map image_source (nth_error (photosSection doc) i)
                  = option_map ProductPhoto.url (nth_error photos i))
    /\ map entry_name (componentsSection doc) = map ComponentTest.name components
    /\ map image_source (photosSection doc) = map ProductPhoto.url photos.
Proof.
  intros Hv. eexists. split; [now apply build_valid|]. simpl.
  repeat split.
  - apply length_map.
  - apply length_map.
  - intros i. apply nth_error_map.
  - intros i. rewrite nth_error_map.
    destruct (nth_error photos i); simpl; [|reflexivity].
    now rewrite image_source_entry.
  - rewrite map_map. reflexivity.
  - rewrite map_map. apply map_ext. intros ph. apply image_source_entry.
Qed.

End BuilderFacts.


(* ------------------------------------------------------------------ *)
(** ** Statistics of the product list *)

Lemma filter_none {A} (f : A -> bool) (l : list A) :
  (forall x, In x l -> f x = false) -> filter f l = [].
Proof.
  induction l as [|x l IH]; intros H; simpl; [reflexivity|].
  rewrite (H x) by now left. apply IH. intros y Hy. apply H. now right.
Qed.

Lemma or_empty_selected (sel : option jsstring) (pid : jsstring) :
  pid <> [] -> sel <> Some pid -> or_empty sel <> pid.
Proof.
  intros Hne Hsel. destruct sel as [s|]; simpl.
  - destruct s; simpl; congruence.
  - congruence.
Qed.

Lemma components_of_other (w : World) (productId : jsstring) :
  productId <> [] -> selectedProductId (ui w) <> Some productId ->
  filter (ownedComponent productId) (components (render w)) = [].
Proof.
  intros Hne Hsel. apply filter_none. intros c Hc. simpl in Hc.
  apply filter_In in Hc. destruct Hc as [_ Hc].
  unfold ownedComponent in *. apply strict_eq_true in Hc.
  apply strict_eq_false. rewrite Hc. now apply or_empty_selected.
Qed.

(** C9.  For a product (its id is store-assigned, not the empty string)
    that is not the selected one, [getStatusStats] counts nothing: working,
    not-working, untested and total are zero, and so is the pass rate the
    product list shows for it, whatever components the store holds. *)
Theorem stats_of_unselected_product
        (Math_round : float -> Z) (w : World) (productId : jsstring) :
  productId <> [] ->
  selectedProductId (ui w) <> Some productId ->
  getStatusStats (render w) productId = mkStats 0 0 0 0
  /\ passRate Math_round (getStatusStats (render w) productId) = 0%Z.
Proof.
  intros Hne Hsel.
  assert (E : getStatusStats (render w) productId = mkStats 0 0 0 0).
  { unfold getStatusStats. rewrite (components_of_other w productId Hne Hsel).
    reflexivity. }
  split; [exact E|]. rewrite E. reflexivity.
Qed.

(** The empty string is the key of "no product": with nothing selected the
    component list holds the detached records, and they are what
    [getStatusStats] counts for the empty id. *)
Example stats_of_empty_id :
  getStatusStats (render Sample.world_idle) [] = mkStats 1 0 0 1
  /\ getStatusStats (render Sample.world_idle) (lit "p1") = mkStats 0 0 0 0.
Proof. split; reflexivity. Qed.

(* ------------------------------------------------------------------ *)
(** ** Screenshot capture *)

Lemma captureScreenshot_cases (env : Env) (w : World) :
  exists (result : option jsstring) (log : list Effect),
    captureScreenshot env w
    = (Resolved result,
       mkWorld (ui w) (store w) (testPanelRef w) (requests w) (effects w ++ log))
    /\ calls log = []
    /\ result = match testPanelRef w with
                | None => None
                | Some target =>
                    match html2canvas env target with
                    | Rejected _ => None
                    | Resolved canvas =>
                        match toDataURL env canvas with
                        | Rejected _ => None
                        | Resolved dataURL => Some dataURL
                        end
                    end
                end.
Proof.
  unfold captureScreenshot, bind, gets, try_catch, await, ret, console_error, tell.
  destruct w as [u s ref n log0]; simpl.
  destruct ref as [target|]; simpl.
  - destruct (html2canvas env target) as [canvas|e]; simpl.
    + destruct (toDataURL env canvas) as [url|e]; simpl.
      * exists (Some url), []. rewrite app_nil_r. auto.
      * eexists None, [_]. auto.
    + eexists None, [_]. auto.
  - exists None, []. rewrite app_nil_r. auto.
Qed.

(** C5.  [captureScreenshot] never rejects: every call resolves, with a
    data URL or with [undefined]; it resolves with [undefined] when the
    panel is missing, when [html2canvas] rejects and when [toDataURL]
    throws, and with the data URL otherwise. *)
Theorem captureScreenshot_never_rejects (env : Env) (w : World) :
  exists (result : option jsstring) (w' : World),
    captureScreenshot env w = (Resolved result, w')
    /\ (testPanelRef w = None -> result = None)
    /\ (forall target e,
          testPanelRef w = Some target ->
          html2canvas env target = Rejected e -> result = None)
    /\ (forall target canvas e,
          testPanelRef w = Some target ->
          html2canvas env target = Resolved canvas ->
          toDataURL env canvas = Rejected e -> result = None)
    /\ (forall target canvas dataURL,
          testPanelRef w = Some target ->
          html2canvas env target = Resolved canvas ->
          toDataURL env canvas = Resolved dataURL -> result = Some dataURL).
Proof.
  destruct (captureScreenshot_cases env w) as (result & log & Hrun & _ & Hres).
  exists result. eexists. split; [exact Hrun|].
  repeat split.
  - intros H. now rewrite H in Hres.
  - intros target e H1 H2. now rewrite H1, H2 in Hres.
  - intros target canvas e H1 H2 H3. now rewrite H1, H2, H3 in Hres.
  - intros target canvas url H1 H2 H3. now rewrite H1, H2, H3 in Hres.
Qed.

(* ------------------------------------------------------------------ *)
(** ** Search by inventory id *)

Lemma request_run {A} (env : Env) (op : Store -> A * Store) (w : World) :
  request env op w
  = if request_fails env (requests w)
    then (Rejected (Error (lit "request failed")),
          mkWorld (ui w) (store w) (testPanelRef w) (S (requests w)) (effects w))
    else (Resolved (fst (op (store w))),
          mkWorld (ui w) (snd (op (store w))) (testPanelRef w) (S (requests w))
                  (effects w)).
Proof.
  unfold request. destruct (request_fails env (requests w)); [reflexivity|].
  destruct (op (store w)); reflexivity.
Qed.

(** C10.  With an empty search string the handler changes nothing.  With a
    non-empty one whose query resolves: if a product matches, the first
    record of the result becomes the selection (and the modal is closed and
    the string cleared); if none matches, the UI state, so the selection and
    the open modal, stays as it was and the one effect is the alert.  The
    store is read, never written. *)
Theorem search_by_inventory_id (env : Env) (w : World) :
  let w' := fire (handleSearchByInventoryId env) w in
  let results :=
    filter (fun p => strict_eq (Product.inventoryId p) (inventorySearchId (ui w)))
           (productTable (store w)) in
  (inventorySearchId (ui w) = [] -> w' = w)
  /\ (inventorySearchId (ui w) <> [] ->
      request_fails env (requests w) = false ->
      store w' = store w
      /\ match results with
         | first :: _ =>
             selectedProductId (ui w') = Some (Product.id first)
             /\ showInventorySearch (ui w') = false
             /\ inventorySearchId (ui w') = []
             /\ effects w' = effects w
         | [] =>
             ui w' = ui w
             /\ effects w'
                = effects w ++ [Alert (lit "Product not found with this Inventory ID")]
         end).
Proof.
  intros w' results. subst w'. unfold fire, handleSearchByInventoryId.
  change (r_inventorySearchId (render w)) with (inventorySearchId (ui w)) in *.
  split.
  - intros E. rewrite E. reflexivity.
  - intros Hne Hok. apply truthy_nonempty in Hne. rewrite Hne. change (negb true) with false. cbv iota.
    unfold try_catch, bind, queryProducts. cbv beta.
    rewrite request_run, Hok. simpl fst. simpl snd. fold results. destruct results as [|first rest]; simpl.
    + destruct w as [u s ref n log]; simpl. destruct u; auto.
    + auto.
Qed.

(* ------------------------------------------------------------------ *)
(** ** Deleting a product *)

Section Loops.
Context {A : Type}.
Variable env : Env.
Variable f : A -> Store -> Store.

Lemma for_of_requests_resolved (l : list A) : forall w w',
  for_of l (fun x => request env (fun s => (tt, f x s))) w = (Resolved tt, w') ->
  w' = mkWorld (ui w) (fold_left (fun s x => f x s) l (store w)) (testPanelRef w)
               (length l + requests w) (effects w).
Proof.
  induction l as [|x l IH]; intros w w' H; simpl in H.
  - unfold ret in H. injection H as <-. now destruct w.
  - unfold bind in H. rewrite request_run in H.
    destruct (request_fails env (requests w)); [discriminate|].
    apply IH in H. subst w'. simpl. f_equal. lia.
Qed.

Lemma for_of_requests_ok (l : list A) : forall w,
  (forall n, request_fails env n = false) ->
  for_of l (fun x => request env (fun s => (tt, f x s))) w
  = (Resolved tt,
     mkWorld (ui w) (fold_left (fun s x => f x s) l (store w)) (testPanelRef w)
             (length l + requests w) (effects w)).
Proof.
  induction l as [|x l IH]; intros w Hok; simpl.
  - unfold ret. now destruct w.
  - unfold bind. rewrite request_run, Hok. rewrite IH by assumption.
    simpl. do 2 f_equal. lia.
Qed.
End Loops.

Section Keys.
Context {A : Type}.
Variable key : A -> jsstring.

Lemma NoDup_map_eq (l : list A) (x y : A) :
  NoDup (map key l) -> In x l -> In y l -> key x = key y -> x = y.
Proof.
  induction l as [|a l IH]; intros Hnd Hx Hy E; [contradiction|].
  simpl in Hnd. inversion Hnd as [|? ? Hnotin Hnd']; subst.
  destruct Hx as [->|Hx], Hy as [->|Hy].
  - reflexivity.
  - exfalso. apply Hnotin. rewrite E. now apply in_map.
  - exfalso. apply Hnotin. rewrite <- E. now apply in_map.
  - now apply IH.
Qed.

(** In a table with unique keys, a record shares its key with one of the
    selected records exactly when it is selected itself. *)
Lemma same_key_selected (sel : A -> bool) (l : list A) (x : A) :
  NoDup (map key l) -> In x l ->
  existsb (fun t => strict_eq (key x) (key t)) (filter sel l) = sel x.
Proof.
  intros Hnd Hx. destruct (sel x) eqn:Hs.
  - apply existsb_exists. exists x. split.
    + apply filter_In. now split.
    + apply strict_eq_refl.
  - destruct (existsb _ _) eqn:E; [|reflexivity].
    apply existsb_exists in E. destruct E as (t & Ht & Hk).
    apply filter_In in Ht. destruct Ht as [Ht Hst].
    apply strict_eq_true in Hk.
    rewrite (NoDup_map_eq l x t Hnd Hx Ht Hk) in Hs. congruence.
Qed.
End Keys.

Lemma fold_update_components (targets : list ComponentTest.t) : forall s,
  fold_left (fun s t => Store_update (ComponentTest.id t) clearProductId s) targets s
  = mkStore (productTable s)
            (map (fun c =>
                    if existsb (fun t => strict_eq (ComponentTest.id c) (ComponentTest.id t))
                               targets
                    then ComponentTest.apply clearProductId c else c)
                 (componentTable s))
            (photoTable s).
Proof.
  induction targets as [|t ts IH]; intros s; simpl.
  - rewrite map_id. now destruct s.
  - rewrite IH. unfold Store_update. simpl. f_equal.
    rewrite map_map. apply map_ext. intros c.
    destruct (strict_eq (ComponentTest.id c) (ComponentTest.id t)); simpl; [|reflexivity].
    destruct (existsb _ ts); reflexivity.
Qed.

Lemma fold_remove_photos (targets : list ProductPhoto.t) : forall s,
  fold_left (fun s t => Store_removePhoto (ProductPhoto.id t) s) targets s
  = mkStore (productTable s) (componentTable s)
            (filter (fun ph =>
                       negb (existsb (fun t => strict_eq (ProductPhoto.id ph)
                                                         (ProductPhoto.id t))
                                     targets))
                    (photoTable s)).
Proof.
  induction targets as [|t ts IH]; intros s; simpl.
  - destruct s as [ps cs phs]; simpl. f_equal.
    induction phs as [|ph phs IHp]; simpl; congruence.
  - rewrite IH. unfold Store_removePhoto. simpl. f_equal.
    induction (photoTable s) as [|ph phs IHp]; simpl; [reflexivity|].
    destruct (strict_eq (ProductPhoto.id ph) (ProductPhoto.id t)); simpl.
    + exact IHp.
    + destruct (existsb _ ts); simpl; congruence.
Qed.

Lemma bind_resolved {A B} (m : M A) (k : A -> M B) (w w' : World) (b : B) :
  bind m k w = (Resolved b, w') ->
  exists a w1, m w = (Resolved a, w1) /\ k a w1 = (Resolved b, w').
Proof.
  unfold bind. destruct (m w) as [[a|e] w1]; [|discriminate].
  intros H. now exists a, w1.
Qed.

Lemma bind_run {A B} (m : M A) (k : A -> M B) (w w1 : World) (a : A) :
  m w = (Resolved a, w1) -> bind m k w = k a w1.
Proof. unfold bind. now intros ->. Qed.

Lemma request_resolved {A} (env : Env) (op : Store -> A * Store)
      (w w' : World) (a : A) :
  request env op w = (Resolved a, w') ->
  a = fst (op (store w))
  /\ w' = mkWorld (ui w) (snd (op (store w))) (testPanelRef w) (S (requests w))
                  (effects w).
Proof.
  rewrite request_run. destruct (request_fails env (requests w)); [discriminate|].
  intros [= <- <-]. auto.
Qed.

Lemma request_ok {A} (env : Env) (op : Store -> A * Store) (w : World) :
  (forall n, request_fails env n = false) ->
  request env op w
  = (Resolved (fst (op (store w))),
     mkWorld (ui w) (snd (op (store w))) (testPanelRef w) (S (requests w)) (effects w)).
Proof. intros Hok. now rewrite request_run, Hok. Qed.

(** The [try] block of [handleDeleteProduct], run to its end. *)
Lemma deleteProductBody_run (env : Env) (r : Render) (id : jsstring) (w : World) :
  let s1 := fold_left (fun s t => Store_update (ComponentTest.id t) clearProductId s)
                      (filter (ownedComponent id) (componentTable (store w)))
                      (store w) in
  let s2 := fold_left (fun s t => Store_removePhoto (ProductPhoto.id t) s)
                      (filter (ownedPhoto id) (photoTable s1)) s1 in
  (forall w',
     deleteProductBody env r id w = (Resolved tt, w') ->
     store w' = Store_removeProduct id s2
     /\ selectedProductId (ui w')
        = (if selected_is (r_selectedProductId r) id then None
           else selectedProductId (ui w))
     /\ effects w' = effects w
     /\ testPanelRef w' = testPanelRef w)
  /\ ((forall n, request_fails env n = false) ->
      exists w', deleteProductBody env r id w = (Resolved tt, w')).
Proof.
  intros s1 s2. split.
  - intros w' H. unfold deleteProductBody in H.
    apply bind_resolved in H. destruct H as (pc & w1 & H1 & H).
    apply bind_resolved in H. destruct H as ([] & w2 & H2 & H).
    apply bind_resolved in H. destruct H as (pp & w3 & H3 & H).
    apply bind_resolved in H. destruct H as ([] & w4 & H4 & H).
    apply bind_resolved in H. destruct H as ([] & w5 & H5 & H).
    apply request_resolved in H1. destruct H1 as [-> ->]. simpl in H2.
    apply (for_of_requests_resolved env
             (fun t s => Store_update (ComponentTest.id t) clearProductId s)) in H2.
    simpl in H2. fold s1 in H2. subst w2.
    apply request_resolved in H3. destruct H3 as [-> ->]. simpl in H4.
    apply (for_of_requests_resolved env
             (fun t s => Store_removePhoto (ProductPhoto.id t) s)) in H4.
    simpl in H4. fold s2 in H4. subst w4.
    apply request_resolved in H5. destruct H5 as [_ ->]. simpl in H.
    destruct (selected_is (r_selectedProductId r) id);
      unfold setSelectedProductId, modify_ui, ret in H;
      injection H as <-; simpl; auto.
  - intros Hok. unfold deleteProductBody.
    erewrite bind_run by (apply request_ok; assumption).
    erewrite bind_run
      by (apply (for_of_requests_ok env
                   (fun t s => Store_update (ComponentTest.id t) clearProductId s));
          assumption).
    erewrite bind_run by (apply request_ok; assumption).
    erewrite bind_run
      by (apply (for_of_requests_ok env
                   (fun t s => Store_removePhoto (ProductPhoto.id t) s));
          assumption).
    erewrite bind_run by (apply request_ok; assumption).
    destruct (selected_is (r_selectedProductId r) id); eexists; reflexivity.
Qed.

(** C7.  In a store whose records have ids of their own: when the run of
    [handleDeleteProduct] gets to the end of its [try] block, so that the
    product is deleted, every component test owned by the product is still
    in the store with its product reference cleared and the other component
    tests are as they were; the photos owned by the product are gone and
    the others remain; the product record is gone; and the selection is
    cleared if it was this product and kept otherwise.  When no store
    request rejects, the run does get to the end. *)
Theorem delete_product_cascade (env : Env) (w : World) (id : jsstring) :
  unique_ids (store w) ->
  (forall w',
     deleteProductBody env (render w) id w = (Resolved tt, w') ->
     fire (fun r => handleDeleteProduct env r id) w = w'
     /\ componentTable (store w')
        = map (fun c => if ownedComponent id c
                        then ComponentTest.apply clearProductId c else c)
              (componentTable (store w))
     /\ map ComponentTest.id (componentTable (store w'))
        = map ComponentTest.id (componentTable (store w))
     /\ photoTable (store w')
        = filter (fun ph => negb (ownedPhoto id ph)) (photoTable (store w))
     /\ productTable (store w')
        = filter (fun p => negb (strict_eq (Product.id p) id)) (productTable (store w))
     /\ selectedProductId (ui w')
        = (if selected_is (selectedProductId (ui w)) id then None
           else selectedProductId (ui w))
     /\ effects w' = effects w)
  /\ ((forall n, request_fails env n = false) ->
      exists w', deleteProductBody env (render w) id w = (Resolved tt, w')).
Proof.
  intros (_ & Hcs & Hphs).
  destruct (deleteProductBody_run env (render w) id w) as [Hrun Hex].
  split; [|exact Hex].
  intros w' Hbody. destruct (Hrun w' Hbody) as (Hs & Hsel & Hlog & _).
  rewrite !fold_update_components, fold_remove_photos in Hs. simpl in Hs.
  assert (Hc : componentTable (store w')
               = map (fun c => if ownedComponent id c
                               then ComponentTest.apply clearProductId c else c)
                     (componentTable (store w))).
  { rewrite Hs. simpl. apply map_ext_in. intros c Hin.
    now rewrite (same_key_selected ComponentTest.id (ownedComponent id) _ c Hcs Hin). }
  split; [|split; [exact Hc|split; [|split; [|split; [|split]]]]].
  - unfold fire, handleDeleteProduct, try_catch. now rewrite Hbody.
  - rewrite Hc, map_map. apply map_ext. intros c.
    destruct (ownedComponent id c); reflexivity.
  - rewrite Hs. simpl. apply filter_ext_in. intros ph Hin.
    now rewrite (same_key_selected ProductPhoto.id (ownedPhoto id) _ ph Hphs Hin).
  - rewrite Hs. reflexivity.
  - exact Hsel.
  - exact Hlog.
Qed.

(* ------------------------------------------------------------------ *)
(** ** The export actions *)

Lemma skipn_app_exact {A} (l l' : list A) : skipn (length l) (l ++ l') = l'.
Proof. induction l; simpl; auto. Qed.


Ltac run_handlers :=
  cbv beta iota delta
      [exportHandler handleDownloadWordReport handleEmailReport
       call_captureScreenshot call_generateWordDocument saveAs
       finally try_catch bind tell await console_error alert
       setIsGeneratingDoc setShowExportModal setEmailAddress modify_ui ret
       ui store testPanelRef requests effects fst snd negb].



(* ------------------------------------------------------------------ *)
(** ** The theorems at work on the sample world *)

Lemma build_keeps_every_entry_witness :
  ReportBuilder.valid_product Sample.widget
  /\ exists doc,
       ReportBuilder.generateWordDocument (fun _ => true) 0 Sample.widget
                           [Sample.motor; Sample.switch] [Sample.front] None
       = Resolved doc
       /\ length (ReportBuilder.componentsSection doc) = 2
       /\ length (ReportBuilder.photosSection doc) = 1.
Proof.
  assert (V : ReportBuilder.valid_product Sample.widget) by (split; discriminate).
  split; [exact V|].
  destruct (build_keeps_every_entry (fun _ => true) 0 Sample.widget
              [Sample.motor; Sample.switch] [Sample.front] None V)
    as (doc & Hb & Hc & Hp & _).
  exists doc. auto.
Defined.


Lemma captureScreenshot_never_rejects_witness :
  exists result w',
    captureScreenshot Sample.env_no_canvas Sample.world = (Resolved result, w')
    /\ result = None.
Proof.
  destruct (captureScreenshot_never_rejects Sample.env_no_canvas Sample.world)
    as (result & w' & Hrun & _ & Hrej & _).
  exists result, w'. split; [exact Hrun|].
  apply (Hrej 1%N (Error (lit "canvas"))); reflexivity.
Defined.

Lemma delete_product_cascade_witness :
  unique_ids (store Sample.world)
  /\ exists w',
       deleteProductBody Sample.env (render Sample.world) (lit "p1") Sample.world
       = (Resolved tt, w')
       /\ map ComponentTest.productId (componentTable (store w'))
          = [[]; []; lit "p2"]
       /\ photoTable (store w') = [Sample.side]
       /\ productTable (store w') = [Sample.gadget]
       /\ selectedProductId (ui w') = None.
Proof.
  assert (U : unique_ids (store Sample.world)).
  { repeat split; simpl;
      repeat (constructor; [simpl; intuition discriminate|]); constructor. }
  split; [exact U|].
  destruct (delete_product_cascade Sample.env Sample.world (lit "p1") U) as [Hall Hex].
  destruct (Hex (fun n => eq_refl)) as [w' Hw'].
  exists w'. split; [exact Hw'|].
  destruct (Hall w' Hw') as (_ & Hc & _ & Hph & Hp & Hs & _).
  rewrite Hc, Hph, Hp, Hs. repeat split.
Defined.

Lemma stats_of_unselected_product_witness :
  lit "p2" <> []
  /\ selectedProductId (ui Sample.world) <> Some (lit "p2")
  /\ In Sample.battery (componentTable (store Sample.world))
  /\ getStatusStats (render Sample.world) (lit "p2") = mkStats 0 0 0 0.
Proof.
  assert (H1 : lit "p2" <> []) by discriminate.
  assert (H2 : selectedProductId (ui Sample.world) <> Some (lit "p2")) by discriminate.
  split; [exact H1|]. split; [exact H2|]. split.
  - simpl. auto.
  - exact (proj1 (stats_of_unselected_product (fun _ => 7%Z) Sample.world (lit "p2")
                                              H1 H2)).
Defined.

Lemma search_by_inventory_id_witness :
  inventorySearchId (ui Sample.world) <> []
  /\ selectedProductId (ui (fire (handleSearchByInventoryId Sample.env) Sample.world))
     = Some (lit "p2").
Proof.
  assert (H1 : inventorySearchId (ui Sample.world) <> []) by discriminate.
  split; [exact H1|].
  exact (proj1 (proj2 (proj2 (search_by_inventory_id Sample.env Sample.world)
                             H1 eq_refl))).
Defined.

(* ------------------------------------------------------------------ *)
(** ** More on the file names *)

Section RunsMore.
Variable cls : code_unit -> bool.
Variable by_ : jsstring.

Lemma collapse_avoids_class (s : jsstring) :
  Forall (fun c => cls c = false) by_ ->
  Forall (fun c => cls c = false) (collapse_runs cls by_ s).
Proof.
  intros Hby. unfold collapse_runs.
  pose proof (runs_homogeneous cls s) as H.
  induction (runs cls s) as [|[b r] rs IH]; simpl; [constructor|].
  inversion H as [|? ? [_ Hr] Hrs]; subst. simpl in Hr.
  apply Forall_app. split; [|now apply IH].
  destruct b; assumption.
Qed.

Lemma collapse_outside_class (s : jsstring) :
  Forall (fun c => cls c = false) s -> collapse_runs cls by_ s = s.
Proof.
  induction s as [|c s IH]; intros H; [reflexivity|].
  inversion H as [|? ? Hc Hs]; subst.
  rewrite collapse_cons_out by assumption. now rewrite IH.
Qed.

Lemma collapse_length (s : jsstring) :
  length by_ <= 1 -> length (collapse_runs cls by_ s) <= length s.
Proof.
  intros Hby. rewrite <- (runs_concat cls s) at 2. unfold collapse_runs.
  pose proof (runs_homogeneous cls s) as H.
  induction (runs cls s) as [|[b r] rs IH]; simpl; [lia|].
  inversion H as [|? ? [Hne _] Hrs]; subst. simpl in Hne.
  rewrite !length_app. specialize (IH Hrs).
  destruct b; [|lia].
  destruct r; [congruence | simpl; lia].
Qed.
End RunsMore.

Lemma digit_not_whitespace (c : code_unit) :
  is_digit c = true -> is_whitespace c = false.
Proof.
  unfold is_digit, is_whitespace. intros H.
  apply andb_true_iff in H. destruct H as [H1 H2].
  apply N.leb_le in H1. apply N.leb_le in H2.
  replace (c <=? 13)%N with false by (symmetry; apply N.leb_gt; lia).
  replace (0x2000 <=? c)%N with false by (symmetry; apply N.leb_gt; lia).
  repeat match goal with
         | |- context [(c =? ?k)%N] =>
             replace (c =? k)%N with false by (symmetry; apply N.eqb_neq; lia)
         end.
  now rewrite andb_false_r.
Qed.

(** X1.  No file name of either path has a whitespace unit in it, whatever the
    product is called. *)
Theorem filenames_have_no_whitespace (name : jsstring) (now : Z) :
  (0 <= now)%Z ->
  Forall (fun c => is_whitespace c = false) (downloadFilename name now)
  /\ Forall (fun c => is_whitespace c = false) (emailFilename name).
Proof.
  intros Hnow.
  assert (Hname : Forall (fun c => is_whitespace c = false)
                         (replace_runs is_whitespace (lit "_") name)).
  { rewrite replace_runs_collapse. apply collapse_avoids_class.
    repeat constructor. }
  assert (Hlit : forall s, forallb (fun c => negb (is_whitespace c)) (lit s) = true ->
                           Forall (fun c => is_whitespace c = false) (lit s)).
  { intros s H. apply Forall_forall. intros c Hc.
    rewrite forallb_forall in H. apply H in Hc. now destruct (is_whitespace c). }
  split.
  - unfold downloadFilename. repeat (apply Forall_app; split); try assumption.
    + now apply Hlit.
    + destruct (Number_toString_digits now Hnow) as [_ Hd].
      eapply Forall_impl; [|exact Hd]. intros c. apply digit_not_whitespace.
    + now apply Hlit.
  - unfold emailFilename. apply Forall_app. split; [assumption | now apply Hlit].
Qed.

Lemma filenames_have_no_whitespace_witness :
  (0 <= 1700000000000)%Z
  /\ Forall (fun c => is_whitespace c = false)
            (downloadFilename (lit "Widget  Pro") 1700000000000).
Proof.
  split; [lia|].
  exact (proj1 (filenames_have_no_whitespace (lit "Widget  Pro") 1700000000000
                                             ltac:(lia))).
Defined.

(** X2.  The replacement never makes the name longer, and a name without
    whitespace goes into the file name as it is. *)
Theorem filename_keeps_plain_names (name : jsstring) :
  length (replace_runs is_whitespace (lit "_") name) <= length name
  /\ (Forall (fun c => is_whitespace c = false) name ->
      forall now,
        downloadFilename name now
        = name ++ lit "_test_report_" ++ Number_toString now ++ lit ".docx"
        /\ emailFilename name = name ++ lit "_test_report.docx").
Proof.
  split.
  - rewrite replace_runs_collapse. apply collapse_length. simpl. lia.
  - intros H now. unfold downloadFilename, emailFilename.
    rewrite replace_runs_collapse, collapse_outside_class by assumption. auto.
Qed.

Lemma filename_keeps_plain_names_witness :
  Forall (fun c => is_whitespace c = false) (lit "Gadget")
  /\ emailFilename (lit "Gadget") = lit "Gadget_test_report.docx".
Proof.
  assert (H : Forall (fun c => is_whitespace c = false) (lit "Gadget"))
    by (repeat constructor).
  split; [exact H|].
  exact (proj2 (proj2 (filename_keeps_plain_names (lit "Gadget")) H 0%Z)).
Defined.

(** X3.  A file saved by the download path never has the name of a file saved by
    the email path, whatever the two products are called. *)
Theorem download_and_email_names_differ (name name' : jsstring) (now : Z) :
  (0 <= now)%Z -> downloadFilename name now <> emailFilename name'.
Proof.
  intros Hnow H. unfold downloadFilename, emailFilename in H.
  apply (f_equal (@rev code_unit)) in H.
  change (lit "_test_report.docx") with (lit "_test_report" ++ lit ".docx") in H.
  rewrite !rev_app_distr in H. rewrite <- !app_assoc in H.
  apply app_inv_head in H.
  destruct (Number_toString_digits now Hnow) as [Hne Hd].
  apply Forall_rev in Hd.
  destruct (rev (Number_toString now)) as [|d ds] eqn:E.
  - apply Hne. rewrite <- (rev_involutive (Number_toString now)), E. reflexivity.
  - inversion Hd as [|? ? Hdig _]; subst. simpl in H. injection H as -> _.
    discriminate.
Qed.

Lemma download_and_email_names_differ_witness :
  (0 <= 5)%Z /\ downloadFilename (lit "A") 5 <> emailFilename (lit "A_test_report_5").
Proof.
  split; [lia|].
  exact (download_and_email_names_differ (lit "A") (lit "A_test_report_5") 5
                                         ltac:(lia)).
Defined.

(* ------------------------------------------------------------------ *)
(** ** More on the statistics *)

Lemma has_status_exclusive (a b : string) (c : ComponentTest.t) :
  lit a <> lit b -> has_status a c = true -> has_status b c = false.
Proof.
  unfold has_status. intros Hab Ha. apply strict_eq_true in Ha.
  apply strict_eq_false. congruence.
Qed.

Lemma enum_counts (l : list ComponentTest.t) :
  length (filter (has_status "working") l)
  + length (filter (has_status "not-working") l)
  + length (filter (has_status "untested") l)
  = length (filter enum_status l).
Proof.
  induction l as [|c l IH]; [reflexivity|]. simpl. unfold enum_status at 1.
  destruct (has_status "working" c) eqn:E1.
  - rewrite (has_status_exclusive "working" "not-working" c) by (discriminate || assumption).
    rewrite (has_status_exclusive "working" "untested" c) by (discriminate || assumption).
    simpl. lia.
  - destruct (has_status "not-working" c) eqn:E2.
    + rewrite (has_status_exclusive "not-working" "untested" c)
        by (discriminate || assumption).
      simpl. lia.
    + destruct (has_status "untested" c); simpl; lia.
Qed.

Lemma filter_length_le {A} (f : A -> bool) (l : list A) :
  length (filter f l) <= length l.
Proof. induction l as [|x l IH]; simpl; [lia|]. destruct (f x); simpl; lia. Qed.

Lemma filter_all {A} (f : A -> bool) (l : list A) :
  forallb f l = true -> filter f l = l.
Proof.
  induction l as [|x l IH]; simpl; [reflexivity|].
  intros H. apply andb_true_iff in H. destruct H as [-> H]. now rewrite IH.
Qed.

Lemma filter_twice {A} (f : A -> bool) (l : list A) :
  filter f (filter f l) = filter f l.
Proof.
  induction l as [|x l IH]; simpl; [reflexivity|].
  destruct (f x) eqn:E; simpl; rewrite ?E, IH; reflexivity.
Qed.

(** X4.  The three counts of [getStatusStats] never count a component twice:
    their sum is the number of the product's listed components whose status
    is one of the three values, so it is at most the total, and it is the
    total when every status is one of the three. *)
Theorem stats_counts_add_up (r : Render) (productId : jsstring) :
  let stats := getStatusStats r productId in
  let listed := filter (ownedComponent productId) (components r) in
  working stats + notWorking stats + untested stats
  = length (filter enum_status listed)
  /\ working stats + notWorking stats + untested stats <= total stats
  /\ (forallb enum_status listed = true ->
      working stats + notWorking stats + untested stats = total stats).
Proof.
  intros stats listed. subst stats. unfold getStatusStats. simpl. fold listed.
  rewrite enum_counts. split; [reflexivity|]. split.
  - apply filter_length_le.
  - intros H. now rewrite filter_all.
Qed.

Lemma or_empty_some (pid : jsstring) : pid <> [] -> or_empty (Some pid) = pid.
Proof. destruct pid; simpl; congruence. Qed.

Lemma getStatusStats_selected (w : World) (productId : jsstring) :
  productId <> [] ->
  selectedProductId (ui w) = Some productId ->
  getStatusStats (render w) productId = tableStats (store w) productId.
Proof.
  intros Hne Hsel. unfold getStatusStats, tableStats, render. simpl.
  rewrite Hsel, (or_empty_some productId Hne), filter_twice. reflexivity.
Qed.

(** X5.  For the selected product the statistics are the real ones: they are the
    counts over all component tests of the store that the product owns.
    (For every other product they are zero.) *)
Theorem stats_of_selected_product (w : World) (productId : jsstring) :
  productId <> [] ->
  selectedProductId (ui w) = Some productId ->
  getStatusStats (render w) productId = tableStats (store w) productId.
Proof.
  intros Hne Hsel. unfold getStatusStats, tableStats, render. simpl.
  rewrite Hsel, (or_empty_some productId Hne), filter_twice. reflexivity.
Qed.

(* ------------------------------------------------------------------ *)
(** ** What the programs keep *)

Section Keeps.
Variable R : World -> World -> Prop.
Hypothesis R_refl : forall w, R w w.
Hypothesis R_trans : forall w1 w2 w3, R w1 w2 -> R w2 w3 -> R w1 w3.

Lemma keeps_ret {A} (a : A) : keeps R (ret a).
Proof. intros w. apply R_refl. Qed.

Lemma keeps_bind {A B} (m : M A) (k : A -> M B) :
  keeps R m -> (forall a, keeps R (k a)) -> keeps R (bind m k).
Proof.
  intros Hm Hk w. unfold bind. specialize (Hm w).
  destruct (m w) as [[a|e] w1]; simpl in *; [|assumption].
  eapply R_trans; [exact Hm | apply Hk].
Qed.

Lemma keeps_try_catch {A} (body : M A) (handler : error -> M A) :
  keeps R body -> (forall e, keeps R (handler e)) -> keeps R (try_catch body handler).
Proof.
  intros Hm Hk w. unfold try_catch. specialize (Hm w).
  destruct (body w) as [[a|e] w1]; simpl in *; [assumption|].
  eapply R_trans; [exact Hm | apply Hk].
Qed.

Lemma keeps_for_of {A} (l : list A) (body : A -> M unit) :
  (forall x, keeps R (body x)) -> keeps R (for_of l body).
Proof.
  intros Hb. induction l as [|x l IH]; simpl.
  - apply keeps_ret.
  - apply keeps_bind; [apply Hb | intros _; exact IH].
Qed.
End Keeps.

Lemma keeps_run {A} (R : World -> World -> Prop) (m : M A) (w w' : World)
      (o : outcome A) :
  keeps R m -> m w = (o, w') -> R w w'.
Proof. intros H E. specialize (H w). now rewrite E in H. Qed.

(** A request keeps everything but the store and the request count, and it
    keeps every property of the store that its operation keeps. *)
Lemma keeps_request {A} (env : Env) (op : Store -> A * Store)
      (Q : Store -> Store -> Prop) :
  (forall s, Q s s) -> (forall s, Q s (snd (op s))) ->
  keeps (fun w w' => quiet w w' /\ Q (store w) (store w')) (request env op).
Proof.
  intros Hrefl Hop w. rewrite request_run.
  destruct (request_fails env (requests w)); simpl; repeat split; auto.
Qed.

Lemma keeps_modify_ui (f : UIState -> UIState) (Q : Store -> Store -> Prop) :
  (forall s, Q s s) ->
  keeps (fun w w' => Q (store w) (store w')) (modify_ui f).
Proof. intros Hrefl w. simpl. apply Hrefl. Qed.

Lemma keeps_tell (e : Effect) (Q : Store -> Store -> Prop) :
  (forall s, Q s s) ->
  keeps (fun w w' => Q (store w) (store w')) (tell e).
Proof. intros Hrefl w. simpl. apply Hrefl. Qed.

Lemma keeps_weaken {A} (R R' : World -> World -> Prop) (m : M A) :
  (forall w w', R w w' -> R' w w') -> keeps R m -> keeps R' m.
Proof. intros H Hm w. apply H, Hm. Qed.

(* ------------------------------------------------------------------ *)
(** ** Testing a component *)

Lemma filter_map_commute {A} (f : A -> bool) (g : A -> A) (l : list A) :
  (forall x, f (g x) = f x) -> filter f (map g l) = map g (filter f l).
Proof.
  intros H. induction l as [|x l IH]; simpl; [reflexivity|].
  rewrite H. destruct (f x); simpl; now rewrite IH.
Qed.

Lemma same_list_of_map (w w' : World) (g : ComponentTest.t -> ComponentTest.t) :
  ui w' = ui w ->
  productTable (store w') = productTable (store w) ->
  photoTable (store w') = photoTable (store w) ->
  componentTable (store w') = map g (componentTable (store w)) ->
  (forall c, ComponentTest.id (g c) = ComponentTest.id c
             /\ ComponentTest.productId (g c) = ComponentTest.productId c
             /\ ComponentTest.name (g c) = ComponentTest.name c) ->
  same_list w w'.
Proof.
  intros Hui Hp Hph Hc Hg.
  assert (Hown : forall k c, ownedComponent k (g c) = ownedComponent k c).
  { intros k c. unfold ownedComponent. now rewrite (proj1 (proj2 (Hg c))). }
  unfold same_list. repeat split; try assumption.
  - rewrite Hc, map_map. apply map_ext. intros c. apply Hg.
  - rewrite Hc, map_map. apply map_ext. intros c. apply Hg.
  - rewrite Hc, map_map. apply map_ext. intros c. apply Hg.
  - unfold render. simpl. rewrite Hui, Hc.
    rewrite filter_map_commute by (intros c; apply Hown).
    rewrite map_map. apply map_ext. intros c. apply Hg.
  - intros pid. unfold getStatusStats, render. simpl. rewrite Hui, Hc.
    rewrite !filter_map_commute by (intros c; apply Hown).
    apply length_map.
Qed.

Lemma update_same_list (env : Env) (componentId : jsstring) (p : ComponentTest.patch)
      (label : string) (w : World) :
  ComponentTest.set_productId p = None ->
  same_list w (snd (try_catch (updateComponent env componentId p)
                              (fun error => console_error label error) w)).
Proof.
  intros Hp. unfold try_catch, updateComponent. rewrite request_run.
  destruct (request_fails env (requests w)); simpl.
  - apply (same_list_of_map _ _ (fun c => c)); simpl; auto.
    now rewrite map_id.
  - apply (same_list_of_map _ _
             (fun c => if strict_eq (ComponentTest.id c) componentId
                       then ComponentTest.apply p c else c)); simpl; auto.
    intros c. destruct (strict_eq (ComponentTest.id c) componentId); simpl; auto.
    now rewrite Hp.
Qed.

(** X6.  Setting a status or editing the notes of a component, whether the
    request resolves or rejects, leaves the UI state, the products and the
    photos alone and keeps the list of component tests: the same records
    under the same products with the same names in the same order, so the
    same components on screen and the same total for every product. *)
Theorem testing_keeps_the_list (env : Env) (componentId v : jsstring) (w : World) :
  same_list w (snd (handleUpdateComponentStatus env componentId v w))
  /\ same_list w (snd (handleUpdateComponentNotes env componentId v w)).
Proof.
  split; apply update_same_list; reflexivity.
Qed.

(** X7.  A rejected status or notes update changes no record and logs the error
    to the console; the user is not alerted. *)
Theorem rejected_update_changes_nothing (env : Env) (componentId v : jsstring)
        (w : World) :
  request_fails env (requests w) = true ->
  (store (snd (handleUpdateComponentStatus env componentId v w)) = store w
   /\ exists e,
        effects (snd (handleUpdateComponentStatus env componentId v w))
        = effects w ++ [ConsoleError (lit "Failed to update component status:") e])
  /\ (store (snd (handleUpdateComponentNotes env componentId v w)) = store w
      /\ exists e,
           effects (snd (handleUpdateComponentNotes env componentId v w))
           = effects w ++ [ConsoleError (lit "Failed to update component notes:") e]).
Proof.
  intros Hf.
  unfold handleUpdateComponentStatus, handleUpdateComponentNotes, try_catch,
    updateComponent.
  rewrite !request_run, Hf. simpl. split; (split; [reflexivity | eexists; reflexivity]).
Qed.

Section Buckets.
Variable componentId : jsstring.
Variable p : ComponentTest.patch.
Variable status : jsstring.
Hypothesis p_status : ComponentTest.set_status p = Some status.
Hypothesis p_owner : ComponentTest.set_productId p = None.

Let upd (c : ComponentTest.t) : ComponentTest.t :=
  if strict_eq (ComponentTest.id c) componentId then ComponentTest.apply p c else c.

Lemma update_elsewhere (l : list ComponentTest.t) :
  ~ In componentId (map ComponentTest.id l) -> map upd l = l.
Proof.
  intros H. rewrite <- (map_id l) at 2. apply map_ext_in. intros c Hc.
  unfold upd. destruct (strict_eq (ComponentTest.id c) componentId) eqn:E; [|reflexivity].
  apply strict_eq_true in E. exfalso. apply H. rewrite <- E. now apply in_map.
Qed.

(** One record moves from the bucket of its old status to the bucket of the
    new one. *)
Lemma update_moves_one (t : string) (productId : jsstring) (c : ComponentTest.t) :
  forall l,
    NoDup (map ComponentTest.id l) -> In c l ->
    ComponentTest.id c = componentId -> ComponentTest.productId c = productId ->
    length (filter (has_status t) (filter (ownedComponent productId) (map upd l)))
    + one_if (has_status t c)
    = length (filter (has_status t) (filter (ownedComponent productId) l))
      + one_if (strict_eq status (lit t)).
Proof.
  induction l as [|x l IH]; intros Hnd Hin Hid Hpid; [contradiction|].
  simpl in Hnd. apply NoDup_cons_iff in Hnd. destruct Hnd as [Hnotin Hnd'].
  destruct Hin as [->|Hin].
  - rewrite Hid in Hnotin. simpl map. rewrite update_elsewhere by assumption.
    assert (Hown : ownedComponent productId c = true)
      by (unfold ownedComponent; rewrite Hpid; apply strict_eq_refl).
    assert (Hown' : ownedComponent productId (ComponentTest.apply p c) = true)
      by (unfold ownedComponent; simpl; rewrite p_owner, Hpid; apply strict_eq_refl).
    assert (Hst : has_status t (ComponentTest.apply p c) = strict_eq status (lit t))
      by (unfold has_status; simpl; now rewrite p_status).
    unfold upd. rewrite Hid, strict_eq_refl. simpl filter.
    rewrite Hown, Hown'. simpl filter. rewrite Hst.
    destruct (strict_eq status (lit t)), (has_status t c); simpl; lia.
  - assert (Hx : strict_eq (ComponentTest.id x) componentId = false).
    { apply strict_eq_false. intros E. apply Hnotin. rewrite E, <- Hid. now apply in_map. }
    simpl map. unfold upd at 1. rewrite Hx.
    specialize (IH Hnd' Hin Hid Hpid). simpl.
    destruct (ownedComponent productId x); simpl; [|exact IH].
    destruct (has_status t x); simpl; lia.
Qed.
End Buckets.

(** X8.  When the status of a component of the selected product is set and the
    request resolves, the component moves from the count of its old status
    to the count of the new one: each of the three counts loses one if the
    component had that status and gains one if it has it now.  (Ids are
    unique in the store.) *)
Theorem status_update_moves_the_component
        (env : Env) (w : World) (c : ComponentTest.t) (status productId : jsstring) :
  NoDup (map ComponentTest.id (componentTable (store w))) ->
  In c (componentTable (store w)) ->
  ComponentTest.productId c = productId ->
  productId <> [] ->
  selectedProductId (ui w) = Some productId ->
  request_fails env (requests w) = false ->
  let before := getStatusStats (render w) productId in
  let after :=
    getStatusStats
      (render (snd (handleUpdateComponentStatus env (ComponentTest.id c) status w)))
      productId in
  working after + one_if (has_status "working" c)
  = working before + one_if (strict_eq status (lit "working"))
  /\ notWorking after + one_if (has_status "not-working" c)
     = notWorking before + one_if (strict_eq status (lit "not-working"))
  /\ untested after + one_if (has_status "untested" c)
     = untested before + one_if (strict_eq status (lit "untested"))
  /\ total after = total before.
Proof.
  intros Hnd Hin Hpid Hne Hsel Hok before after. subst before after.
  set (w' := snd (handleUpdateComponentStatus env (ComponentTest.id c) status w)).
  assert (Hw' : ui w' = ui w
                /\ componentTable (store w')
                   = map (fun x => if strict_eq (ComponentTest.id x) (ComponentTest.id c)
                                   then ComponentTest.apply
                                          (statusPatch status (Date_now env)) x
                                   else x)
                         (componentTable (store w))).
  { subst w'. unfold handleUpdateComponentStatus, try_catch, updateComponent.
    rewrite request_run, Hok. simpl. auto. }
  destruct Hw' as [Hui Hc].
  rewrite (getStatusStats_selected w productId Hne Hsel).
  rewrite (getStatusStats_selected w' productId Hne) by (now rewrite Hui).
  unfold tableStats. simpl. rewrite Hc.
  pose proof (fun t => update_moves_one (ComponentTest.id c)
                         (statusPatch status (Date_now env)) status
                         eq_refl eq_refl t productId c
                         (componentTable (store w)) Hnd Hin eq_refl Hpid) as Hmove.
  repeat split; try apply Hmove.
  rewrite filter_map_commute; [apply length_map|].
  intros x. unfold ownedComponent.
  destruct (strict_eq (ComponentTest.id x) (ComponentTest.id c)); reflexivity.
Qed.

(* ------------------------------------------------------------------ *)
(** ** More on deleting a product *)

Lemma NoDup_map_filter {A B} (key : A -> B) (f : A -> bool) (l : list A) :
  NoDup (map key l) -> NoDup (map key (filter f l)).
Proof.
  induction l as [|x l IH]; simpl; intros H; [constructor|].
  apply NoDup_cons_iff in H. destruct H as [Hnotin Hnd].
  destruct (f x); simpl; [|now apply IH].
  constructor; [|now apply IH].
  intros Hin. apply Hnotin. apply in_map_iff in Hin.
  destruct Hin as (y & Hy & Hin). apply filter_In in Hin.
  rewrite <- Hy. apply in_map. tauto.
Qed.

Lemma unique_ids_update (id : jsstring) (p : ComponentTest.patch) (s : Store) :
  unique_ids s -> unique_ids (Store_update id p s).
Proof.
  intros (Hp & Hc & Hph). unfold unique_ids, Store_update. simpl.
  repeat split; try assumption.
  rewrite map_map. erewrite map_ext; [exact Hc|].
  intros c. simpl. destruct (strict_eq (ComponentTest.id c) id); reflexivity.
Qed.

Lemma unique_ids_removePhoto (id : jsstring) (s : Store) :
  unique_ids s -> unique_ids (Store_removePhoto id s).
Proof.
  intros (Hp & Hc & Hph). unfold unique_ids, Store_removePhoto. simpl.
  repeat split; try assumption. now apply NoDup_map_filter.
Qed.

Lemma unique_ids_removeProduct (id : jsstring) (s : Store) :
  unique_ids s -> unique_ids (Store_removeProduct id s).
Proof.
  intros (Hp & Hc & Hph). unfold unique_ids, Store_removeProduct. simpl.
  repeat split; try assumption. now apply NoDup_map_filter.
Qed.

Lemma keeps_store_request {A} (env : Env) (op : Store -> A * Store)
      (Q : Store -> Store -> Prop) :
  (forall s, Q s s) -> (forall s, Q s (snd (op s))) ->
  keeps (fun w w' => Q (store w) (store w')) (request env op).
Proof.
  intros Hrefl Hop.
  eapply keeps_weaken; [|apply (keeps_request env op Q Hrefl Hop)].
  intros w w' H. apply H.
Qed.

(** X9.  Deleting a product keeps the ids of the store unique, also when a
    request rejects half-way. *)
Theorem delete_keeps_ids_unique (env : Env) (w : World) (id : jsstring) :
  unique_ids (store w) ->
  unique_ids (store (fire (fun r => handleDeleteProduct env r id) w)).
Proof.
  set (Q := fun s s' : Store => unique_ids s -> unique_ids s').
  assert (Qrefl : forall s, Q s s) by (intros s H; exact H).
  assert (Rtrans : forall w1 w2 w3 : World,
             Q (store w1) (store w2) -> Q (store w2) (store w3) ->
             Q (store w1) (store w3)) by (unfold Q; auto).
  assert (Rrefl : forall w0 : World, Q (store w0) (store w0)) by (intros; apply Qrefl).
  assert (H : keeps (fun w w' => Q (store w) (store w'))
                    (handleDeleteProduct env (render w) id)).
  { unfold handleDeleteProduct, deleteProductBody.
    apply keeps_try_catch; try assumption.
    - apply keeps_bind; try assumption.
      { apply keeps_store_request; auto. }
      intros pc. apply keeps_bind; try assumption.
      { apply keeps_for_of; try assumption. intros c.
        apply keeps_store_request; auto. intros s Hs. now apply unique_ids_update. }
      intros _. apply keeps_bind; try assumption.
      { apply keeps_store_request; auto. }
      intros pp. apply keeps_bind; try assumption.
      { apply keeps_for_of; try assumption. intros ph.
        apply keeps_store_request; auto. intros s Hs. now apply unique_ids_removePhoto. }
      intros _. apply keeps_bind; try assumption.
      { apply keeps_store_request; auto. intros s Hs. now apply unique_ids_removeProduct. }
      intros _. destruct (selected_is (r_selectedProductId (render w)) id).
      + apply keeps_modify_ui; auto.
      + intros w0. apply Qrefl.
    - intros e. apply keeps_tell; auto. }
  exact (H w).
Qed.

Lemma bind_rejected {A B} (m : M A) (k : A -> M B) (w w' : World) (e : error) :
  bind m k w = (Rejected e, w') ->
  m w = (Rejected e, w')
  \/ exists a w1, m w = (Resolved a, w1) /\ k a w1 = (Rejected e, w').
Proof.
  unfold bind. destruct (m w) as [[a|e0] w1].
  - intros H. right. now exists a, w1.
  - intros [= -> ->]. now left.
Qed.

Lemma request_rejected {A} (env : Env) (op : Store -> A * Store)
      (w w' : World) (e : error) :
  request env op w = (Rejected e, w') ->
  w' = mkWorld (ui w) (store w) (testPanelRef w) (S (requests w)) (effects w).
Proof.
  rewrite request_run. destruct (request_fails env (requests w)); [|discriminate].
  now intros [= _ <-].
Qed.

(** Nothing but the component and photo tables and the request count
    differs. *)
Lemma quiet_products_refl (w : World) :
  quiet w w /\ productTable (store w) = productTable (store w).
Proof. unfold quiet. auto. Qed.

Lemma quiet_products_trans (w1 w2 w3 : World) :
  quiet w1 w2 /\ productTable (store w2) = productTable (store w1) ->
  quiet w2 w3 /\ productTable (store w3) = productTable (store w2) ->
  quiet w1 w3 /\ productTable (store w3) = productTable (store w1).
Proof. unfold quiet. intros ((?&?&?)&?) ((?&?&?)&?). repeat split; congruence. Qed.

Lemma deleteProductBody_rejected (env : Env) (r : Render) (id : jsstring)
      (w w' : World) (e : error) :
  deleteProductBody env r id w = (Rejected e, w') ->
  quiet w w' /\ productTable (store w') = productTable (store w).
Proof.
  set (R := fun w w' : World =>
              quiet w w' /\ productTable (store w') = productTable (store w)).
  assert (Kq : forall A (op : Store -> A * Store),
             (forall s, productTable (snd (op s)) = productTable s) ->
             keeps R (request env op)).
  { intros A op Hop.
    apply (keeps_request env op (fun s s' => productTable s' = productTable s)); auto. }
  assert (Kloop1 : forall l, keeps R (for_of l (fun comp : ComponentTest.t =>
             updateComponent env (ComponentTest.id comp) clearProductId))).
  { intros l. apply keeps_for_of.
    - exact quiet_products_refl.
    - exact quiet_products_trans.
    - intros c. apply Kq. reflexivity. }
  assert (Kloop2 : forall l, keeps R (for_of l (fun photo : ProductPhoto.t =>
             deletePhoto env (ProductPhoto.id photo)))).
  { intros l. apply keeps_for_of.
    - exact quiet_products_refl.
    - exact quiet_products_trans.
    - intros c. apply Kq. reflexivity. }
  assert (Krun : forall A (m : M A) w0 w1 (o : outcome A),
             keeps R m -> m w0 = (o, w1) -> R w0 w1).
  { intros A m w0 w1 o Hk Hm. exact (keeps_run R m w0 w1 o Hk Hm). }
  assert (Kquery1 : keeps R (queryComponents env id)) by (apply Kq; reflexivity).
  assert (Kquery2 : keeps R (queryPhotos env id)) by (apply Kq; reflexivity).
  intros H. unfold deleteProductBody in H.
  apply bind_rejected in H. destruct H as [H | (pc & w1 & H1 & H)].
  { exact (Krun _ _ _ _ _ Kquery1 H). }
  pose proof (Krun _ _ _ _ _ Kquery1 H1) as R1.
  apply bind_rejected in H. destruct H as [H | (u2 & w2 & H2 & H)].
  { exact (quiet_products_trans _ _ _ R1 (Krun _ _ _ _ _ (Kloop1 pc) H)). }
  pose proof (quiet_products_trans _ _ _ R1 (Krun _ _ _ _ _ (Kloop1 pc) H2)) as R2.
  apply bind_rejected in H. destruct H as [H | (pp & w3 & H3 & H)].
  { exact (quiet_products_trans _ _ _ R2 (Krun _ _ _ _ _ Kquery2 H)). }
  pose proof (quiet_products_trans _ _ _ R2 (Krun _ _ _ _ _ Kquery2 H3)) as R3.
  apply bind_rejected in H. destruct H as [H | (u4 & w4 & H4 & H)].
  { exact (quiet_products_trans _ _ _ R3 (Krun _ _ _ _ _ (Kloop2 pp) H)). }
  pose proof (quiet_products_trans _ _ _ R3 (Krun _ _ _ _ _ (Kloop2 pp) H4)) as R4.
  apply bind_rejected in H. destruct H as [H | (u5 & w5 & H5 & H)].
  { apply request_rejected in H. subst w'.
    apply (quiet_products_trans _ _ _ R4). unfold quiet. simpl. auto. }
  destruct (selected_is (r_selectedProductId r) id); discriminate.
Qed.

(** X10.  A run of [handleDeleteProduct] ends in one of two ways.  Either nothing
    is logged, the product record is removed and the selection is cleared
    if it was this product; or one error is logged to the console, the
    product table is as it was and the UI state, with the selection, is as
    it was.  The product record is never removed when a step before it
    failed. *)
Theorem delete_removes_product_or_logs (env : Env) (w : World) (id : jsstring) :
  let w' := fire (fun r => handleDeleteProduct env r id) w in
  (effects w' = effects w
   /\ productTable (store w')
      = filter (fun p => negb (strict_eq (Product.id p) id)) (productTable (store w))
   /\ selectedProductId (ui w')
      = (if selected_is (selectedProductId (ui w)) id then None
         else selectedProductId (ui w)))
  \/ (exists e,
        effects w' = effects w ++ [ConsoleError (lit "Failed to delete product:") e]
        /\ productTable (store w') = productTable (store w)
        /\ ui w' = ui w).
Proof.
  intros w'. subst w'. unfold fire, handleDeleteProduct, try_catch.
  destruct (deleteProductBody env (render w) id w) as [[[]|e] w1] eqn:E.
  - left. destruct (deleteProductBody_run env (render w) id w) as [Hrun _].
    destruct (Hrun w1 E) as (Hs & Hsel & Hlog & _). simpl.
    repeat split; try assumption.
    rewrite Hs, fold_remove_photos, fold_update_components. reflexivity.
  - right. exists e. apply deleteProductBody_rejected in E.
    destruct E as ((Hui & _ & Hlog) & Hp). simpl.
    rewrite Hlog, Hp, Hui. auto.
Qed.

Lemma bind_run_rejected {A B} (m : M A) (k : A -> M B) (w w1 : World) (e : error) :
  m w = (Rejected e, w1) -> bind m k w = (Rejected e, w1).
Proof. unfold bind. now intros ->. Qed.

Lemma for_of_requests_ok_range {A} (env : Env) (f : A -> Store -> Store)
      (l : list A) : forall w,
  (forall i, i < length l -> request_fails env (requests w + i) = false) ->
  for_of l (fun x => request env (fun s => (tt, f x s))) w
  = (Resolved tt,
     mkWorld (ui w) (fold_left (fun s x => f x s) l (store w)) (testPanelRef w)
             (length l + requests w) (effects w)).
Proof.
  induction l as [|x l IH]; intros w Hok; simpl.
  - unfold ret. now destruct w.
  - unfold bind. rewrite request_run.
    replace (request_fails env (requests w)) with false
      by (symmetry; rewrite <- (Nat.add_0_r (requests w)); apply Hok; simpl; lia).
    rewrite IH.
    + simpl. do 2 f_equal. lia.
    + intros i Hi. simpl. replace (S (requests w + i)) with (requests w + S i) by lia.
      apply Hok. simpl. lia.
Qed.

(** The store after the [try] block of [handleDeleteProduct] ran to its
    end, in a store with unique ids. *)
Lemma deleteProductBody_store (env : Env) (r : Render) (id : jsstring)
      (w w' : World) :
  unique_ids (store w) ->
  deleteProductBody env r id w = (Resolved tt, w') ->
  store w'
  = mkStore (filter (fun p => negb (strict_eq (Product.id p) id))
                    (productTable (store w)))
            (map (fun c => if ownedComponent id c
                           then ComponentTest.apply clearProductId c else c)
                 (componentTable (store w)))
            (filter (fun ph => negb (ownedPhoto id ph)) (photoTable (store w))).
Proof.
  intros (_ & Hcs & Hphs) Hbody.
  destruct (deleteProductBody_run env r id w) as [Hrun _].
  destruct (Hrun w' Hbody) as (Hs & _).
  rewrite Hs, fold_remove_photos, fold_update_components.
  unfold Store_removeProduct. simpl. f_equal.
  - apply map_ext_in. intros c Hin.
    now rewrite (same_key_selected ComponentTest.id (ownedComponent id) _ c Hcs Hin).
  - apply filter_ext_in. intros ph Hin.
    now rewrite (same_key_selected ProductPhoto.id (ownedPhoto id) _ ph Hphs Hin).
Qed.

Lemma map_fixed {A} (g : A -> A) (l : list A) :
  (forall x, In x l -> g x = x) -> map g l = l.
Proof.
  intros H. rewrite <- (map_id l) at 2. now apply map_ext_in.
Qed.

(** X11.  Deleting a product a second time changes nothing in the store: after
    the first deletion no record refers to the product any more.  (Unique
    ids; the product's id is not the empty string.) *)
Theorem delete_twice_is_delete_once
        (env env' : Env) (w w1 w2 : World) (id : jsstring) :
  unique_ids (store w) ->
  id <> [] ->
  deleteProductBody env (render w) id w = (Resolved tt, w1) ->
  deleteProductBody env' (render w1) id w1 = (Resolved tt, w2) ->
  store w2 = store w1.
Proof.
  intros Hu Hne H1 H2.
  pose proof (deleteProductBody_store env (render w) id w w1 Hu H1) as S1.
  assert (Hu1 : unique_ids (store w1)).
  { rewrite S1. destruct Hu as (Hp & Hc & Hph). repeat split; simpl.
    - now apply NoDup_map_filter.
    - rewrite map_map. erewrite map_ext; [exact Hc|].
      intros c. destruct (ownedComponent id c); reflexivity.
    - now apply NoDup_map_filter. }
  rewrite (deleteProductBody_store env' (render w1) id w1 w2 Hu1 H2).
  rewrite S1 at 4. rewrite S1. simpl. f_equal.
  - apply filter_all. apply forallb_forall. intros p Hp.
    apply filter_In in Hp. tauto.
  - apply map_fixed. intros c Hc. apply in_map_iff in Hc.
    destruct Hc as (c0 & <- & _).
    destruct (ownedComponent id c0) eqn:E.
    + replace (ownedComponent id (ComponentTest.apply clearProductId c0)) with false;
        [reflexivity|].
      symmetry. unfold ownedComponent. simpl. apply strict_eq_false. congruence.
    + now rewrite E.
  - apply filter_all. apply forallb_forall. intros ph Hph.
    apply filter_In in Hph. tauto.
Qed.

(** X12.  There is no rollback.  When the component tests of the product were
    detached and the query for its photos then rejects, the component
    tests stay detached while the product and all photos are still there;
    the UI state is unchanged and the error goes to the console. *)
Theorem failed_photo_query_leaves_components_detached
        (env : Env) (w : World) (id : jsstring) :
  unique_ids (store w) ->
  (forall i, i <= length (filter (ownedComponent id) (componentTable (store w))) ->
             request_fails env (requests w + i) = false) ->
  request_fails env
    (requests w + S (length (filter (ownedComponent id) (componentTable (store w)))))
  = true ->
  let w' := fire (fun r => handleDeleteProduct env r id) w in
  componentTable (store w')
  = map (fun c => if ownedComponent id c
                  then ComponentTest.apply clearProductId c else c)
        (componentTable (store w))
  /\ productTable (store w') = productTable (store w)
  /\ photoTable (store w') = photoTable (store w)
  /\ ui w' = ui w
  /\ exists e,
       effects w' = effects w ++ [ConsoleError (lit "Failed to delete product:") e].
Proof.
  intros (_ & Hcs & _) Hok Hfail w'. subst w'.
  set (owned := filter (ownedComponent id) (componentTable (store w))) in *.
  unfold fire, handleDeleteProduct, try_catch, deleteProductBody.
  assert (E1 : queryComponents env id w
               = (Resolved owned,
                  mkWorld (ui w) (store w) (testPanelRef w) (S (requests w))
                          (effects w))).
  { unfold queryComponents. rewrite request_run.
    replace (request_fails env (requests w)) with false; [reflexivity|].
    symmetry. rewrite <- (Nat.add_0_r (requests w)). apply Hok. lia. }
  rewrite (bind_run _ _ _ _ _ E1).
  erewrite bind_run.
  2:{ apply (for_of_requests_ok_range env
               (fun t s => Store_update (ComponentTest.id t) clearProductId s)).
      intros i Hi. simpl. replace (S (requests w + i)) with (requests w + S i) by lia.
      apply Hok. lia. }
  erewrite bind_run_rejected.
  2:{ unfold queryPhotos. rewrite request_run. simpl requests.
      replace (length owned + S (requests w)) with (requests w + S (length owned))
        by lia.
      rewrite Hfail. reflexivity. }
  simpl. rewrite fold_update_components. simpl.
  repeat split; try reflexivity; [|eexists; reflexivity].
  unfold owned. apply map_ext_in. intros c Hin.
  now rewrite (same_key_selected ComponentTest.id (ownedComponent id) _ c Hcs Hin).
Qed.

(* ------------------------------------------------------------------ *)
(** ** Selecting and searching *)

Lemma find_by_id (l : list Product.t) (p : Product.t) :
  NoDup (map Product.id l) -> In p l ->
  find (fun q => strict_eq (Product.id q) (Product.id p)) l = Some p.
Proof.
  induction l as [|x l IH]; intros Hnd Hin; [contradiction|].
  simpl in Hnd. apply NoDup_cons_iff in Hnd. destruct Hnd as [Hnotin Hnd].
  simpl. destruct Hin as [->|Hin].
  - now rewrite strict_eq_refl.
  - destruct (strict_eq (Product.id x) (Product.id p)) eqn:E; [|now apply IH].
    apply strict_eq_true in E. exfalso. apply Hnotin. rewrite E. now apply in_map.
Qed.

Lemma render_of_selected (w : World) (p : Product.t) :
  NoDup (map Product.id (productTable (store w))) ->
  In p (productTable (store w)) ->
  Product.id p <> [] ->
  selectedProductId (ui w) = Some (Product.id p) ->
  selectedProduct (render w) = Some p
  /\ components (render w)
     = filter (ownedComponent (Product.id p)) (componentTable (store w))
  /\ photos (render w) = filter (ownedPhoto (Product.id p)) (photoTable (store w)).
Proof.
  intros Hnd Hin Hne Hsel. unfold render. simpl.
  rewrite Hsel, (or_empty_some _ Hne). repeat split. now apply find_by_id.
Qed.

(** X13.  Clicking a product of the list selects it: the next render shows that
    product with all the component tests and photos the store holds for
    it, and its statistics are the real ones.  (Product ids are unique and
    not empty.) *)
Theorem selecting_shows_the_product (w : World) (p : Product.t) :
  NoDup (map Product.id (productTable (store w))) ->
  In p (productTable (store w)) ->
  Product.id p <> [] ->
  let w' := snd (setSelectedProductId (Some (Product.id p)) w) in
  selectedProduct (render w') = Some p
  /\ components (render w')
     = filter (ownedComponent (Product.id p)) (componentTable (store w))
  /\ photos (render w') = filter (ownedPhoto (Product.id p)) (photoTable (store w))
  /\ getStatusStats (render w') (Product.id p) = tableStats (store w) (Product.id p).
Proof.
  intros Hnd Hin Hne w'.
  assert (Hsel : selectedProductId (ui w') = Some (Product.id p)) by reflexivity.
  destruct (render_of_selected w' p Hnd Hin Hne Hsel) as (H1 & H2 & H3).
  repeat split; try assumption.
  exact (getStatusStats_selected w' (Product.id p) Hne Hsel).
Qed.

(** X14.  A search whose query rejects changes neither the UI state nor the
    store: the selection stays, the modal stays open with the text in it,
    and the only trace is the error on the console; no alert is shown. *)
Theorem failed_search_changes_nothing (env : Env) (w : World) :
  inventorySearchId (ui w) <> [] ->
  request_fails env (requests w) = true ->
  let w' := fire (handleSearchByInventoryId env) w in
  ui w' = ui w
  /\ store w' = store w
  /\ exists e,
       effects w' = effects w ++ [ConsoleError (lit "Failed to search product:") e].
Proof.
  intros Hne Hf w'. subst w'. unfold fire, handleSearchByInventoryId.
  change (r_inventorySearchId (render w)) with (inventorySearchId (ui w)).
  apply truthy_nonempty in Hne. rewrite Hne. change (negb true) with false. cbv iota.
  unfold try_catch, bind, queryProducts. cbv beta. rewrite request_run, Hf.
  simpl. repeat split. eexists. reflexivity.
Qed.

(** X15.  After a search that finds something, the product on screen is the
    first match, it has the inventory id that was typed, and it is shown
    with its own component tests.  (Product ids are unique and not
    empty.) *)
Theorem search_shows_a_matching_product
        (env : Env) (w : World) (first : Product.t) (rest : list Product.t) :
  NoDup (map Product.id (productTable (store w))) ->
  Forall (fun p => Product.id p <> []) (productTable (store w)) ->
  inventorySearchId (ui w) <> [] ->
  request_fails env (requests w) = false ->
  filter (fun p => strict_eq (Product.inventoryId p) (inventorySearchId (ui w)))
         (productTable (store w)) = first :: rest ->
  let w' := fire (handleSearchByInventoryId env) w in
  selectedProduct (render w') = Some first
  /\ Product.inventoryId first = inventorySearchId (ui w)
  /\ components (render w')
     = filter (ownedComponent (Product.id first)) (componentTable (store w)).
Proof.
  intros Hnd Hids Hne Hok Hres w'.
  assert (Hin : In first (first :: rest)) by now left.
  rewrite <- Hres in Hin. apply filter_In in Hin.
  destruct Hin as [Hin Hinv]. apply strict_eq_true in Hinv.
  assert (Hfid : Product.id first <> []).
  { rewrite Forall_forall in Hids. now apply Hids. }
  assert (Hw' : store w' = store w
                /\ selectedProductId (ui w') = Some (Product.id first)).
  { subst w'. unfold fire, handleSearchByInventoryId.
    change (r_inventorySearchId (render w)) with (inventorySearchId (ui w)).
    apply truthy_nonempty in Hne. rewrite Hne. change (negb true) with false. cbv iota.
    unfold try_catch, bind, queryProducts. cbv beta. rewrite request_run, Hok.
    simpl fst. simpl snd. rewrite Hres. simpl. auto. }
  destruct Hw' as [Hs Hsel].
  assert (Hnd' : NoDup (map Product.id (productTable (store w')))) by now rewrite Hs.
  assert (Hin' : In first (productTable (store w'))) by now rewrite Hs.
  destruct (render_of_selected w' first Hnd' Hin' Hfid Hsel) as (H1 & H2 & _).
  rewrite Hs in H2. auto.
Qed.

(* ------------------------------------------------------------------ *)
(** ** More on the export actions *)

(** X16.  [captureScreenshot] reads the panel and writes to the console, nothing
    else: the UI state, the store, the request count and the panel are as
    before; nothing is logged when it returns an image or when the panel is
    missing, and one console error is logged when the capture failed. *)
Theorem captureScreenshot_touches_only_the_console (env : Env) (w : World) :
  let w' := snd (captureScreenshot env w) in
  ui w' = ui w /\ store w' = store w /\ requests w' = requests w
  /\ testPanelRef w' = testPanelRef w
  /\ (forall dataURL, fst (captureScreenshot env w) = Resolved (Some dataURL) ->
                      effects w' = effects w)
  /\ (testPanelRef w = None -> effects w' = effects w)
  /\ (testPanelRef w <> None -> fst (captureScreenshot env w) = Resolved None ->
      exists e,
        effects w' = effects w ++ [ConsoleError (lit "Screenshot capture failed:") e]).
Proof.
  unfold captureScreenshot, bind, gets, try_catch, await, ret, console_error, tell.
  destruct w as [u s ref n l]. simpl.
  destruct ref as [target|]; simpl.
  - destruct (html2canvas env target) as [canvas|e]; simpl.
    + destruct (toDataURL env canvas) as [url|e]; simpl.
      * repeat split; try reflexivity; intros; discriminate.
      * repeat split; try reflexivity; try (intros; discriminate).
        intros _ _. eexists. reflexivity.
    + repeat split; try reflexivity; try (intros; discriminate).
      intros _ _. eexists. reflexivity.
  - repeat split; try reflexivity; try (intros; discriminate).
    intros H. now contradiction H.
Qed.

Lemma captureScreenshot_uniform_log (env : Env) (ref : option Element) :
  exists (shot : option jsstring) (log : list Effect),
    (saves log = [] /\ alerts log = [] /\ navigations log = [])
    /\ forall w, testPanelRef w = ref ->
         captureScreenshot env w
         = (Resolved shot,
            mkWorld (ui w) (store w) (testPanelRef w) (requests w) (effects w ++ log)).
Proof.
  unfold captureScreenshot, bind, gets, try_catch, await, ret, console_error, tell.
  destruct ref as [target|].
  - destruct (html2canvas env target) as [canvas|e] eqn:E1.
    + destruct (toDataURL env canvas) as [url|e] eqn:E2.
      * exists (Some url), []. split; [auto|].
        intros [u s ref' n l] H. simpl in *. subst ref'. simpl.
        rewrite E1. simpl. rewrite E2. simpl. now rewrite app_nil_r.
      * exists None, [ConsoleError (lit "Screenshot capture failed:") e].
        split; [auto|].
        intros [u s ref' n l] H. simpl in *. subst ref'. simpl.
        rewrite E1. simpl. rewrite E2. simpl. reflexivity.
    + exists None, [ConsoleError (lit "Screenshot capture failed:") e].
      split; [auto|].
      intros [u s ref' n l] H. simpl in *. subst ref'. simpl.
      rewrite E1. simpl. reflexivity.
  - exists None, []. split; [auto|].
    intros [u s ref' n l] H. simpl in *. subst ref'. simpl.
    now rewrite app_nil_r.
Qed.

(** Run an export handler on an explicit world to its final world. *)
Ltac run_export Hrun :=
  repeat (run_handlers;
          first [ rewrite Hrun by reflexivity
                | match goal with H : _ = _ |- _ => rewrite H end ]);
  run_handlers.

(** Read the saves, alerts and navigations off the log of the final world;
    [Hq] says that the capture logged none. *)
Ltac read_log Hq :=
  unfold appended; cbv beta iota delta [effects ui store isGeneratingDoc
    showExportModal emailAddress selectedProductId];
  rewrite <- ?app_assoc; rewrite ?skipn_app_exact;
  unfold saves, alerts, navigations; rewrite ?flat_map_app;
  destruct Hq as (Hq1 & Hq2 & Hq3);
  unfold saves, alerts, navigations in Hq1, Hq2, Hq3;
  rewrite ?Hq1, ?Hq2, ?Hq3; simpl.

(** X17.  The download export offers a file exactly when the builder and the
    packer both succeed: then one file is saved, it is the packed document
    of this run under the download name, and no alert is shown; when
    either fails nothing is saved and the user gets the one alert.  Either
    way the generating flag is off at the end, and the store and the
    selection are untouched. *)
Theorem download_saves_or_alerts (env : Env) (w : World) (product : Product.t) :
  selectedProduct (render w) = Some product ->
  let w' := fire (handleDownloadWordReport env) w in
  let log := appended w w' in
  exists shot : option jsstring,
    fst (captureScreenshot env w) = Resolved shot
    /\ match generateWordDocument env product (components (render w))
                                  (photos (render w)) shot with
       | Resolved doc =>
           match Packer_toBlob env doc with
           | Resolved blob =>
               saves log
               = [(blob, downloadFilename (Product.name product) (Date_now env))]
               /\ alerts log = []
           | Rejected _ =>
               saves log = []
               /\ alerts log = [lit "Failed to generate document. Please try again."]
           end
       | Rejected _ =>
           saves log = []
           /\ alerts log = [lit "Failed to generate document. Please try again."]
       end
    /\ isGeneratingDoc (ui w') = false
    /\ store w' = store w
    /\ selectedProductId (ui w') = selectedProductId (ui w).
Proof.
  intros Hp w' log. subst log w'. unfold fire.
  destruct (captureScreenshot_uniform_log env (testPanelRef w))
    as (shot & clog & Hq & Hrun).
  exists shot. split; [now rewrite (Hrun w eq_refl)|].
  generalize dependent (render w). intros r Hp.
  destruct w as [u s ref n l]. simpl in Hrun.
  destruct (generateWordDocument env product (components r) (photos r) shot)
    as [doc|e1] eqn:E3;
    [destruct (Packer_toBlob env doc) as [blob|e2] eqn:E4|];
    run_export Hrun; read_log Hq; auto.
Qed.

(** X18.  The email export saves the file first and opens the mail composer
    after.  When builder and packer succeed, one file is saved under the
    email name.  When the subject and the body can then be encoded, the
    window goes to the [mailto:] address of the recipient, the modal is
    closed, the address field is cleared and no alert is shown.  When the
    encoding throws, the file has been saved all the same, but no composer
    opens, the alert is shown and the modal stays as it is with the
    address in it.  When builder or packer fail, nothing is saved, no
    composer opens and the alert is shown. *)
Theorem email_saves_then_composes (env : Env) (w : World) (product : Product.t) :
  exportGuard Email (render w) = Some product ->
  let w' := fire (handleEmailReport env) w in
  let log := appended w w' in
  let failed :=
    navigations log = []
    /\ alerts log = [lit "Failed to prepare email. Please try again."]
    /\ showExportModal (ui w') = showExportModal (ui w)
    /\ emailAddress (ui w') = emailAddress (ui w) in
  exists shot : option jsstring,
    fst (captureScreenshot env w) = Resolved shot
    /\ match generateWordDocument env product (components (render w))
                                  (photos (render w)) shot with
       | Resolved doc =>
           match Packer_toBlob env doc with
           | Resolved blob =>
               saves log = [(blob, emailFilename (Product.name product))]
               /\ match encodeURIComponent env (emailSubject product) with
                  | Resolved subject =>
                      match encodeURIComponent env (emailBody env product) with
                      | Resolved body =>
                          navigations log
                          = [lit "mailto:" ++ emailAddress (ui w) ++ lit "?subject="
                               ++ subject ++ lit "&body=" ++ body]
                          /\ alerts log = []
                          /\ showExportModal (ui w') = false
                          /\ emailAddress (ui w') = []
                      | Rejected _ => failed
                      end
                  | Rejected _ => failed
                  end
           | Rejected _ => saves log = [] /\ failed
           end
       | Rejected _ => saves log = [] /\ failed
       end
    /\ isGeneratingDoc (ui w') = false
    /\ store w' = store w
    /\ selectedProductId (ui w') = selectedProductId (ui w).
Proof.
  intros Hg w' log failed. subst failed log w'. unfold fire.
  unfold exportGuard in Hg.
  destruct (selectedProduct (render w)) as [p|] eqn:Hp; [|discriminate].
  destruct (truthy (r_emailAddress (render w))) eqn:Ht; [|discriminate].
  injection Hg as ->.
  destruct (captureScreenshot_uniform_log env (testPanelRef w))
    as (shot & clog & Hq & Hrun).
  exists shot. split; [now rewrite (Hrun w eq_refl)|].
  assert (He : r_emailAddress (render w) = emailAddress (ui w)) by reflexivity.
  generalize dependent (render w). intros r Hp Ht He.
  destruct w as [u s ref n l]. simpl in Hrun, He. rewrite He in Ht.
  destruct (generateWordDocument env product (components r) (photos r) shot)
    as [doc|e1] eqn:E3;
    [destruct (Packer_toBlob env doc) as [blob|e2] eqn:E4;
     [destruct (encodeURIComponent env (emailSubject product))
        as [subject|e3] eqn:E5;
      [destruct (encodeURIComponent env (emailBody env product))
         as [body|e4] eqn:E6|]|]|];
    run_export Hrun; read_log Hq; auto 10.
Qed.

(** What an export saves is the packed document that the builder returned
    in this run. *)
Lemma export_saves_built_document
      (env : Env) (pur : purpose) (w : World) (product : Product.t) :
  exportGuard pur (render w) = Some product ->
  exists shot : option jsstring,
    fst (captureScreenshot env w) = Resolved shot
    /\ saves (appended w (fire (exportHandler env pur) w))
       = match generateWordDocument env product (components (render w))
                                    (photos (render w)) shot with
         | Resolved doc =>
             match Packer_toBlob env doc with
             | Resolved blob =>
                 [(blob, suggestedFilename (Product.name product) pur (Date_now env))]
             | Rejected _ => []
             end
         | Rejected _ => []
         end.
Proof.
  intros Hg. unfold exportGuard in Hg. unfold fire.
  destruct (selectedProduct (render w)) as [p|] eqn:Hp; [|discriminate].
  destruct (captureScreenshot_uniform_log env (testPanelRef w))
    as (shot & clog & Hq & Hrun).
  exists shot. split; [now rewrite (Hrun w eq_refl)|].
  destruct pur.
  - injection Hg as ->.
    generalize dependent (render w). intros r Hp.
    destruct w as [u s ref n l]. simpl in Hrun.
    destruct (generateWordDocument env product (components r) (photos r) shot)
      as [doc|e1] eqn:E3;
      [destruct (Packer_toBlob env doc) as [blob|e2] eqn:E4|];
      run_export Hrun; read_log Hq; reflexivity.
  - destruct (truthy (r_emailAddress (render w))) eqn:Ht; [|discriminate].
    injection Hg as ->.
    generalize dependent (render w). intros r Hp Ht.
    destruct w as [u s ref n l]. simpl in Hrun.
    destruct (generateWordDocument env product (components r) (photos r) shot)
      as [doc|e1] eqn:E3;
      [destruct (Packer_toBlob env doc) as [blob|e2] eqn:E4;
       [destruct (encodeURIComponent env (emailSubject product))
          as [subject|e3] eqn:E5;
        [destruct (encodeURIComponent env (emailBody env product))
           as [body|e4] eqn:E6|]|]|];
      run_export Hrun; read_log Hq; reflexivity.
Qed.

(** C2.  For every product name and every clock reading (milliseconds since
    the epoch, so not negative), the download path's file name is the name
    with each maximal run of whitespace replaced by one underscore, then
    [_test_report_], then the timestamp token, then [.docx].  The token is
    the clock reading written in decimal: a non-empty string of decimal
    digits whose value is the reading, so that the names of one product at
    two different readings differ.  A run of [handleDownloadWordReport] on
    a selected product of that name, with [Date.now()] giving that reading,
    saves the packed document under this name.  For the name [Widget  Pro]
    the file name is [Widget_Pro_test_report_<timestamp>.docx]. *)
Theorem download_filename_spec (name : jsstring) (now : Z) :
  (0 <= now)%Z ->
  downloadFilename name now
  = collapse_runs is_whitespace (lit "_") name
      ++ lit "_test_report_" ++ Number_toString now ++ lit ".docx"
  /\ Number_toString now <> []
  /\ Forall (fun c => is_digit c = true) (Number_toString now)
  /\ decimal_value (Number_toString now) = now
  /\ (forall now' : Z,
        now' <> now -> downloadFilename name now' <> downloadFilename name now)
  /\ (forall (env : Env) (w : World) (product : Product.t)
             (shot : option jsstring) (doc : ReportBuilder.Document) (blob : Blob),
        Date_now env = now ->
        selectedProduct (render w) = Some product ->
        Product.name product = name ->
        fst (captureScreenshot env w) = Resolved shot ->
        generateWordDocument env product (components (render w))
                             (photos (render w)) shot = Resolved doc ->
        Packer_toBlob env doc = Resolved blob ->
        saves (appended w (fire (handleDownloadWordReport env) w))
        = [(blob, downloadFilename name now)])
  /\ downloadFilename (lit "Widget  Pro") now
     = lit "Widget_Pro_test_report_" ++ Number_toString now ++ lit ".docx".
Proof.
  intros Hnow.
  destruct (Number_toString_digits now Hnow) as [Hne Hdig].
  split; [unfold downloadFilename; now rewrite replace_runs_collapse|].
  split; [assumption|]. split; [assumption|].
  split; [now apply Number_toString_value|].
  split; [intros now' Hneq; exact (download_collision_safe name now' now Hneq)|].
  split.
  - intros env w product shot doc blob Hclock Hsel Hname Hcap Hgen Hpack.
    destruct (export_saves_built_document env Download w product)
      as (shot' & Hs & Hsv).
    { unfold exportGuard. now rewrite Hsel. }
    rewrite Hcap in Hs. injection Hs as <-.
    rewrite Hgen, Hpack, Hname, Hclock in Hsv. exact Hsv.
  - unfold downloadFilename. vm_compute. reflexivity.
Qed.

Lemma download_filename_spec_witness :
  (0 <= 1700000000000)%Z
  /\ downloadFilename (lit "Widget  Pro") 1700000000000
     = lit "Widget_Pro_test_report_1700000000000.docx"
  /\ decimal_value (Number_toString 1700000000000) = 1700000000000%Z
  /\ downloadFilename (lit "Widget  Pro") 1700000000001
     <> downloadFilename (lit "Widget  Pro") 1700000000000
  /\ saves (appended Sample.world
                     (fire (handleDownloadWordReport Sample.env) Sample.world))
     = [(mkBlob [], lit "Widget_Pro_test_report_1700000000000.docx")].
Proof.
  split; [lia|].
  destruct (download_filename_spec (lit "Widget  Pro") 1700000000000 ltac:(lia))
    as (_ & _ & _ & Hval & Hdiff & Hrun & H).
  split; [rewrite H; reflexivity|]. split; [exact Hval|].
  split; [apply Hdiff; discriminate|].
  rewrite (Hrun Sample.env Sample.world Sample.widget _ _ _
                eq_refl eq_refl eq_refl eq_refl eq_refl eq_refl).
  rewrite H. reflexivity.
Defined.



(** X19.  With no product selected, or for the email export with no address
    entered, an export handler returns at once: the world is exactly as it
    was, nothing is captured, built, saved or logged. *)
Theorem export_without_guard_does_nothing (env : Env) (pur : purpose) (w : World) :
  exportGuard pur (render w) = None ->
  fire (exportHandler env pur) w = w.
Proof.
  intros H. unfold exportGuard in H.
  destruct pur; unfold fire, exportHandler, handleDownloadWordReport, handleEmailReport;
    destruct (selectedProduct (render w)) as [p|]; try discriminate; try reflexivity.
  destruct (truthy (r_emailAddress (render w))); [discriminate | reflexivity].
Qed.

(* ------------------------------------------------------------------ *)
(** ** The add-product form *)

Lemma filter_from_keeps_all {A} (index : nat) (l : list A) : forall i,
  index < i -> filter_from (fun _ j => negb (j =? index)) i l = l.
Proof.
  induction l as [|x l IH]; intros i Hi; simpl; [reflexivity|].
  replace (i =? index) with false by (symmetry; apply Nat.eqb_neq; lia).
  simpl. rewrite IH by lia. reflexivity.
Qed.

Lemma filter_from_removes {A} (l : list A) : forall i k,
  filter_from (fun _ j => negb (j =? i + k)) i l = firstn k l ++ skipn (S k) l.
Proof.
  induction l as [|x l IH]; intros i k; simpl.
  - now rewrite firstn_nil.
  - destruct k as [|k].
    + rewrite Nat.add_0_r, Nat.eqb_refl. simpl.
      apply filter_from_keeps_all. lia.
    + replace (i =? i + S k) with false by (symmetry; apply Nat.eqb_neq; lia).
      simpl. f_equal. replace (i + S k) with (S i + k) by lia. apply IH.
Qed.

Lemma Array_filter_removes {A} (index : nat) (l : list A) :
  Array_filter (fun _ i => negb (i =? index)) l
  = firstn index l ++ skipn (S index) l.
Proof. unfold Array_filter. apply (filter_from_removes l 0 index). Qed.

Lemma remove_out_of_range {A} (index : nat) (l : list A) :
  length l <= index -> firstn index l ++ skipn (S index) l = l.
Proof.
  intros H. rewrite firstn_all2 by assumption. rewrite skipn_all2 by lia.
  apply app_nil_r.
Qed.

Lemma remove_in_range {A} (index : nat) (l : list A) :
  index < length l -> S (length (firstn index l ++ skipn (S index) l)) = length l.
Proof.
  intros H. rewrite length_app, length_firstn, length_skipn. lia.
Qed.

Lemma remove_last {A} (l : list A) (x : A) :
  firstn (length l) (l ++ [x]) ++ skipn (S (length l)) (l ++ [x]) = l.
Proof.
  rewrite firstn_app, Nat.sub_diag, firstn_all, firstn_O, app_nil_r.
  rewrite skipn_app, skipn_all2 by lia.
  replace (S (length l) - length l) with 1 by lia.
  simpl. apply app_nil_r.
Qed.

(** X20.  Removing the photo at an index of the draft takes out that one photo
    and keeps the others in their order; an index past the end removes
    nothing.  The rest of the form is untouched. *)
Theorem handleRemovePhoto_removes_one (index : nat) (f : Form) :
  let before := NewProduct.photos (newProduct f) in
  let f' := handleRemovePhoto index f in
  NewProduct.photos (newProduct f') = firstn index before ++ skipn (S index) before
  /\ (index < length before ->
      S (length (NewProduct.photos (newProduct f'))) = length before)
  /\ (length before <= index -> f' = f)
  /\ NewProduct.components (newProduct f') = NewProduct.components (newProduct f)
  /\ NewProduct.name (newProduct f') = NewProduct.name (newProduct f)
  /\ NewProduct.inventoryId (newProduct f') = NewProduct.inventoryId (newProduct f)
  /\ newComponent f' = newComponent f
  /\ showAddProduct f' = showAddProduct f.
Proof.
  intros before f'. subst before f'. unfold handleRemovePhoto, updateNewProduct.
  simpl. rewrite Array_filter_removes. repeat split.
  - apply remove_in_range.
  - intros H. rewrite remove_out_of_range by assumption.
    destruct f as [sh [i n d pr ph cs] nc]. reflexivity.
Qed.

(** X21.  Adding a component to the draft appends the typed name at the end and
    clears the input; with an empty input nothing happens.  Removing the
    component at the last index afterwards gives the list of components
    back as it was, and removing at any index takes out that one
    component. *)
Theorem draft_component_add_then_remove (f : Form) :
  (newComponent f = [] -> handleAddComponent f f = f)
  /\ (newComponent f <> [] ->
      let f1 := handleAddComponent f f in
      NewProduct.components (newProduct f1)
      = NewProduct.components (newProduct f) ++ [newComponent f]
      /\ newComponent f1 = []
      /\ NewProduct.photos (newProduct f1) = NewProduct.photos (newProduct f)
      /\ NewProduct.components
           (newProduct
              (removeComponent f1 (length (NewProduct.components (newProduct f))) f1))
         = NewProduct.components (newProduct f))
  /\ (forall index,
        NewProduct.components (newProduct (removeComponent f index f))
        = firstn index (NewProduct.components (newProduct f))
            ++ skipn (S index) (NewProduct.components (newProduct f))).
Proof.
  unfold handleAddComponent. split; [|split].
  - intros E. rewrite E. reflexivity.
  - intros Hne. apply truthy_nonempty in Hne. rewrite Hne. simpl.
    repeat split.
    rewrite Array_filter_removes. apply remove_last.
  - intros index. simpl. apply Array_filter_removes.
Qed.

Lemma finish_all_photos (done : list reading) : forall f,
  finish_all done f
  = updateNewProduct
      (fun prev =>
         NewProduct.with_photos (NewProduct.photos prev ++ flat_map loaded done) prev)
      f.
Proof.
  unfold finish_all.
  induction done as [|r done IH]; intros f; simpl.
  - unfold updateNewProduct, NewProduct.with_photos. rewrite app_nil_r.
    destruct f as [sh [i n d pr ph cs] nc]. reflexivity.
  - rewrite IH. destruct r as [[url|]|]; simpl; rewrite ?app_nil_r; try reflexivity.
    unfold onload. destruct (truthy url); simpl; [|reflexivity].
    unfold updateNewProduct, NewProduct.with_photos. simpl.
    now rewrite <- app_assoc.
Qed.

(** X22.  However the file readers of an upload finish, every file that loads
    with a non-empty result adds its data URL to the draft, once, after the
    photos that were there; a reader that fails or loads nothing adds
    nothing.  Two orders of finishing give the same photos up to their
    order, and the rest of the form is untouched.  With no file list there
    are no readers. *)
Theorem uploads_all_arrive (readAsDataURL : File -> reading)
        (files : option (list File)) (done : list reading) (f : Form) :
  Permutation done (handlePhotoUpload readAsDataURL files) ->
  let f' := finish_all done f in
  NewProduct.photos (newProduct f')
  = NewProduct.photos (newProduct f) ++ flat_map loaded done
  /\ Permutation (flat_map loaded done)
                 (flat_map loaded (handlePhotoUpload readAsDataURL files))
  /\ length (NewProduct.photos (newProduct f'))
     = length (NewProduct.photos (newProduct f))
       + length (flat_map loaded (handlePhotoUpload readAsDataURL files))
  /\ NewProduct.components (newProduct f') = NewProduct.components (newProduct f)
  /\ NewProduct.name (newProduct f') = NewProduct.name (newProduct f)
  /\ NewProduct.inventoryId (newProduct f') = NewProduct.inventoryId (newProduct f)
  /\ newComponent f' = newComponent f
  /\ showAddProduct f' = showAddProduct f
  /\ (files = None -> f' = f).
Proof.
  intros Hperm f'. subst f'. rewrite finish_all_photos. simpl.
  assert (Hp : Permutation (flat_map loaded done)
                           (flat_map loaded (handlePhotoUpload readAsDataURL files)))
    by now apply Permutation_flat_map.
  repeat split; try assumption.
  - rewrite length_app. f_equal. now apply Permutation_length.
  - intros ->. simpl in Hperm. apply Permutation_sym, Permutation_nil in Hperm. subst done.
    simpl. unfold updateNewProduct, NewProduct.with_photos. rewrite app_nil_r.
    destruct f as [sh [i n d pr ph cs] nc]. reflexivity.
Qed.

(* ------------------------------------------------------------------ *)
(** ** Submitting the form *)

(** The [try] block resets the form exactly when its world part runs to
    the end. *)
Lemma addProductBody_split (env : Env) (ids : nat -> jsstring) (r : Form) (s : App) :
  addProductBody env ids r s
  = match addProductWorld env ids r (world s) with
    | (Resolved u, w') =>
        (Resolved u,
         mkApp w' (setShowAddProduct false (setNewProduct NewProduct.empty (form s))))
    | (Rejected e, w') => (Rejected e, mkApp w' (form s))
    end.
Proof.
  unfold addProductBody, addProductWorld, bindA, liftW, modify_form, bind.
  destruct (createProduct env ids _ _ _ _ (world s)) as [[p|e] w1]; simpl;
    [|reflexivity].
  destruct (for_of (NewProduct.components (newProduct r)) _ w1) as [[[]|e] w2]; simpl;
    [|reflexivity].
  destruct (for_of (NewProduct.photos (newProduct r)) _ w2) as [[[]|e] w3]; simpl;
    reflexivity.
Qed.

Lemma createProduct_run (env : Env) (ids : nat -> jsstring)
      (i n d : jsstring) (pr : float) (w : World) :
  createProduct env ids i n d pr w
  = if request_fails env (requests w)
    then (Rejected (Error (lit "request failed")),
          mkWorld (ui w) (store w) (testPanelRef w) (S (requests w)) (effects w))
    else (Resolved (Product.mk (ids (requests w)) i n d pr (Date_now env)),
          mkWorld (ui w)
                  (mkStore (productTable (store w)
                              ++ [Product.mk (ids (requests w)) i n d pr (Date_now env)])
                           (componentTable (store w)) (photoTable (store w)))
                  (testPanelRef w) (S (requests w)) (effects w)).
Proof.
  unfold createProduct, bind, gets. rewrite request_run.
  destruct (request_fails env (requests w)); reflexivity.
Qed.

Lemma createComponent_run (env : Env) (ids : nat -> jsstring)
      (pid name st notes : jsstring) (w : World) :
  createComponent env ids pid name st notes w
  = if request_fails env (requests w)
    then (Rejected (Error (lit "request failed")),
          mkWorld (ui w) (store w) (testPanelRef w) (S (requests w)) (effects w))
    else (Resolved (ComponentTest.mk (ids (requests w)) pid name st notes None),
          mkWorld (ui w)
                  (mkStore (productTable (store w))
                           (componentTable (store w)
                              ++ [ComponentTest.mk (ids (requests w)) pid name st notes
                                                   None])
                           (photoTable (store w)))
                  (testPanelRef w) (S (requests w)) (effects w)).
Proof.
  unfold createComponent, bind, gets. rewrite request_run.
  destruct (request_fails env (requests w)); reflexivity.
Qed.

Lemma createPhoto_run (env : Env) (ids : nat -> jsstring)
      (pid url : jsstring) (w : World) :
  createPhoto env ids pid url w
  = if request_fails env (requests w)
    then (Rejected (Error (lit "request failed")),
          mkWorld (ui w) (store w) (testPanelRef w) (S (requests w)) (effects w))
    else (Resolved (ProductPhoto.mk (ids (requests w)) pid url),
          mkWorld (ui w)
                  (mkStore (productTable (store w)) (componentTable (store w))
                           (photoTable (store w)
                              ++ [ProductPhoto.mk (ids (requests w)) pid url]))
                  (testPanelRef w) (S (requests w)) (effects w)).
Proof.
  unfold createPhoto, bind, gets. rewrite request_run.
  destruct (request_fails env (requests w)); reflexivity.
Qed.

Lemma create_components_ok (env : Env) (ids : nat -> jsstring) (pid : jsstring)
      (names : list jsstring) : forall w,
  (forall n, request_fails env n = false) ->
  for_of names
         (fun comp => createComponent env ids pid comp (lit "untested") [] ;; ret tt) w
  = (Resolved tt,
     mkWorld (ui w)
             (mkStore (productTable (store w))
                      (componentTable (store w)
                         ++ createdComponents ids (requests w) pid names)
                      (photoTable (store w)))
             (testPanelRef w) (length names + requests w) (effects w)).
Proof.
  induction names as [|x names IH]; intros w Hok.
  - simpl. unfold ret, createdComponents. simpl. rewrite app_nil_r.
    destruct w as [u [P C Ph] ref n l]. reflexivity.
  - simpl for_of. unfold bind at 1. unfold bind at 1.
    rewrite createComponent_run, Hok. unfold ret at 1. rewrite IH by assumption.
    simpl. unfold createdComponents. simpl. rewrite <- app_assoc. simpl.
    do 2 f_equal. lia.
Qed.

Lemma create_photos_ok (env : Env) (ids : nat -> jsstring) (pid : jsstring)
      (urls : list jsstring) : forall w,
  (forall n, request_fails env n = false) ->
  for_of urls (fun photoUrl => createPhoto env ids pid photoUrl ;; ret tt) w
  = (Resolved tt,
     mkWorld (ui w)
             (mkStore (productTable (store w)) (componentTable (store w))
                      (photoTable (store w) ++ createdPhotos ids (requests w) pid urls))
             (testPanelRef w) (length urls + requests w) (effects w)).
Proof.
  induction urls as [|x urls IH]; intros w Hok.
  - simpl. unfold ret, createdPhotos. simpl. rewrite app_nil_r.
    destruct w as [u [P C Ph] ref n l]. reflexivity.
  - simpl for_of. unfold bind at 1. unfold bind at 1.
    rewrite createPhoto_run, Hok. unfold ret at 1. rewrite IH by assumption.
    simpl. unfold createdPhotos. simpl. rewrite <- app_assoc. simpl.
    do 2 f_equal. lia.
Qed.

(** X23.  Submitting the form without a name or without an inventory id does
    nothing: no request is made and the form stays as it is. *)
Theorem add_with_missing_field_does_nothing
        (env : Env) (ids : nat -> jsstring) (s : App) :
  NewProduct.name (newProduct (form s)) = []
  \/ NewProduct.inventoryId (newProduct (form s)) = [] ->
  fireA (handleAddProduct env ids) s = s.
Proof.
  intros H. unfold fireA, handleAddProduct.
  destruct H as [-> | ->]; simpl; rewrite ?orb_true_r; reflexivity.
Qed.

Lemma handleAddProduct_ok (env : Env) (ids : nat -> jsstring) (s : App) :
  NewProduct.name (newProduct (form s)) <> [] ->
  NewProduct.inventoryId (newProduct (form s)) <> [] ->
  (forall n, request_fails env n = false) ->
  let d := newProduct (form s) in
  let n := requests (world s) in
  let product := createdProduct env ids n d in
  let s' := fireA (handleAddProduct env ids) s in
  productTable (store (world s')) = productTable (store (world s)) ++ [product]
  /\ componentTable (store (world s'))
     = componentTable (store (world s))
         ++ createdComponents ids (S n) (Product.id product) (NewProduct.components d)
  /\ photoTable (store (world s'))
     = photoTable (store (world s))
         ++ createdPhotos ids (S n + length (NewProduct.components d))
                          (Product.id product) (NewProduct.photos d)
  /\ form s' = mkForm false NewProduct.empty (newComponent (form s))
  /\ selectedProductId (ui (world s')) = Some (Product.id product)
  /\ effects (world s') = effects (world s).
Proof.
  intros Hn Hi Hok d n product s'. subst s'.
  unfold fireA, handleAddProduct.
  apply truthy_nonempty in Hn. apply truthy_nonempty in Hi. rewrite Hn, Hi.
  change (negb true || negb true) with false. cbv iota.
  unfold try_catchA. rewrite addProductBody_split.
  unfold addProductWorld.
  erewrite bind_run by (rewrite createProduct_run, Hok; reflexivity).
  erewrite bind_run by (apply create_components_ok; assumption).
  erewrite bind_run by (apply create_photos_ok; assumption).
  subst product d n. simpl. repeat split. do 2 f_equal. lia.
Qed.

(** X24.  When no request rejects, submitting a valid draft creates exactly the
    draft: one product with the fields of the form, after it one component
    test per declared component, in the order declared, each untested, with
    empty notes, never tested and owned by the new product, and one photo
    per uploaded image in upload order.  Nothing else in the store changes.
    Then the draft is emptied, the modal closed and the new product
    selected; nothing is logged. *)
Theorem add_creates_the_draft (env : Env) (ids : nat -> jsstring) (s : App) :
  NewProduct.name (newProduct (form s)) <> [] ->
  NewProduct.inventoryId (newProduct (form s)) <> [] ->
  (forall n, request_fails env n = false) ->
  let d := newProduct (form s) in
  let n := requests (world s) in
  let product := createdProduct env ids n d in
  let s' := fireA (handleAddProduct env ids) s in
  productTable (store (world s')) = productTable (store (world s)) ++ [product]
  /\ componentTable (store (world s'))
     = componentTable (store (world s))
         ++ createdComponents ids (S n) (Product.id product) (NewProduct.components d)
  /\ photoTable (store (world s'))
     = photoTable (store (world s))
         ++ createdPhotos ids (S n + length (NewProduct.components d))
                          (Product.id product) (NewProduct.photos d)
  /\ form s' = mkForm false NewProduct.empty (newComponent (form s))
  /\ selectedProductId (ui (world s')) = Some (Product.id product)
  /\ effects (world s') = effects (world s).
Proof.
  intros Hn Hi Hok d n product s'. subst s'.
  unfold fireA, handleAddProduct.
  apply truthy_nonempty in Hn. apply truthy_nonempty in Hi. rewrite Hn, Hi.
  change (negb true || negb true) with false. cbv iota.
  unfold try_catchA. rewrite addProductBody_split.
  unfold addProductWorld.
  erewrite bind_run by (rewrite createProduct_run, Hok; reflexivity).
  erewrite bind_run by (apply create_components_ok; assumption).
  erewrite bind_run by (apply create_photos_ok; assumption).
  subst product d n. simpl. repeat split. do 2 f_equal. lia.
Qed.

Lemma NoDup_snoc {A} (l : list A) (x : A) :
  NoDup l -> ~ In x l -> NoDup (l ++ [x]).
Proof.
  intros Hl Hx. apply NoDup_app. repeat split; try assumption.
  - repeat constructor. intros [].
  - intros a Ha [<-|[]]. contradiction.
Qed.

Lemma notin_snoc {A} (l : list A) (x y : A) :
  ~ In y l -> y <> x -> ~ In y (l ++ [x]).
Proof.
  intros Hl Hx Hin. apply in_app_or in Hin. destruct Hin as [H|[H|[]]]; auto.
Qed.

Lemma createdComponents_names (ids : nat -> jsstring) (pid : jsstring)
      (names : list jsstring) : forall n,
  map ComponentTest.name (createdComponents ids n pid names) = names.
Proof.
  unfold createdComponents.
  induction names as [|x names IH]; intros n; simpl; [reflexivity|].
  now rewrite IH.
Qed.

Lemma createdPhotos_urls (ids : nat -> jsstring) (pid : jsstring)
      (urls : list jsstring) : forall n,
  map ProductPhoto.url (createdPhotos ids n pid urls) = urls.
Proof.
  unfold createdPhotos.
  induction urls as [|x urls IH]; intros n; simpl; [reflexivity|].
  now rewrite IH.
Qed.

Lemma createdComponents_all (ids : nat -> jsstring) (pid : jsstring)
      (names : list jsstring) (n : nat) (P : ComponentTest.t -> Prop) :
  (forall k x, P (ComponentTest.mk (ids k) pid x (lit "untested") [] None)) ->
  Forall P (createdComponents ids n pid names).
Proof.
  intros H. unfold createdComponents. apply Forall_forall. intros c Hc.
  apply in_map_iff in Hc. destruct Hc as ([k x] & <- & _). apply H.
Qed.

Lemma filter_all_Forall {A} (f : A -> bool) (l : list A) :
  Forall (fun x => f x = true) l -> filter f l = l.
Proof.
  intros H. apply filter_all. apply forallb_forall. now apply Forall_forall.
Qed.

Lemma filter_none_Forall {A} (f : A -> bool) (l : list A) :
  Forall (fun x => f x = false) l -> filter f l = [].
Proof.
  intros H. apply filter_none. now apply Forall_forall.
Qed.

Lemma not_owned_by_unused (pid : jsstring) (l : list ComponentTest.t) :
  ~ In pid (map ComponentTest.productId l) -> filter (ownedComponent pid) l = [].
Proof.
  intros H. apply filter_none. intros c Hc. unfold ownedComponent.
  apply strict_eq_false. intros E. apply H. rewrite <- E. now apply in_map.
Qed.

Lemma photo_not_owned_by_unused (pid : jsstring) (l : list ProductPhoto.t) :
  ~ In pid (map ProductPhoto.productId l) -> filter (ownedPhoto pid) l = [].
Proof.
  intros H. apply filter_none. intros c Hc. unfold ownedPhoto.
  apply strict_eq_false. intros E. apply H. rewrite <- E. now apply in_map.
Qed.

(** X25.  After a draft was submitted and no request rejected, the screen shows
    the new product: it is the selected product, its component list has
    the declared names in the declared order, its photos are the uploaded
    images in upload order, and its statistics say that all of its
    components are untested.  (The store hands out ids that are not in use,
    and the product ids were unique.) *)
Theorem submitted_product_is_on_screen
        (env : Env) (ids : nat -> jsstring) (s : App) :
  NewProduct.name (newProduct (form s)) <> [] ->
  NewProduct.inventoryId (newProduct (form s)) <> [] ->
  (forall n, request_fails env n = false) ->
  fresh_ids ids (store (world s)) ->
  NoDup (map Product.id (productTable (store (world s)))) ->
  let d := newProduct (form s) in
  let n := requests (world s) in
  let r' := render (world (fireA (handleAddProduct env ids) s)) in
  selectedProduct r' = Some (createdProduct env ids n d)
  /\ map ComponentTest.name (components r') = NewProduct.components d
  /\ map ProductPhoto.url (photos r') = NewProduct.photos d
  /\ getStatusStats r' (ids n)
     = mkStats 0 0 (length (NewProduct.components d)) (length (NewProduct.components d)).
Proof.
  intros Hn Hi Hok Hfresh Hnd d n r'. subst r'.
  set (s' := fireA (handleAddProduct env ids) s).
  destruct (handleAddProduct_ok env ids s Hn Hi Hok)
    as (HP & HC & HPh & _ & Hsel & _).
  fold s' in HP, HC, HPh, Hsel. fold d n in HP, HC, HPh, Hsel.
  simpl Product.id in HC, HPh, Hsel.
  destruct (Hfresh n) as (Hne & HnP & _ & _ & HnC & HnPh).
  assert (Hnd' : NoDup (map Product.id (productTable (store (world s'))))).
  { rewrite HP, map_app. simpl. now apply NoDup_snoc. }
  assert (Hin : In (createdProduct env ids n d) (productTable (store (world s')))).
  { rewrite HP. apply in_or_app. right. now left. }
  destruct (render_of_selected (world s') (createdProduct env ids n d)
                               Hnd' Hin Hne Hsel) as (H1 & H2 & H3).
  simpl Product.id in H2, H3.
  assert (Hown : Forall (fun c => ownedComponent (ids n) c = true)
                        (createdComponents ids (S n) (ids n) (NewProduct.components d))).
  { apply createdComponents_all. intros k x. apply strict_eq_refl. }
  assert (Hcomps : components (render (world s'))
                   = createdComponents ids (S n) (ids n) (NewProduct.components d)).
  { rewrite H2, HC, filter_app, (not_owned_by_unused _ _ HnC). simpl.
    now apply filter_all_Forall. }
  split; [exact H1|]. split; [|split].
  - rewrite Hcomps. apply createdComponents_names.
  - rewrite H3, HPh, filter_app, (photo_not_owned_by_unused _ _ HnPh). simpl.
    rewrite filter_all_Forall.
    + apply createdPhotos_urls.
    + unfold createdPhotos. apply Forall_forall. intros ph Hph.
      apply in_map_iff in Hph. destruct Hph as ([k x] & <- & _). apply strict_eq_refl.
  - unfold getStatusStats. rewrite Hcomps.
    rewrite (filter_all_Forall _ _ Hown).
    rewrite (filter_none_Forall (has_status "working")),
            (filter_none_Forall (has_status "not-working")),
            (filter_all_Forall (has_status "untested"));
      try (apply createdComponents_all; intros k x; reflexivity).
    unfold createdComponents. rewrite length_map, length_combine, length_seq.
    rewrite Nat.min_id. reflexivity.
Qed.

Section FreshIds.
Variable env : Env.
Variable ids : nat -> jsstring.
Hypothesis ids_inj : forall a b, ids a = ids b -> a = b.

(** Unique ids, and the ids still to come are unused. *)
Let ok (w : World) : Prop := unique_ids (store w) /\ ids_unused ids w.
Let R (w w' : World) : Prop := ok w -> ok w'.

Lemma ok_after_failed_request (w : World) :
  ok w -> ok (mkWorld (ui w) (store w) (testPanelRef w) (S (requests w)) (effects w)).
Proof.
  intros [Hu Hf]. split; [exact Hu|]. intros k Hk. simpl in *. apply Hf. lia.
Qed.

Lemma keeps_ok_createProduct (i n d : jsstring) (pr : float) :
  keeps R (createProduct env ids i n d pr).
Proof.
  intros w Hok. rewrite createProduct_run.
  destruct (request_fails env (requests w)); [now apply ok_after_failed_request|].
  destruct Hok as [(HP & HC & HPh) Hf]. simpl. split.
  - repeat split; simpl; try assumption.
    rewrite map_app. simpl. apply NoDup_snoc; [assumption | apply Hf; lia].
  - intros k Hk. simpl in *. destruct (Hf k ltac:(lia)) as (H1 & H2 & H3).
    repeat split; try assumption.
    rewrite map_app. simpl. apply notin_snoc; [assumption|].
    intros E. apply ids_inj in E. lia.
Qed.

Lemma keeps_ok_createComponent (pid name st notes : jsstring) :
  keeps R (createComponent env ids pid name st notes ;; ret tt).
Proof.
  intros w Hok. unfold bind. rewrite createComponent_run.
  destruct (request_fails env (requests w)); [now apply ok_after_failed_request|].
  destruct Hok as [(HP & HC & HPh) Hf]. simpl. split.
  - repeat split; simpl; try assumption.
    rewrite map_app. simpl. apply NoDup_snoc; [assumption | apply Hf; lia].
  - intros k Hk. simpl in *. destruct (Hf k ltac:(lia)) as (H1 & H2 & H3).
    repeat split; try assumption.
    rewrite map_app. simpl. apply notin_snoc; [assumption|].
    intros E. apply ids_inj in E. lia.
Qed.

Lemma keeps_ok_createPhoto (pid url : jsstring) :
  keeps R (createPhoto env ids pid url ;; ret tt).
Proof.
  intros w Hok. unfold bind. rewrite createPhoto_run.
  destruct (request_fails env (requests w)); [now apply ok_after_failed_request|].
  destruct Hok as [(HP & HC & HPh) Hf]. simpl. split.
  - repeat split; simpl; try assumption.
    rewrite map_app. simpl. apply NoDup_snoc; [assumption | apply Hf; lia].
  - intros k Hk. simpl in *. destruct (Hf k ltac:(lia)) as (H1 & H2 & H3).
    repeat split; try assumption.
    rewrite map_app. simpl. apply notin_snoc; [assumption|].
    intros E. apply ids_inj in E. lia.
Qed.

Lemma keeps_ok_addProductWorld (r : Form) : keeps R (addProductWorld env ids r).
Proof.
  assert (Rrefl : forall w, R w w) by (intros w H; exact H).
  assert (Rtrans : forall w1 w2 w3, R w1 w2 -> R w2 w3 -> R w1 w3)
    by (unfold R; auto).
  unfold addProductWorld.
  apply keeps_bind; try assumption; [apply keeps_ok_createProduct|].
  intros p. apply keeps_bind; try assumption.
  { apply keeps_for_of; try assumption. intros x. apply keeps_ok_createComponent. }
  intros _. apply keeps_bind; try assumption.
  { apply keeps_for_of; try assumption. intros x. apply keeps_ok_createPhoto. }
  intros _ w H. exact H.
Qed.

(** X26.  Submitting a draft keeps the ids of the store unique, and keeps the
    ids of the requests to come unused, also when a request rejects
    half-way.  (The store never hands out the same id twice.) *)
Theorem add_keeps_ids_unique (s : App) :
  unique_ids (store (world s)) ->
  ids_unused ids (world s) ->
  unique_ids (store (world (fireA (handleAddProduct env ids) s)))
  /\ ids_unused ids (world (fireA (handleAddProduct env ids) s)).
Proof.
  intros Hu Hf. unfold fireA, handleAddProduct.
  destruct (negb (truthy (NewProduct.name (newProduct (form s))))
            || negb (truthy (NewProduct.inventoryId (newProduct (form s))))).
  - simpl. now split.
  - unfold try_catchA. rewrite addProductBody_split.
    pose proof (keeps_ok_addProductWorld (form s) (world s) (conj Hu Hf)) as H.
    destruct (addProductWorld env ids (form s) (world s)) as [[[]|e] w']; simpl in *.
    + exact H.
    + exact H.
Qed.
End FreshIds.

Lemma keeps_quiet_createComponent (env : Env) (ids : nat -> jsstring)
      (pid name st notes : jsstring) :
  keeps (fun w w' => quiet w w' /\ productTable (store w') = productTable (store w))
        (createComponent env ids pid name st notes ;; ret tt).
Proof.
  intros w. unfold bind. rewrite createComponent_run.
  destruct (request_fails env (requests w)); unfold quiet; simpl; auto.
Qed.

Lemma keeps_quiet_createPhoto (env : Env) (ids : nat -> jsstring)
      (pid url : jsstring) :
  keeps (fun w w' => quiet w w' /\ productTable (store w') = productTable (store w))
        (createPhoto env ids pid url ;; ret tt).
Proof.
  intros w. unfold bind. rewrite createPhoto_run.
  destruct (request_fails env (requests w)); unfold quiet; simpl; auto.
Qed.

(** How the world part of the [try] block of [handleAddProduct] can end. *)
Lemma addProductWorld_cases (env : Env) (ids : nat -> jsstring) (r : Form) (w : World) :
  let p := createdProduct env ids (requests w) (newProduct r) in
  (exists w',
     addProductWorld env ids r w = (Resolved tt, w')
     /\ effects w' = effects w
     /\ productTable (store w') = productTable (store w) ++ [p]
     /\ selectedProductId (ui w') = Some (Product.id p))
  \/ (exists e w',
        addProductWorld env ids r w = (Rejected e, w')
        /\ quiet w w'
        /\ (productTable (store w') = productTable (store w)
            \/ productTable (store w') = productTable (store w) ++ [p])).
Proof.
  intros p.
  set (R := fun w w' : World =>
              quiet w w' /\ productTable (store w') = productTable (store w)).
  assert (Krun : forall A (m : M A) w0 w1 (o : outcome A),
             keeps R m -> m w0 = (o, w1) -> R w0 w1).
  { intros A m w0 w1 o Hk Hm. exact (keeps_run R m w0 w1 o Hk Hm). }
  assert (K1 : forall pid l, keeps R (for_of l (fun comp =>
             createComponent env ids pid comp (lit "untested") [] ;; ret tt))).
  { intros pid l. apply keeps_for_of.
    - exact quiet_products_refl.
    - exact quiet_products_trans.
    - intros x. apply keeps_quiet_createComponent. }
  assert (K2 : forall pid l, keeps R (for_of l (fun photoUrl =>
             createPhoto env ids pid photoUrl ;; ret tt))).
  { intros pid l. apply keeps_for_of.
    - exact quiet_products_refl.
    - exact quiet_products_trans.
    - intros x. apply keeps_quiet_createPhoto. }
  assert (Hcreate : forall o w1,
             createProduct env ids (NewProduct.inventoryId (newProduct r))
                           (NewProduct.name (newProduct r))
                           (NewProduct.description (newProduct r))
                           (NewProduct.price (newProduct r)) w = (o, w1) ->
             quiet w w1
             /\ ((exists e, o = Rejected e)
                    /\ productTable (store w1) = productTable (store w)
                 \/ o = Resolved p
                    /\ productTable (store w1) = productTable (store w) ++ [p])).
  { intros o w1. rewrite createProduct_run.
    destruct (request_fails env (requests w)); intros [= <- <-];
      unfold quiet; simpl; split; auto.
    left. split; [eexists|]; reflexivity. }
  destruct (addProductWorld env ids r w) as [[[]|e] w'] eqn:E.
  - left. exists w'. split; [reflexivity|]. unfold addProductWorld in E.
    apply bind_resolved in E. destruct E as (p0 & w1 & H1 & E).
    destruct (Hcreate _ _ H1) as [Q1 [[[e0 He0] _] | [[= ->] P1]]]; [discriminate|].
    apply bind_resolved in E. destruct E as ([] & w2 & H2 & E).
    destruct (Krun _ _ _ _ _ (K1 (Product.id p) _) H2) as [Q2 P2].
    apply bind_resolved in E. destruct E as ([] & w3 & H3 & E).
    destruct (Krun _ _ _ _ _ (K2 (Product.id p) _) H3) as [Q3 P3].
    unfold setSelectedProductId, modify_ui in E. injection E as <-.
    unfold quiet in *. simpl. repeat split; intuition congruence.
  - right. exists e, w'. split; [reflexivity|]. unfold addProductWorld in E.
    apply bind_rejected in E. destruct E as [E | (p0 & w1 & H1 & E)].
    { destruct (Hcreate _ _ E) as [Q1 [[_ P1] | [[=] _]]]. auto. }
    destruct (Hcreate _ _ H1) as [Q1 [[[e0 He0] _] | [[= ->] P1]]]; [discriminate|].
    apply bind_rejected in E. destruct E as [E | (u2 & w2 & H2 & E)].
    { destruct (Krun _ _ _ _ _ (K1 (Product.id p) _) E) as [Q2 P2].
      unfold quiet in *. split; [intuition congruence | right; congruence]. }
    destruct (Krun _ _ _ _ _ (K1 (Product.id p) _) H2) as [Q2 P2].
    apply bind_rejected in E. destruct E as [E | (u3 & w3 & H3 & E)].
    { destruct (Krun _ _ _ _ _ (K2 (Product.id p) _) E) as [Q3 P3].
      unfold quiet in *. split; [intuition congruence | right; congruence]. }
    discriminate.
Qed.

(** X27.  Submitting a valid draft ends in one of two ways.  Either the product
    record was created, nothing is logged, the draft is emptied, the modal
    closed and the new product selected; or one error goes to the console,
    the draft stays in the form for another try, the modal stays open and
    the selection is as it was.  In the second case there is no rollback:
    the product record may already be in the store. *)
Theorem add_resets_form_or_logs (env : Env) (ids : nat -> jsstring) (s : App) :
  NewProduct.name (newProduct (form s)) <> [] ->
  NewProduct.inventoryId (newProduct (form s)) <> [] ->
  let p := createdProduct env ids (requests (world s)) (newProduct (form s)) in
  let s' := fireA (handleAddProduct env ids) s in
  (form s' = mkForm false NewProduct.empty (newComponent (form s))
   /\ effects (world s') = effects (world s)
   /\ productTable (store (world s')) = productTable (store (world s)) ++ [p]
   /\ selectedProductId (ui (world s')) = Some (Product.id p))
  \/ (exists e,
        form s' = form s
        /\ ui (world s') = ui (world s)
        /\ effects (world s')
           = effects (world s) ++ [ConsoleError (lit "Failed to add product:") e]
        /\ (productTable (store (world s')) = productTable (store (world s))
            \/ productTable (store (world s'))
               = productTable (store (world s)) ++ [p])).
Proof.
  intros Hn Hi p s'. subst s'. unfold fireA, handleAddProduct.
  apply truthy_nonempty in Hn. apply truthy_nonempty in Hi. rewrite Hn, Hi.
  change (negb true || negb true) with false. cbv iota.
  unfold try_catchA. rewrite addProductBody_split.
  destruct (addProductWorld_cases env ids (form s) (world s))
    as [(w' & E & Hlog & HP & Hsel) | (e & w' & E & (Hui & _ & Hlog) & HP)];
    rewrite E; simpl.
  - left. auto.
  - right. exists e. rewrite Hlog, Hui. auto.
Qed.

(* ------------------------------------------------------------------ *)
(** ** The further theorems at work on the samples *)

Lemma sample_ids_unique : unique_ids (store Sample.world).
Proof.
  repeat split; simpl;
    repeat (constructor; [simpl; intuition discriminate|]); constructor.
Defined.

Lemma stats_counts_add_up_witness :
  forallb enum_status
          (filter (ownedComponent (lit "p1")) (components (render Sample.world))) = true
  /\ working (getStatusStats (render Sample.world) (lit "p1"))
     + notWorking (getStatusStats (render Sample.world) (lit "p1"))
     + untested (getStatusStats (render Sample.world) (lit "p1")) = 2.
Proof.
  split; [reflexivity|].
  rewrite (proj2 (proj2 (stats_counts_add_up (render Sample.world) (lit "p1")))
                 eq_refl).
  reflexivity.
Defined.

Lemma stats_of_selected_product_witness :
  lit "p1" <> []
  /\ selectedProductId (ui Sample.world) = Some (lit "p1")
  /\ getStatusStats (render Sample.world) (lit "p1") = mkStats 1 0 1 2.
Proof.
  assert (H : lit "p1" <> []) by discriminate.
  split; [exact H|]. split; [reflexivity|].
  rewrite (stats_of_selected_product Sample.world (lit "p1") H eq_refl).
  reflexivity.
Defined.

Lemma rejected_update_changes_nothing_witness :
  request_fails (SampleForm.env_rejecting 0) (requests Sample.world) = true
  /\ store (snd (handleUpdateComponentStatus (SampleForm.env_rejecting 0)
                   (lit "c2") (lit "working") Sample.world))
     = store Sample.world.
Proof.
  split; [reflexivity|].
  exact (proj1 (proj1 (rejected_update_changes_nothing (SampleForm.env_rejecting 0)
                         (lit "c2") (lit "working") Sample.world eq_refl))).
Defined.

Lemma status_update_moves_the_component_witness :
  In Sample.switch (componentTable (store Sample.world))
  /\ working (getStatusStats
                (render (snd (handleUpdateComponentStatus Sample.env (lit "c2")
                                (lit "working") Sample.world)))
                (lit "p1")) = 2
  /\ untested (getStatusStats
                 (render (snd (handleUpdateComponentStatus Sample.env (lit "c2")
                                 (lit "working") Sample.world)))
                 (lit "p1")) = 0.
Proof.
  assert (Hin : In Sample.switch (componentTable (store Sample.world)))
    by (simpl; auto).
  assert (Hne : lit "p1" <> []) by discriminate.
  split; [exact Hin|].
  destruct (status_update_moves_the_component Sample.env Sample.world Sample.switch
              (lit "working") (lit "p1")
              (proj1 (proj2 sample_ids_unique)) Hin eq_refl Hne eq_refl eq_refl)
    as (Hw & _ & Hu & _).
  change (working (getStatusStats
                     (render (snd (handleUpdateComponentStatus Sample.env (lit "c2")
                                     (lit "working") Sample.world)))
                     (lit "p1")) + 0 = 1 + 1) in Hw.
  change (untested (getStatusStats
                      (render (snd (handleUpdateComponentStatus Sample.env (lit "c2")
                                      (lit "working") Sample.world)))
                      (lit "p1")) + 1 = 1 + 0) in Hu.
  split; lia.
Defined.

Lemma delete_keeps_ids_unique_witness :
  unique_ids (store Sample.world)
  /\ unique_ids
       (store (fire (fun r => handleDeleteProduct (SampleForm.env_rejecting 2) r
                                                  (lit "p1"))
                    Sample.world)).
Proof.
  split; [exact sample_ids_unique|].
  exact (delete_keeps_ids_unique (SampleForm.env_rejecting 2) Sample.world (lit "p1")
                                 sample_ids_unique).
Defined.

Lemma delete_twice_is_delete_once_witness :
  lit "p1" <> []
  /\ deleteProductBody Sample.env (render Sample.world) (lit "p1") Sample.world
     = (Resolved tt, SampleForm.after_delete)
  /\ store (snd (deleteProductBody Sample.env (render SampleForm.after_delete)
                                   (lit "p1") SampleForm.after_delete))
     = store SampleForm.after_delete.
Proof.
  assert (Hne : lit "p1" <> []) by discriminate.
  assert (H1 : deleteProductBody Sample.env (render Sample.world) (lit "p1")
                                 Sample.world
               = (Resolved tt, SampleForm.after_delete)) by reflexivity.
  split; [exact Hne|]. split; [exact H1|].
  exact (delete_twice_is_delete_once Sample.env Sample.env Sample.world
           SampleForm.after_delete
           (snd (deleteProductBody Sample.env (render SampleForm.after_delete)
                                   (lit "p1") SampleForm.after_delete))
           (lit "p1") sample_ids_unique Hne H1 eq_refl).
Defined.

Lemma failed_photo_query_leaves_components_detached_witness :
  request_fails (SampleForm.env_rejecting 3) 3 = true
  /\ map ComponentTest.productId
         (componentTable
            (store (fire (fun r => handleDeleteProduct (SampleForm.env_rejecting 3) r
                                                       (lit "p1"))
                         Sample.world)))
     = [[]; []; lit "p2"]
  /\ productTable
       (store (fire (fun r => handleDeleteProduct (SampleForm.env_rejecting 3) r
                                                  (lit "p1"))
                    Sample.world))
     = [Sample.widget; Sample.gadget].
Proof.
  split; [reflexivity|].
  assert (Hok : forall i,
             i <= length (filter (ownedComponent (lit "p1"))
                                 (componentTable (store Sample.world))) ->
             request_fails (SampleForm.env_rejecting 3) (requests Sample.world + i)
             = false).
  { intros i Hi. simpl in Hi. simpl. apply Nat.eqb_neq. lia. }
  destruct (failed_photo_query_leaves_components_detached
              (SampleForm.env_rejecting 3) Sample.world (lit "p1")
              sample_ids_unique Hok eq_refl) as (Hc & Hp & _).
  rewrite Hc, Hp. split; reflexivity.
Defined.

Lemma selecting_shows_the_product_witness :
  In Sample.gadget (productTable (store Sample.world))
  /\ Product.id Sample.gadget <> []
  /\ selectedProduct
       (render (snd (setSelectedProductId (Some (lit "p2")) Sample.world)))
     = Some Sample.gadget
  /\ components
       (render (snd (setSelectedProductId (Some (lit "p2")) Sample.world)))
     = [Sample.battery].
Proof.
  assert (Hin : In Sample.gadget (productTable (store Sample.world)))
    by (simpl; auto).
  assert (Hne : Product.id Sample.gadget <> []) by discriminate.
  split; [exact Hin|]. split; [exact Hne|].
  destruct (selecting_shows_the_product Sample.world Sample.gadget
              (proj1 sample_ids_unique) Hin Hne) as (H1 & H2 & _).
  split; [exact H1 | exact H2].
Defined.

Lemma failed_search_changes_nothing_witness :
  inventorySearchId (ui Sample.world) <> []
  /\ request_fails (SampleForm.env_rejecting 0) (requests Sample.world) = true
  /\ ui (fire (handleSearchByInventoryId (SampleForm.env_rejecting 0)) Sample.world)
     = ui Sample.world.
Proof.
  assert (Hne : inventorySearchId (ui Sample.world) <> []) by discriminate.
  split; [exact Hne|]. split; [reflexivity|].
  exact (proj1 (failed_search_changes_nothing (SampleForm.env_rejecting 0)
                  Sample.world Hne eq_refl)).
Defined.

Lemma search_shows_a_matching_product_witness :
  Forall (fun p => Product.id p <> []) (productTable (store Sample.world))
  /\ selectedProduct
       (render (fire (handleSearchByInventoryId Sample.env) Sample.world))
     = Some Sample.gadget
  /\ Product.inventoryId Sample.gadget = inventorySearchId (ui Sample.world).
Proof.
  assert (Hids : Forall (fun p => Product.id p <> [])
                        (productTable (store Sample.world)))
    by (repeat constructor; discriminate).
  assert (Hne : inventorySearchId (ui Sample.world) <> []) by discriminate.
  split; [exact Hids|].
  destruct (search_shows_a_matching_product Sample.env Sample.world Sample.gadget []
              (proj1 sample_ids_unique) Hids Hne eq_refl eq_refl) as (H1 & H2 & _).
  split; [exact H1 | exact H2].
Defined.

Lemma captureScreenshot_touches_only_the_console_witness :
  testPanelRef Sample.world <> None
  /\ fst (captureScreenshot Sample.env_no_canvas Sample.world) = Resolved None
  /\ store (snd (captureScreenshot Sample.env_no_canvas Sample.world))
     = store Sample.world
  /\ exists e,
       effects (snd (captureScreenshot Sample.env_no_canvas Sample.world))
       = effects Sample.world ++ [ConsoleError (lit "Screenshot capture failed:") e].
Proof.
  assert (Hp : testPanelRef Sample.world <> None) by discriminate.
  split; [exact Hp|]. split; [reflexivity|].
  destruct (captureScreenshot_touches_only_the_console Sample.env_no_canvas
                                                       Sample.world)
    as (_ & Hs & _ & _ & _ & _ & He).
  split; [exact Hs | exact (He Hp eq_refl)].
Defined.

Lemma download_saves_or_alerts_witness :
  selectedProduct (render Sample.world) = Some Sample.widget
  /\ saves (appended Sample.world
              (fire (handleDownloadWordReport SampleForm.env_no_packer) Sample.world))
     = []
  /\ alerts (appended Sample.world
               (fire (handleDownloadWordReport SampleForm.env_no_packer) Sample.world))
     = [lit "Failed to generate document. Please try again."].
Proof.
  split; [reflexivity|].
  destruct (download_saves_or_alerts SampleForm.env_no_packer Sample.world
                                     Sample.widget eq_refl)
    as (shot & Hshot & Hmatch & _).
  injection Hshot as <-. exact Hmatch.
Defined.

Lemma email_saves_then_composes_witness :
  exportGuard Email (render Sample.world) = Some Sample.widget
  /\ showExportModal (ui (fire (handleEmailReport Sample.env) Sample.world)) = false
  /\ emailAddress (ui (fire (handleEmailReport Sample.env) Sample.world)) = []
  /\ alerts (appended Sample.world (fire (handleEmailReport Sample.env) Sample.world))
     = [].
Proof.
  split; [reflexivity|].
  destruct (email_saves_then_composes Sample.env Sample.world Sample.widget eq_refl)
    as (shot & Hshot & Hmatch & _).
  injection Hshot as <-.
  destruct Hmatch as (_ & _ & Ha & Hm & He).
  split; [exact Hm|]. split; [exact He | exact Ha].
Defined.

Lemma export_without_guard_does_nothing_witness :
  exportGuard Download (render SampleForm.unselected) = None
  /\ fire (exportHandler Sample.env Download) SampleForm.unselected
     = SampleForm.unselected.
Proof.
  split; [reflexivity|].
  exact (export_without_guard_does_nothing Sample.env Download SampleForm.unselected
                                           eq_refl).
Defined.

Lemma handleRemovePhoto_removes_one_witness :
  0 < length (NewProduct.photos (newProduct SampleForm.form))
  /\ NewProduct.photos (newProduct (handleRemovePhoto 0 SampleForm.form))
     = [lit "data:image/png;base64,DDDD"]
  /\ handleRemovePhoto 2 SampleForm.form = SampleForm.form.
Proof.
  split; [simpl; lia|].
  destruct (handleRemovePhoto_removes_one 0 SampleForm.form) as (H1 & _).
  destruct (handleRemovePhoto_removes_one 2 SampleForm.form) as (_ & _ & H3 & _).
  split; [exact H1 | apply H3; simpl; lia].
Defined.

Lemma draft_component_add_then_remove_witness :
  newComponent SampleForm.form <> []
  /\ NewProduct.components
       (newProduct (handleAddComponent SampleForm.form SampleForm.form))
     = [lit "Bulb"; lit "Cord"; lit "Shade"]
  /\ NewProduct.components
       (newProduct
          (removeComponent (handleAddComponent SampleForm.form SampleForm.form) 2
                           (handleAddComponent SampleForm.form SampleForm.form)))
     = [lit "Bulb"; lit "Cord"].
Proof.
  assert (Hne : newComponent SampleForm.form <> []) by discriminate.
  split; [exact Hne|].
  destruct (proj1 (proj2 (draft_component_add_then_remove SampleForm.form)) Hne)
    as (H1 & _ & _ & H4).
  split; [exact H1 | exact H4].
Defined.

Lemma uploads_all_arrive_witness :
  Permutation [SampleForm.readAsDataURL 3%N; SampleForm.readAsDataURL 1%N;
               SampleForm.readAsDataURL 2%N]
              (handlePhotoUpload SampleForm.readAsDataURL (Some [1; 2; 3]%N))
  /\ length (NewProduct.photos
               (newProduct
                  (finish_all [SampleForm.readAsDataURL 3%N; SampleForm.readAsDataURL 1%N;
                               SampleForm.readAsDataURL 2%N]
                              SampleForm.form)))
     = 4.
Proof.
  assert (Hperm : Permutation [SampleForm.readAsDataURL 3%N; SampleForm.readAsDataURL 1%N;
                               SampleForm.readAsDataURL 2%N]
                              (handlePhotoUpload SampleForm.readAsDataURL
                                                 (Some [1; 2; 3]%N))).
  { simpl. apply Permutation_sym.
    eapply perm_trans; [apply perm_skip, perm_swap|]. apply perm_swap. }
  split; [exact Hperm|].
  destruct (uploads_all_arrive SampleForm.readAsDataURL (Some [1; 2; 3]%N) _
                               SampleForm.form Hperm) as (_ & _ & Hlen & _).
  rewrite Hlen. reflexivity.
Defined.

Lemma sample_ids_fresh : fresh_ids SampleForm.ids (store Sample.world).
Proof.
  intros n. unfold SampleForm.ids.
  change (lit "new-") with [110; 101; 119; 45]%N. cbn [app].
  repeat split; try discriminate; cbn [map store Sample.world Sample.tables
    productTable componentTable photoTable In]; intuition discriminate.
Defined.

Lemma sample_ids_injective (a b : nat) : SampleForm.ids a = SampleForm.ids b -> a = b.
Proof.
  unfold SampleForm.ids. intros H. apply app_inv_head in H.
  apply Number_toString_inj in H. now apply Nat2Z.inj.
Defined.

Lemma add_with_missing_field_does_nothing_witness :
  NewProduct.name (newProduct (form SampleForm.blank)) = []
  /\ fireA (handleAddProduct Sample.env SampleForm.ids) SampleForm.blank
     = SampleForm.blank.
Proof.
  split; [reflexivity|].
  exact (add_with_missing_field_does_nothing Sample.env SampleForm.ids SampleForm.blank
                                             (or_introl eq_refl)).
Defined.

Lemma add_creates_the_draft_witness :
  NewProduct.name (newProduct (form SampleForm.app)) <> []
  /\ NewProduct.inventoryId (newProduct (form SampleForm.app)) <> []
  /\ map ComponentTest.name
         (componentTable
            (store (world (fireA (handleAddProduct Sample.env SampleForm.ids)
                                 SampleForm.app))))
     = [lit "Motor"; lit "Switch"; lit "Battery"; lit "Bulb"; lit "Cord"]
  /\ selectedProductId
       (ui (world (fireA (handleAddProduct Sample.env SampleForm.ids) SampleForm.app)))
     = Some (lit "new-0").
Proof.
  assert (Hn : NewProduct.name (newProduct (form SampleForm.app)) <> [])
    by discriminate.
  assert (Hi : NewProduct.inventoryId (newProduct (form SampleForm.app)) <> [])
    by discriminate.
  split; [exact Hn|]. split; [exact Hi|].
  destruct (add_creates_the_draft Sample.env SampleForm.ids SampleForm.app Hn Hi
                                  (fun n => eq_refl))
    as (_ & Hc & _ & _ & Hsel & _).
  split; [rewrite Hc; reflexivity | exact Hsel].
Defined.

Lemma submitted_product_is_on_screen_witness :
  fresh_ids SampleForm.ids (store (world SampleForm.app))
  /\ map ComponentTest.name
         (components
            (render (world (fireA (handleAddProduct Sample.env SampleForm.ids)
                                  SampleForm.app))))
     = [lit "Bulb"; lit "Cord"]
  /\ getStatusStats
       (render (world (fireA (handleAddProduct Sample.env SampleForm.ids)
                             SampleForm.app)))
       (lit "new-0")
     = mkStats 0 0 2 2.
Proof.
  assert (Hn : NewProduct.name (newProduct (form SampleForm.app)) <> [])
    by discriminate.
  assert (Hi : NewProduct.inventoryId (newProduct (form SampleForm.app)) <> [])
    by discriminate.
  split; [exact sample_ids_fresh|].
  destruct (submitted_product_is_on_screen Sample.env SampleForm.ids SampleForm.app
              Hn Hi (fun n => eq_refl) sample_ids_fresh (proj1 sample_ids_unique))
    as (_ & Hc & _ & Hs).
  split; [exact Hc | exact Hs].
Defined.

Lemma add_keeps_ids_unique_witness :
  ids_unused SampleForm.ids (world SampleForm.app)
  /\ unique_ids
       (store (world (fireA (handleAddProduct (SampleForm.env_rejecting 2)
                                              SampleForm.ids)
                            SampleForm.app))).
Proof.
  assert (Hu : ids_unused SampleForm.ids (world SampleForm.app)).
  { intros k _. destruct (sample_ids_fresh k) as (_ & H1 & H2 & H3 & _). auto. }
  split; [exact Hu|].
  exact (proj1 (add_keeps_ids_unique (SampleForm.env_rejecting 2) SampleForm.ids
                  sample_ids_injective SampleForm.app sample_ids_unique Hu)).
Defined.

Lemma add_resets_form_or_logs_witness :
  NewProduct.name (newProduct (form SampleForm.app)) <> []
  /\ NewProduct.inventoryId (newProduct (form SampleForm.app)) <> []
  /\ form (fireA (handleAddProduct (SampleForm.env_rejecting 2) SampleForm.ids)
                 SampleForm.app)
     = SampleForm.form
  /\ length (productTable
               (store (world (fireA (handleAddProduct (SampleForm.env_rejecting 2)
                                                      SampleForm.ids)
                                    SampleForm.app))))
     = 3.
Proof.
  assert (Hn : NewProduct.name (newProduct (form SampleForm.app)) <> [])
    by discriminate.
  assert (Hi : NewProduct.inventoryId (newProduct (form SampleForm.app)) <> [])
    by discriminate.
  split; [exact Hn|]. split; [exact Hi|].
  destruct (add_resets_form_or_logs (SampleForm.env_rejecting 2) SampleForm.ids
                                    SampleForm.app Hn Hi)
    as [(Hf & _) | (e & Hf & _)].
  - discriminate Hf.
  - split; [exact Hf | reflexivity].
Defined.
